(** * Namron 4512785 Zigbee relay converter: attribute translation layer

    A shallow embedding of the external converter for the Namron 4512785
    30A relay and of the properties its specification states about it.

    Two revisions of the converter are in the repository.  [Converter]
    embeds the current one (CONVERTER_VERSION 1.4.0, build 2025-11-28-012),
    which is the one the specification documents; [Relay30a] embeds the
    earlier [namron_30a_relay.mjs], which the specification mentions as a
    variant snapshot, reusing from [Converter] the functions that read the
    same in both.  The properties are stated of [Converter]; where the
    earlier revision behaves differently a lemma about [Relay30a] says how.

    The manufacturer's definition of the private cluster 0x04E0, which
    comes with the converter, is embedded as
    [HzcSwitchUserInterfaceConfigurationCluster].

    [Js] fixes the fragment of JavaScript the converter is written in.
    Numbers are IEEE 754 binary64 values computed with [spec_float], the
    reference implementation of the kernel's floating-point numbers, so an
    arithmetic result below is the value a JavaScript engine produces. *)

From Stdlib Require Import ZArith QArith Qround Qabs Bool List String Ascii Lia.
From Stdlib Require Import Floats.SpecFloat.
From stdpp Require Import gmap strings pretty.

Local Open Scope Z_scope.

(** * The JavaScript fragment *)

Module Js.

(** ** Numbers *)

Definition number := spec_float.
Definition prec : Z := 53.
Definition emax : Z := 1024.

Definition NaN : number := S754_nan.

(** The number denoted by an integer literal: the integer rounded to the
    format, to nearest with ties to even.  Every integer below 2^53 in
    magnitude is a binary64 value and denotes itself. *)
Definition of_int (n : Z) : number := binary_normalize prec emax n 0 false.

Definition mul : number -> number -> number := SFmul prec emax.
Definition div : number -> number -> number := SFdiv prec emax.

(** The number denoted by the decimal literal [n / 10^k] written with [k]
    fractional digits (284.27 is [decimal 28427 2]): numerator and power of
    ten are exact, and division rounds to the nearest binary64 value, which
    is what reading the literal does. *)
Definition decimal (n : Z) (k : Z) : number := div (of_int n) (of_int (10 ^ k)).

Definition is_nan (x : number) : bool :=
  match x with S754_nan => true | _ => false end.

(** [Number.isFinite] on a number. *)
Definition is_finite (x : number) : bool :=
  match x with
  | S754_zero _ | S754_finite _ _ _ => true
  | S754_infinity _ | S754_nan => false
  end.

(** [x === y] on numbers: NaN differs from everything, +0 equals -0. *)
Definition num_eqb (x y : number) : bool := SFeqb x y.

(** [Math.round]: the integer closest to [x], ties going towards +Infinity;
    the sign of a zero result is the sign of [x].  A finite [x] is
    [(-1)^s * m * 2^e]; with [e >= 0] it is an integer already, otherwise
    the result is [floor ((2 * x + 1) / 2)] computed on the mantissa. *)
Definition Math_round (x : number) : number :=
  match x with
  | S754_finite s m e =>
      if 0 <=? e then x
      else
        let n := (2 * cond_Zopp s (Z.pos m) + 2 ^ (- e)) / 2 ^ (- e + 1) in
        if n =? 0 then S754_zero s else of_int n
  | _ => x
  end.

(** [Math.max] of two numbers. *)
Definition Math_max (x y : number) : number :=
  if is_nan x || is_nan y then NaN
  else if SFltb x y then y
  else if SFltb y x then x
  else match x, y with
       | S754_zero true, S754_zero false => y
       | _, _ => x
       end.

(** The exact value of a finite number, as a rational. *)
Definition to_Q (x : number) : option Q :=
  match x with
  | S754_zero _ => Some 0%Q
  | S754_finite s m e =>
      Some (if 0 <=? e then inject_Z (cond_Zopp s (Z.pos m) * 2 ^ e)
            else Qmake (cond_Zopp s (Z.pos m)) (Z.to_pos (2 ^ (- e))))
  | _ => None
  end.

(** The integer a number equals, when it is finite and integral. *)
Definition to_int (x : number) : option Z :=
  match x with
  | S754_zero _ => Some 0
  | S754_finite s m e =>
      if 0 <=? e then Some (cond_Zopp s (Z.pos m) * 2 ^ e)
      else if (Z.pos m) mod 2 ^ (- e) =? 0
           then Some (cond_Zopp s (Z.pos m / 2 ^ (- e)))
           else None
  | _ => None
  end.

(** ** Values *)

(** The primitive values a ZCL attribute report, a read response or a
    user command carries. *)
Inductive value : Type :=
  | VUndefined
  | VNull
  | VBool (b : bool)
  | VNumber (x : number)
  | VString (s : string).

(** Number literals as values. *)
Definition int (n : Z) : value := VNumber (of_int n).

(** ToBoolean. *)
Definition truthy (v : value) : bool :=
  match v with
  | VUndefined | VNull => false
  | VBool b => b
  | VNumber x =>
      match x with
      | S754_zero _ | S754_nan => false
      | _ => true
      end
  | VString s => negb (String.eqb s "")
  end.

(** [typeof v === 'number']. *)
Definition is_number (v : value) : bool :=
  match v with VNumber _ => true | _ => false end.

(** [v == null]: null or undefined. *)
Definition nullish (v : value) : bool :=
  match v with VUndefined | VNull => true | _ => false end.

(** [v === w]. *)
Definition strict_eq (v w : value) : bool :=
  match v, w with
  | VUndefined, VUndefined | VNull, VNull => true
  | VBool a, VBool b => Bool.eqb a b
  | VNumber x, VNumber y => num_eqb x y
  | VString s, VString t => String.eqb s t
  | _, _ => false
  end.

(** [a ?? b]. *)
Definition coalesce (a b : value) : value := if nullish a then b else a.

(** ** The host runtime

    Library functions of the engine that the converter calls and whose
    results the language standard leaves to the implementation or defines
    by a grammar of its own: reading a number out of a string, printing a
    number that is not a small integer, [Math.log10] and [**]. *)
Class Runtime : Type := {
  StringToNumber : string -> number;
  NumberToString : number -> string;
  Math_log10 : number -> number;
  exponentiate : number -> number -> number;
}.

Section WithRuntime.
Context `{Runtime}.

(** ToNumber. *)
Definition ToNumber (v : value) : number :=
  match v with
  | VUndefined => NaN
  | VNull => S754_zero false
  | VBool true => of_int 1
  | VBool false => S754_zero false
  | VNumber x => x
  | VString s => StringToNumber s
  end.

(** [v / d] and [v * d], operands converted with ToNumber. *)
Definition js_div (v w : value) : number := div (ToNumber v) (ToNumber w).
Definition js_mul (v w : value) : number := mul (ToNumber v) (ToNumber w).

(** Number::toString: an integer below 10^21 in magnitude prints as its
    decimal digits (both zeros print as 0). *)
Definition Number_toString (x : number) : string :=
  match x with
  | S754_nan => "NaN"
  | S754_infinity false => "Infinity"
  | S754_infinity true => "-Infinity"
  | _ =>
      match to_int x with
      | Some n => if Z.abs n <? 10 ^ 21 then pretty n else NumberToString x
      | None => NumberToString x
      end
  end.

(** ToPropertyKey on a primitive: the name under which [obj[v]] looks. *)
Definition ToPropertyKey (v : value) : string :=
  match v with
  | VUndefined => "undefined"
  | VNull => "null"
  | VBool true => "true"
  | VBool false => "false"
  | VNumber x => Number_toString x
  | VString s => s
  end.

End WithRuntime.

(** ** Strings

    A [string] is a sequence of code units below 256.  [String.prototype.trim]
    removes white space and line terminators from both ends; below 256 these
    are TAB, LF, VT, FF, CR, SPACE and NO-BREAK SPACE. *)
Definition is_white_space (c : ascii) : bool :=
  let n := N_of_ascii c in
  ((9 <=? n) && (n <=? 13) || (n =? 32) || (n =? 160))%N.

Fixpoint trim_start (s : string) : string :=
  match s with
  | String c s' => if is_white_space c then trim_start s' else s
  | EmptyString => EmptyString
  end.

Definition trim (s : string) : string :=
  String.rev (trim_start (String.rev (trim_start s))).

(** ** Objects

    A plain object is a finite map from property names to values; only own
    properties are modelled.  A numeric property name such as [0x0505]
    names the property "1285". *)
Abbreviation object := (gmap string value).

Definition idx (n : N) : string := pretty n.

(** [Object.prototype.hasOwnProperty.call(obj, k)]. *)
Definition hasOwn (obj : object) (k : string) : bool :=
  match obj !! k with Some _ => true | None => false end.

(** [obj[k]]. *)
Definition get (obj : object) (k : string) : value :=
  match obj !! k with Some v => v | None => VUndefined end.

(** ** Exceptions *)

Inductive thrown : Type :=
  | MissingValue (label : string)
      (* Error(`[Namron4512785] missing value for ${label}`) *)
  | InvalidValue (label : string) (offending : value)
      (* Error(`[Namron4512785] invalid ${label}: ${value}`) *)
  | UnsupportedKey (key : string)
      (* Error(`[Namron4512785] unsupported set key ${key}`) *)
  | ReadFailed (key : string) (cause : thrown)
      (* Error(`Failed to read ${key}: ${err.message}`) *)
  | TypeError
      (* a property access or call on undefined or null *)
  | TransportError (message : string).
      (* whatever the radio stack throws *)

Inductive result (A : Type) : Type :=
  | Return (a : A)
  | Throw (e : thrown).
Arguments Return {A} a.
Arguments Throw {A} e.

#[global] Instance result_ret : MRet result := fun A a => Return a.
#[global] Instance result_bind : MBind result := fun A B k r =>
  match r with
  | Return a => k a
  | Throw e => Throw e
  end.

(** [try { body } catch (err) { handler(err) }]. *)
Definition try_catch {A} (body : result A) (handler : thrown -> result A) : result A :=
  match body with
  | Return a => Return a
  | Throw e => handler e
  end.

End Js.

Export Js.

(** * Helpers shared by both revisions *)

(** [keys.some(k => hasOwnProperty(obj, k))]. *)
Definition hasAny (obj : object) (keys : list string) : bool :=
  existsb (hasOwn obj) keys.

(** [keys.find(k => hasOwnProperty(obj, k))]: the first acceptable key that
    is present, [None] standing for [undefined]. *)
Definition pick (obj : object) (keys : list string) : option string :=
  find (hasOwn obj) keys.

(** An enumeration table as the object literal lists it: label and code,
    in source order. *)
Definition EnumMapping := list (string * Z).

(** [Object.prototype.hasOwnProperty.call(map, key)] and [map[key]]. *)
Definition enum_code (map : EnumMapping) (key : string) : option Z :=
  snd <$> find (fun '(k, _) => String.eqb k key) map.

(** [invert]: [Object.fromEntries] of the swapped entries; a later entry
    overwrites an earlier one with the same code. *)
Definition invert (map : EnumMapping) : object :=
  foldl (fun inv '(k, v) => <[pretty v := VString k]> inv) ∅ map.

(** What the two parsers return: [{raw, text}]. *)
Record parsed : Type := { raw : number; text : value }.

Definition parseEnumValue (v : value) (map : EnumMapping) (label : string)
  : result parsed :=
  if nullish v then Throw (MissingValue label)
  else
    match v with
    | VString s =>
        let key := trim s in
        match enum_code map key with
        | Some code => Return {| raw := of_int code; text := VString key |}
        | None => Throw (InvalidValue label v)
        end
    | VNumber x =>
        match find (fun '(_, code) => num_eqb (of_int code) x) map with
        | Some (k, _) => Return {| raw := x; text := VString k |}
        | None => Throw (InvalidValue label v)
        end
    | _ => Throw (InvalidValue label v)
    end.

Section Parsers.
Context `{Runtime}.

(** [parseNumeric(value, label, scale = 1)]. *)
Definition parseNumeric (v : value) (label : string) (scale : number)
  : result parsed :=
  if nullish v then Throw (MissingValue label)
  else
    let num := ToNumber v in
    if negb (is_finite num) then Throw (InvalidValue label v)
    else
      let raw := Math_round (mul num scale) in
      if num_eqb scale (of_int 1) then Return {| raw := raw; text := VNumber raw |}
      else
        let decimals := Math_round (Math_log10 scale) in
        let factor := exponentiate (of_int 10) (Math_max decimals (of_int 0)) in
        let friendly := div (Math_round (mul (div raw scale) factor)) factor in
        Return {| raw := raw; text := VNumber friendly |}.

(** [INV[raw] ?? raw]: the label of a wire code, or the code itself when
    the table has none. *)
Definition label_or_raw (inv : object) (raw : value) : value :=
  coalesce (get inv (ToPropertyKey raw)) raw.

End Parsers.

(** The clusters are named by string or by number. *)
Inductive cluster_ref : Type :=
  | ClusterName (name : string)
  | ClusterId (id : N).

Definition PRIVATE_CLUSTER_ID : N := 0x04E0.

(** An inbound attribute report or read response: [msg.data]. *)
Record message : Type := { data : option object }.

(** A fromZigbee converter. *)
Record fz_converter : Type := {
  cluster : cluster_ref;
  type : list string;
  convert : message -> option object;
}.

(** [entity.read(cluster, attributes)]: the attributes read, [None] when
    the stack resolves to undefined, or the transport's exception. *)
Definition reader := cluster_ref -> list N -> result (option object).

(** [pick(res, keys)] on a read result: property access on undefined throws. *)
Definition pick_res (res : option object) (keys : list string)
  : result (option string) :=
  match res with
  | Some obj => Return (pick obj keys)
  | None => Throw TypeError
  end.

(** [res?.[k]], where [k] may be undefined and then names the property
    called "undefined". *)
Definition get_res (res : option object) (k : option string) : value :=
  match res with
  | Some obj => get obj (default "undefined" k)
  | None => VUndefined
  end.

(** [{state: {field: val}}], the state a toZigbee converter reports. *)
Definition state (field : string) (val : value) : option object :=
  Some {[ field := val ]}.

(** The two sentinel tests every temperature decode makes:
    [raw !== -32768 && raw !== 0x8000]. *)
Definition not_sentinel (raw : value) : bool :=
  negb (strict_eq raw (int (-32768))) && negb (strict_eq raw (int 0x8000)).

(** [switch (key) { case k: ... default: ... }] over string cases, every
    case ending in return or break. *)
Definition switch {A} (key : string) (cases : list (string * A)) (otherwise : A) : A :=
  match find (fun '(k, _) => String.eqb k key) cases with
  | Some (_, branch) => branch
  | None => otherwise
  end.

(** [mapAndAssign(attrId, aliases, handler)] inside [private_04e0_num]:
    the handler, which assigns into [out], runs on the first alias present. *)
Definition mapAndAssign (d : object) (attrId : N) (aliases : list string)
    (handler : value -> object -> object) (out : object) : object :=
  if hasAny d aliases
  then handler (get d (default "undefined" (pick d aliases))) out
  else out.

(** [Object.keys(out).length ? out : undefined]. *)
Definition nonempty (out : object) : option object :=
  if (size out =? 0)%nat then None else Some out.

(** The ZCL data types the write path names. *)
Inductive DataType : Type := ENUM8 | INT16 | INT8.

(** [entity.write(cluster, {attr: {value, type}})]. *)
Record write_call : Type := {
  w_cluster : N;
  w_attr : N;
  w_value : number;
  w_type : option DataType;
}.

(** ** Devices, endpoints and the calls made on them *)

Record endpoint : Type := {
  ID : N;
  inputClusters : option (list value);
}.

Record device : Type := {
  ieeeAddr : option string;
  modelID : string;
  manufacturerName : string;
  endpoints : option (list endpoint);
  getEndpoint : N -> option endpoint;
}.

(** [hasCluster(ep, cid)] inside [findBestEndpoint]: the cluster is listed
    by number or by the number's decimal text.  [includes] compares with
    SameValueZero, which on the non-NaN number and the string searched for
    is [===]. *)
Definition hasCluster (ep : endpoint) (cid : N) : bool :=
  let inputs := default [] (inputClusters ep) in
  existsb (strict_eq (int (Z.of_N cid))) inputs
  || existsb (strict_eq (VString (pretty cid))) inputs.

Definition findBestEndpoint (dev : device) : option endpoint :=
  let desired : list N := [0x0006; 0x0002; 0x0402; 0x0B04; 0x0702]%N in
  let eps := default [] (endpoints dev) in
  match find (fun ep => existsb (hasCluster ep) desired) eps with
  | Some ep => Some ep
  | None =>
      match getEndpoint dev 1%N with
      | Some ep => Some ep
      | None => head eps
      end
  end.

(** One entry of a [configureReporting] request. *)
Record report_item : Type := {
  attribute : N;
  minimumReportInterval : Z;
  maximumReportInterval : Z;
  reportableChange : Z;
}.

(** The requests the setup and the poll timer send through the radio stack,
    each on the endpoint whose [ID] it carries.  [Bind] is
    [reporting.bind(endpoint, coordinatorEndpoint, clusters)]; the
    coordinator endpoint, handed through as it came, is left out. *)
Inductive call : Type :=
  | Bind (ep : N) (clusters : list string)
  | ReportOnOff (ep : N)
  | ReportTemperature (ep : N) (min max change : Z)
  | ReportRmsVoltage (ep : N) (min max change : Z)
  | ReportRmsCurrent (ep : N) (min max change : Z)
  | ReportActivePower (ep : N) (min max change : Z)
  | ConfigureReporting (ep : N) (cluster : N) (items : list report_item)
  | Read (ep : N) (cluster : cluster_ref) (attrs : list N).

(** Where a log line ends up: [mkLogger] prefers the logger's method of the
    level, then its [log], then [console.warn]. *)
Inductive sink : Type :=
  | LoggerInfo | LoggerWarn | LoggerError | LoggerLog | ConsoleWarn.

(** A log line: its text, and the exception a template interpolates. *)
Inductive line : Type :=
  | Text (s : string)
  | TextErr (s : string) (err : thrown).

Inductive event : Type :=
  | Called (c : call)
  | Logged (to : sink) (l : line).

(** The radio stack decides, from what happened so far, whether a request
    succeeds or throws. *)
Definition transport := list event -> call -> option thrown.

(** Sequential effectful code: the history of events is threaded through,
    and a computation returns or throws. *)
Definition io (A : Type) : Type := list event -> result A * list event.

#[global] Instance io_ret : MRet io := fun A a h => (Return a, h).
#[global] Instance io_bind : MBind io := fun A B k m h =>
  match m h with
  | (Return a, h') => k a h'
  | (Throw e, h') => (Throw e, h')
  end.

Definition io_throw {A} (e : thrown) : io A := fun h => (Throw e, h).

(** [await request]. *)
Definition request (net : transport) (c : call) : io unit := fun h =>
  match net h c with
  | Some e => (Throw e, h ++ [Called c])
  | None => (Return tt, h ++ [Called c])
  end.

(** [try { body } catch (err) { handler(err) }] around effectful code. *)
Definition io_try (body : io unit) (handler : thrown -> io unit) : io unit := fun h =>
  match body h with
  | (Return a, h') => (Return a, h')
  | (Throw e, h') => handler e h'
  end.

(** The [logger] argument of [configure]: which methods it has. *)
Record logger : Type := {
  has_info : bool;
  has_warn : bool;
  has_error : bool;
  has_log : bool;
}.

(** [mkLogger(logger)]. *)
Definition L_info (lg : option logger) (l : line) : io unit := fun h =>
  (Return tt,
   h ++ [Logged (match lg with
                 | Some g => if has_info g then LoggerInfo
                             else if has_log g then LoggerLog else ConsoleWarn
                 | None => ConsoleWarn
                 end) l]).

Definition L_warn (lg : option logger) (l : line) : io unit := fun h =>
  (Return tt,
   h ++ [Logged (match lg with
                 | Some g => if has_warn g then LoggerWarn
                             else if has_log g then LoggerLog else ConsoleWarn
                 | None => ConsoleWarn
                 end) l]).

Definition L_error (lg : option logger) (l : line) : io unit := fun h =>
  (Return tt,
   h ++ [Logged (match lg with
                 | Some g => if has_error g then LoggerError
                             else if has_log g then LoggerLog else ConsoleWarn
                 | None => ConsoleWarn
                 end) l]).

(** A text between double quotes, as a template literal interpolates it. *)
Definition quoted (s : string) : string :=
  String (ascii_of_nat 34) (s +:+ String (ascii_of_nat 34) EmptyString).

(** [ids.join(',')]. *)
Fixpoint join_ids (ids : list N) : string :=
  match ids with
  | [] => ""
  | [i] => pretty i
  | i :: rest => pretty i +:+ "," +:+ join_ids rest
  end.

(** ** Poll timers

    [globalThis.__namron4512785_poll__] is a Map from a device's IEEE
    address to the handle [setInterval] returned.  The timers the event
    loop keeps alive are modelled beside it: each live handle with the
    device its callback polls. *)
Record interval : Type := {
  polled : device;
  intervalMs : Z;
}.

Record timers : Type := {
  registry : gmap string N;
  live : gmap N interval;
  next_handle : N;
}.

(** [setInterval(callback, ms)]: a fresh handle, now live. *)
Definition setInterval (t : interval) (st : timers) : N * timers :=
  (next_handle st,
   {| registry := registry st;
      live := <[ next_handle st := t ]> (live st);
      next_handle := N.succ (next_handle st) |}).

(** [clearInterval(handle)]. *)
Definition clearInterval (h : N) (st : timers) : timers :=
  {| registry := registry st; live := delete h (live st); next_handle := next_handle st |}.

(** [registry.set(key, handle)] and [registry.delete(key)]. *)
Definition registry_set (key : string) (h : N) (st : timers) : timers :=
  {| registry := <[ key := h ]> (registry st); live := live st; next_handle := next_handle st |}.

Definition registry_delete (key : string) (st : timers) : timers :=
  {| registry := delete key (registry st); live := live st; next_handle := next_handle st |}.

(** The first argument of [onEvent]: the event's name, or an event object
    whose [type] and [device] properties, when it has a [type], replace the
    name and the device argument.  A [type] property that is not a string
    is [None]. *)
Inductive event_arg : Type :=
  | Named (name : string)
  | EventObject (fields : option (option string * option device)).

(** * The converter, version 1.4.0 *)

Module Converter.

Definition NTC_TYPE_MAP : EnumMapping :=
  [("None", 0); ("NTC-10K", 1); ("NTC-12K", 2); ("NTC-15K", 3);
   ("NTC-22K", 4); ("NTC-33K", 5); ("NTC-47K", 6)].
Definition NTC_TYPE_INV : object := invert NTC_TYPE_MAP.

Definition WATER_RELAY_ACTION_MAP : EnumMapping :=
  [("No action", 0);
   ("Water alarm: Turn OFF (restore when dry)", 1);
   ("Water alarm: Turn ON (restore when dry)", 2);
   ("Water alarm: Turn OFF (stay off)", 3);
   ("Water alarm: Turn ON (stay on)", 4);
   ("No water: Turn OFF", 5);
   ("No water: Turn ON", 6)].
Definition WATER_RELAY_ACTION_INV : object := invert WATER_RELAY_ACTION_MAP.

Definition NTC1_OPERATION_MAP : EnumMapping :=
  [("No action", 0);
   ("OFF when hot, ON when cold", 1);
   ("ON when hot, OFF when cold", 2);
   ("OFF when hot (stay off)", 3);
   ("ON when hot (stay on)", 4)].
Definition NTC1_OPERATION_INV : object := invert NTC1_OPERATION_MAP.

Definition NTC2_OPERATION_MAP : EnumMapping :=
  [("No action", 0);
   ("OFF when hot, ON when cold", 1);
   ("ON when hot, OFF when cold", 2);
   ("OFF when hot (stay off)", 3);
   ("ON when hot (stay on)", 4)].
Definition NTC2_OPERATION_INV : object := invert NTC2_OPERATION_MAP.

Definition OVERRIDE_OPTION_MAP : EnumMapping :=
  [("No priority", 0);
   ("Water alarm has priority", 1);
   ("Temperature (NTC) has priority", 2)].
Definition OVERRIDE_OPTION_INV : object := invert OVERRIDE_OPTION_MAP.

Definition report_types : list string := ["attributeReport"; "readResponse"].

Section FromZigbee.
Context `{Runtime}.

(** 0x0006 genOnOff -> state. *)
Definition on_off_num : fz_converter := {|
  cluster := ClusterId 0x0006;
  type := report_types;
  convert := fun msg =>
    match data msg with
    | None => None
    | Some d =>
        match pick d [idx 0x0000; "onOff"] with
        | Some key =>
            Some {[ "state" := VString (if truthy (get d key) then "ON" else "OFF") ]}
        | None => None
        end
    end;
|}.

(** 0x0002 genDeviceTempCfg -> device_temperature (attr 0x0000, /10). *)
Definition device_temp_num : fz_converter := {|
  cluster := ClusterName "genDeviceTempCfg";
  type := report_types;
  convert := fun msg =>
    match data msg with
    | None => None
    | Some d =>
        match pick d [idx 0x0000; "currentTemperature"] with
        | Some key =>
            let raw := get d key in
            if not_sentinel raw && negb (nullish raw)
            then Some {[ "device_temperature" :=
                   VNumber (div (Math_round (mul (js_div raw (int 10)) (of_int 10))) (of_int 10)) ]}
            else None
        | None => None
        end
    end;
|}.

(** 0x0402 msTemperatureMeasurement -> ntc1_temperature (attr 0x0000, /100). *)
Definition temp_measurement_num : fz_converter := {|
  cluster := ClusterName "msTemperatureMeasurement";
  type := report_types;
  convert := fun msg =>
    match data msg with
    | None => None
    | Some d =>
        match pick d [idx 0x0000; "measuredValue"] with
        | Some key =>
            let raw := get d key in
            if not_sentinel raw && negb (nullish raw)
            then Some {[ "ntc1_temperature" :=
                   VNumber (div (Math_round (mul (js_div raw (int 100)) (of_int 10))) (of_int 10)) ]}
            else None
        | None => None
        end
    end;
|}.

(** The kinds of handler [private_04e0_num] passes to [mapAndAssign]. *)
Definition assign_temperature (field : string) (raw : value) (out : object) : object :=
  if is_number raw && not_sentinel raw
  then <[ field := VNumber (div (Math_round (mul (js_div raw (int 100)) (of_int 10))) (of_int 10)) ]> out
  else out.

Definition assign_label (field : string) (inv : object) (raw : value) (out : object) : object :=
  if negb (nullish raw) then <[ field := label_or_raw inv raw ]> out else out.

Definition assign_number (field : string) (raw : value) (out : object) : object :=
  if is_number raw then <[ field := raw ]> out else out.

Definition assign_flag (field : string) (raw : value) (out : object) : object :=
  if negb (nullish raw) then <[ field := VBool (truthy raw) ]> out else out.

(** 0x04E0 private cluster. *)
Definition private_04e0_num : fz_converter := {|
  cluster := ClusterName "1248";
  type := report_types;
  convert := fun msg =>
    match data msg with
    | None => None
    | Some d =>
        let out : object := ∅ in
        let out := mapAndAssign d 0x0000 [idx 0x0000; "measuredValue2"; "ntc2Temperature"]
                     (assign_temperature "ntc2_temperature") out in
        let out := mapAndAssign d 0x0001 [idx 0x0001; "resistanceValue1"]
                     (assign_label "ntc1_sensor_type" NTC_TYPE_INV) out in
        let out := mapAndAssign d 0x0002 [idx 0x0002; "resistanceValue2"]
                     (assign_label "ntc2_sensor_type" NTC_TYPE_INV) out in
        let out := mapAndAssign d 0x0003 [idx 0x0003; "waterSensorValue"; "waterSensor"]
                     (fun raw out => <[ "water_sensor" := VBool (negb (truthy raw)) ]> out) out in
        let out := mapAndAssign d 0x0004 [idx 0x0004; "NTCCalibration1"]
                     (assign_number "ntc1_calibration") out in
        let out := mapAndAssign d 0x0005 [idx 0x0005; "NTCCalibration2"]
                     (assign_number "ntc2_calibration") out in
        let out := mapAndAssign d 0x0006 [idx 0x0006; "waterAlarmRelayAction"]
                     (assign_label "water_alarm_relay_action" WATER_RELAY_ACTION_INV) out in
        let out := mapAndAssign d 0x0007 [idx 0x0007; "ntc1OperationSelect"]
                     (assign_label "ntc1_operation_mode" NTC1_OPERATION_INV) out in
        let out := mapAndAssign d 0x0008 [idx 0x0008; "ntc2OperationSelect"]
                     (assign_label "ntc2_operation_mode" NTC2_OPERATION_INV) out in
        let out := mapAndAssign d 0x0009 [idx 0x0009; "ntc1RelayAutoTemp"]
                     (assign_temperature "ntc1_relay_auto_temp") out in
        let out := mapAndAssign d 0x000A [idx 0x000A; "ntc2RelayAutoTemp"]
                     (assign_temperature "ntc2_relay_auto_temp") out in
        let out := mapAndAssign d 0x000B [idx 0x000B; "overrideOption"]
                     (assign_label "override_option" OVERRIDE_OPTION_INV) out in
        let out := mapAndAssign d 0x000C [idx 0x000C; "ntc1TempHysterisis"]
                     (assign_number "ntc1_temp_hysteresis") out in
        let out := mapAndAssign d 0x000D [idx 0x000D; "ntc2TempHysterisis"]
                     (assign_number "ntc2_temp_hysteresis") out in
        let out := mapAndAssign d 0x000E [idx 0x000E; "waterConditionAlarm"]
                     (assign_flag "water_condition_alarm") out in
        let out := mapAndAssign d 0x000F [idx 0x000F; "ntcConditionAlarm"]
                     (assign_flag "ntc_condition_alarm") out in
        let out := mapAndAssign d 0x0010 [idx 0x0010; "isExecuteCondition"]
                     (assign_flag "is_execute_condition") out in
        nonempty out
    end;
|}.

(** 0x0B04 haElectricalMeasurement -> voltage (0x0505 /10),
    current (0x0508 /1000), power (0x050B). *)
Definition electrical_num : fz_converter := {|
  cluster := ClusterName "haElectricalMeasurement";
  type := report_types;
  convert := fun msg =>
    match data msg with
    | None => None
    | Some d =>
        let out : object := ∅ in
        let voltKey := pick d [idx 0x0505; "rmsVoltage"] in
        let currKey := pick d [idx 0x0508; "rmsCurrent"] in
        let powKey := pick d [idx 0x050B; "activePower"] in
        let out := match voltKey with
                   | Some k => <[ "voltage" := VNumber (js_div (get d k) (int 10)) ]> out
                   | None => out
                   end in
        let out := match currKey with
                   | Some k => <[ "current" :=
                       VNumber (div (Math_round (mul (js_div (get d k) (int 1000)) (of_int 100))) (of_int 100)) ]> out
                   | None => out
                   end in
        let out := match powKey with
                   | Some k => <[ "power" := get d k ]> out
                   | None => out
                   end in
        nonempty out
    end;
|}.

(** 0x0702 seMetering -> energy (kWh) from attr 0x0000. *)
Definition metering_num : fz_converter := {|
  cluster := ClusterName "seMetering";
  type := report_types;
  convert := fun msg =>
    match data msg with
    | None => None
    | Some d =>
        match pick d [idx 0x0000; "currentSummationDelivered"; "currentSummDelivered"] with
        | Some key =>
            let raw := get d key in
            if is_number raw
            then Some {[ "energy" :=
                   VNumber (div (Math_round (mul (js_div raw (int 100)) (of_int 100))) (of_int 100)) ]}
            else None
        | None => None
        end
    end;
|}.

Definition fromZigbee : list fz_converter :=
  [device_temp_num; temp_measurement_num; private_04e0_num; electrical_num; metering_num].

End FromZigbee.

(** ** toZigbee: refresh and write *)

(** [entity.write]: the stack accepts the write or throws. *)
Definition writer := write_call -> result unit.

Section ToZigbee.
Context `{Runtime}.

Definition get_attribute_key : list string :=
  ["device_temperature"; "ntc1_temperature"; "ntc2_temperature"; "water_sensor";
   "voltage"; "current"; "power"; "energy";
   "water_condition_alarm"; "ntc_condition_alarm"; "is_execute_condition"].

(** [tzLocal.get_attribute.convertGet(entity, key)]. *)
Definition get_attribute_convertGet (read : reader) (key : string)
  : result (option object) :=
  try_catch
    (switch key
       [("device_temperature",
           res ← read (ClusterName "genDeviceTempCfg") [0x0000%N];
           k ← pick_res res [idx 0x0000; "currentTemperature"];
           let raw := get_res res k in
           if negb (strict_eq raw VUndefined) && negb (strict_eq raw VNull) && not_sentinel raw
           then Return (state "device_temperature" raw)
           else Return None);
        ("ntc1_temperature",
           res ← read (ClusterName "msTemperatureMeasurement") [0x0000%N];
           k ← pick_res res [idx 0x0000; "measuredValue"];
           let raw := get_res res k in
           if negb (strict_eq raw VUndefined) && negb (strict_eq raw VNull) && not_sentinel raw
           then Return (state "ntc1_temperature"
                  (VNumber (div (Math_round (mul (js_div raw (int 100)) (of_int 100))) (of_int 100))))
           else Return None);
        ("ntc2_temperature",
           res ← read (ClusterId 0x04E0) [0x0000%N];
           k ← pick_res res [idx 0x0000; "ntc2Temperature"];
           let raw := get_res res k in
           if is_number raw && not_sentinel raw && negb (strict_eq raw (int 0))
           then Return (state "ntc2_temperature"
                  (VNumber (div (Math_round (mul (js_div raw (int 100)) (of_int 100))) (of_int 100))))
           else Return None);
        ("water_sensor",
           res ← read (ClusterId 0x04E0) [0x0003%N];
           k ← pick_res res [idx 0x0003; "waterSensor"];
           let raw := get_res res k in
           if negb (strict_eq raw VUndefined)
           then Return (state "water_sensor" (VBool (negb (truthy raw))))
           else Return None);
        ("voltage",
           res ← read (ClusterName "haElectricalMeasurement") [0x0505%N];
           k ← pick_res res [idx 0x0505; "rmsVoltage"];
           let raw := get_res res k in
           if is_number raw
           then Return (state "voltage" (VNumber (js_div raw (int 10))))
           else Return None);
        ("current",
           res ← read (ClusterName "haElectricalMeasurement") [0x0508%N];
           k ← pick_res res [idx 0x0508; "rmsCurrent"];
           let raw := get_res res k in
           if is_number raw
           then Return (state "current"
                  (VNumber (div (Math_round (mul (js_div raw (int 1000)) (of_int 100))) (of_int 100))))
           else Return None);
        ("power",
           res ← read (ClusterName "haElectricalMeasurement") [0x050B%N];
           k ← pick_res res [idx 0x050B; "activePower"];
           let raw := get_res res k in
           if is_number raw then Return (state "power" raw) else Return None);
        ("energy",
           res ← read (ClusterName "seMetering") [0x0000%N];
           k ← pick_res res [idx 0x0000; "currentSummationDelivered"; "currentSummDelivered"];
           let raw := get_res res k in
           if is_number raw
           then Return (state "energy"
                  (VNumber (div (Math_round (mul (js_div raw (int 100)) (of_int 100))) (of_int 100))))
           else Return None);
        ("water_condition_alarm",
           res ← read (ClusterId PRIVATE_CLUSTER_ID) [0x000E%N];
           k ← pick_res res [idx 0x000E; "waterConditionAlarm"];
           let raw := get_res res k in
           if negb (nullish raw)
           then Return (state "water_condition_alarm" (VBool (truthy raw)))
           else Return None);
        ("ntc_condition_alarm",
           res ← read (ClusterId PRIVATE_CLUSTER_ID) [0x000F%N];
           k ← pick_res res [idx 0x000F; "ntcConditionAlarm"];
           let raw := get_res res k in
           if negb (nullish raw)
           then Return (state "ntc_condition_alarm" (VBool (truthy raw)))
           else Return None);
        ("is_execute_condition",
           res ← read (ClusterId PRIVATE_CLUSTER_ID) [0x0010%N];
           k ← pick_res res [idx 0x0010; "isExecuteCondition"];
           let raw := get_res res k in
           if negb (nullish raw)
           then Return (state "is_execute_condition" (VBool (truthy raw)))
           else Return None)]
       (Return None))
    (fun err => Throw (ReadFailed key err)).

Definition set_private_attribute_key : list string :=
  ["ntc1_sensor_type"; "ntc2_sensor_type"; "water_alarm_relay_action";
   "ntc1_operation_mode"; "ntc2_operation_mode"; "ntc1_relay_auto_temp";
   "ntc2_relay_auto_temp"; "override_option"; "ntc1_calibration";
   "ntc2_calibration"; "ntc1_temp_hysteresis"; "ntc2_temp_hysteresis"].

(** The three shapes of case in [set_private_attribute.convertGet]. *)
Definition get_label (read : reader) (attr : N) (aliases : list string)
    (field : string) (inv : object) : result (option object) :=
  res ← read (ClusterId PRIVATE_CLUSTER_ID) [attr];
  k ← pick_res res aliases;
  let raw := get_res res k in
  if negb (nullish raw) then Return (state field (label_or_raw inv raw)) else Return None.

Definition get_threshold (read : reader) (attr : N) (aliases : list string)
    (field : string) : result (option object) :=
  res ← read (ClusterId PRIVATE_CLUSTER_ID) [attr];
  k ← pick_res res aliases;
  let raw := get_res res k in
  if is_number raw && not_sentinel raw
  then Return (state field
         (VNumber (div (Math_round (mul (js_div raw (int 100)) (of_int 10))) (of_int 10))))
  else Return None.

Definition get_number (read : reader) (attr : N) (aliases : list string)
    (field : string) : result (option object) :=
  res ← read (ClusterId PRIVATE_CLUSTER_ID) [attr];
  k ← pick_res res aliases;
  let raw := get_res res k in
  if is_number raw then Return (state field raw) else Return None.

(** [tzLocal.set_private_attribute.convertGet(entity, key, meta)]. *)
Definition set_private_attribute_convertGet (read : reader) (key : string)
  : result (option object) :=
  try_catch
    (switch key
       [("ntc1_sensor_type",
           get_label read 0x0001 [idx 0x0001; "resistanceValue1"] "ntc1_sensor_type" NTC_TYPE_INV);
        ("ntc2_sensor_type",
           get_label read 0x0002 [idx 0x0002; "resistanceValue2"] "ntc2_sensor_type" NTC_TYPE_INV);
        ("water_alarm_relay_action",
           get_label read 0x0006 [idx 0x0006; "waterAlarmRelayAction"]
             "water_alarm_relay_action" WATER_RELAY_ACTION_INV);
        ("ntc1_operation_mode",
           get_label read 0x0007 [idx 0x0007; "ntc1OperationSelect"]
             "ntc1_operation_mode" NTC1_OPERATION_INV);
        ("ntc2_operation_mode",
           get_label read 0x0008 [idx 0x0008; "ntc2OperationSelect"]
             "ntc2_operation_mode" NTC2_OPERATION_INV);
        ("ntc1_relay_auto_temp",
           get_threshold read 0x0009 [idx 0x0009; "ntc1RelayAutoTemp"] "ntc1_relay_auto_temp");
        ("ntc2_relay_auto_temp",
           get_threshold read 0x000A [idx 0x000A; "ntc2RelayAutoTemp"] "ntc2_relay_auto_temp");
        ("override_option",
           get_label read 0x000B [idx 0x000B; "overrideOption"] "override_option" OVERRIDE_OPTION_INV);
        ("ntc1_calibration",
           get_number read 0x0004 [idx 0x0004; "NTCCalibration1"] "ntc1_calibration");
        ("ntc2_calibration",
           get_number read 0x0005 [idx 0x0005; "NTCCalibration2"] "ntc2_calibration");
        ("ntc1_temp_hysteresis",
           get_number read 0x000C [idx 0x000C; "ntc1TempHysterisis"] "ntc1_temp_hysteresis");
        ("ntc2_temp_hysteresis",
           get_number read 0x000D [idx 0x000D; "ntc2TempHysterisis"] "ntc2_temp_hysteresis")]
       (Return None))
    (fun err => Throw (ReadFailed key err)).

(** One case of [convertSet]: parse, write the raw payload, echo the text.
    The writes attempted are returned beside the outcome. *)
Definition write_parsed (write : writer) (p : result parsed) (attr : N)
    (ty : DataType) (field : string) : list write_call * result (option object) :=
  match p with
  | Throw e => ([], Throw e)
  | Return {| raw := payload; text := echoed |} =>
      let call := {| w_cluster := PRIVATE_CLUSTER_ID; w_attr := attr;
                     w_value := payload; w_type := Some ty |} in
      ([call], _ ← write call; Return (state field echoed))
  end.

(** [tzLocal.set_private_attribute.convertSet(entity, key, value, meta)]. *)
Definition set_private_attribute_convertSet (write : writer) (key : string) (v : value)
  : list write_call * result (option object) :=
  switch key
    [("ntc1_sensor_type",
        write_parsed write (parseEnumValue v NTC_TYPE_MAP key) 0x0001 ENUM8 "ntc1_sensor_type");
     ("ntc2_sensor_type",
        write_parsed write (parseEnumValue v NTC_TYPE_MAP key) 0x0002 ENUM8 "ntc2_sensor_type");
     ("water_alarm_relay_action",
        write_parsed write (parseEnumValue v WATER_RELAY_ACTION_MAP key) 0x0006 ENUM8
          "water_alarm_relay_action");
     ("ntc1_operation_mode",
        write_parsed write (parseEnumValue v NTC1_OPERATION_MAP key) 0x0007 ENUM8
          "ntc1_operation_mode");
     ("ntc2_operation_mode",
        write_parsed write (parseEnumValue v NTC2_OPERATION_MAP key) 0x0008 ENUM8
          "ntc2_operation_mode");
     ("ntc1_relay_auto_temp",
        write_parsed write (parseNumeric v key (of_int 100)) 0x0009 INT16 "ntc1_relay_auto_temp");
     ("ntc2_relay_auto_temp",
        write_parsed write (parseNumeric v key (of_int 100)) 0x000A INT16 "ntc2_relay_auto_temp");
     ("override_option",
        write_parsed write (parseEnumValue v OVERRIDE_OPTION_MAP key) 0x000B ENUM8
          "override_option");
     ("ntc1_calibration",
        write_parsed write (parseNumeric v key (of_int 1)) 0x0004 INT8 "ntc1_calibration");
     ("ntc2_calibration",
        write_parsed write (parseNumeric v key (of_int 1)) 0x0005 INT8 "ntc2_calibration");
     ("ntc1_temp_hysteresis",
        write_parsed write (parseNumeric v key (of_int 1)) 0x000C INT8 "ntc1_temp_hysteresis");
     ("ntc2_temp_hysteresis",
        write_parsed write (parseNumeric v key (of_int 1)) 0x000D INT8 "ntc2_temp_hysteresis")]
    ([], Throw (UnsupportedKey key)).

End ToZigbee.

(** ** Device setup *)

Definition CONVERTER_VERSION : string := "1.4.0".
Definition CONVERTER_BUILD : string := "2025-11-28-012".

(** [safeRead(cluster, attrs, label)] inside [configure]. *)
Definition safeRead (net : transport) (lg : option logger) (ep : endpoint)
    (cl : cluster_ref) (attrs : list N) (label : string) : io unit :=
  io_try
    (_ ← request net (Read (ID ep) cl attrs);
     L_info lg (Text ("[Namron4512785] initial read OK for " +:+ label)))
    (fun err => L_warn lg (TextErr ("[Namron4512785] initial read failed for " +:+ label +:+ ": ") err)).

(** [configure(device, coordinatorEndpoint, logger)]. *)
Definition configure (net : transport) (dev : device) (lg : option logger) : io unit :=
  _ ← L_info lg (Text "[Namron4512785] ========================================");
  _ ← L_info lg (Text ("[Namron4512785] Converter v" +:+ CONVERTER_VERSION +:+ " build " +:+ CONVERTER_BUILD));
  _ ← L_info lg (Text "[Namron4512785] ========================================");
  _ ← L_warn lg (Text ("[Namron4512785] DEVICE INFO: modelID=" +:+ quoted (modelID dev)
                       +:+ " manufacturerName=" +:+ quoted (manufacturerName dev)
                       +:+ " ieeeAddr=" +:+ default "undefined" (ieeeAddr dev)));
  match endpoints dev with
  | None => io_throw TypeError
  | Some eps =>
      _ ← L_warn lg (Text ("[Namron4512785] DEVICE INFO: endpoints=" +:+ join_ids (ID <$> eps)));
      match findBestEndpoint dev with
      | None => L_error lg (Text "[Namron4512785] no endpoint available on device")
      | Some ep =>
          _ ← L_info lg (Text ("[Namron4512785] using endpoint " +:+ pretty (ID ep)));
          _ ← io_try
                (request net (Bind (ID ep)
                   ["genOnOff"; "genDeviceTempCfg"; "msTemperatureMeasurement";
                    "haElectricalMeasurement"; "seMetering"]))
                (fun err => L_warn lg (TextErr "[Namron4512785] bind failed: " err));
          _ ← io_try (request net (ReportOnOff (ID ep)))
                (fun err => L_warn lg (TextErr "[Namron4512785] onOff rpt failed: " err));
          _ ← io_try (request net (ReportTemperature (ID ep) 15 600 10))
                (fun err => L_warn lg (TextErr "[Namron4512785] temp rpt failed: " err));
          _ ← io_try (request net (ReportRmsVoltage (ID ep) 10 3600 1))
                (fun err => L_warn lg (TextErr "[Namron4512785] volt rpt failed: " err));
          _ ← io_try (request net (ReportRmsCurrent (ID ep) 10 3600 10))
                (fun err => L_warn lg (TextErr "[Namron4512785] curr rpt failed: " err));
          _ ← io_try (request net (ReportActivePower (ID ep) 10 3600 5))
                (fun err => L_warn lg (TextErr "[Namron4512785] power rpt failed: " err));
          _ ← io_try
                (request net (ConfigureReporting (ID ep) 0x0002
                   [{| attribute := 0x0000; minimumReportInterval := 15;
                       maximumReportInterval := 600; reportableChange := 10 |}]))
                (fun err => L_warn lg (TextErr "[Namron4512785] device temp rpt failed: " err));
          _ ← io_try
                (request net (ConfigureReporting (ID ep) 0x0702
                   [{| attribute := 0x0000; minimumReportInterval := 30;
                       maximumReportInterval := 3600; reportableChange := 1 |}]))
                (fun err => L_warn lg (TextErr "[Namron4512785] metering rpt failed: " err));
          _ ← L_info lg (Text "[Namron4512785] Skipping 0x0402 reporting config - using device defaults");
          _ ← io_try
                (_ ← request net (ConfigureReporting (ID ep) 0x04E0
                       [{| attribute := 0x0000; minimumReportInterval := 15;
                           maximumReportInterval := 600; reportableChange := 10 |};
                        {| attribute := 0x0003; minimumReportInterval := 1;
                           maximumReportInterval := 300; reportableChange := 1 |}]);
                 L_info lg (Text "[Namron4512785] configured reporting for private cluster 0x04E0"))
                (fun err => L_warn lg
                   (TextErr "[Namron4512785] private cluster 0x04E0 reporting failed (may not be supported): " err));
          _ ← safeRead net lg ep (ClusterName "genOnOff") [0x0000%N] "genOnOff:0x0000";
          _ ← safeRead net lg ep (ClusterName "genDeviceTempCfg") [0x0000%N] "genDeviceTempCfg:0x0000";
          _ ← safeRead net lg ep (ClusterName "msTemperatureMeasurement") [0x0000%N]
                "msTemperatureMeasurement:0x0000";
          _ ← safeRead net lg ep (ClusterName "haElectricalMeasurement") [0x0505; 0x0508; 0x050B]%N
                "haElectricalMeasurement:volt/curr/power";
          _ ← safeRead net lg ep (ClusterName "seMetering") [0x0000%N] "seMetering:energy";
          _ ← safeRead net lg ep (ClusterId 0x04E0) [0x0000; 0x0003]%N "0x04E0:ntc2_temp/water_sensor";
          _ ← safeRead net lg ep (ClusterId 0x04E0) [0x0001; 0x0002]%N "0x04E0:ntc1_type/ntc2_type";
          _ ← safeRead net lg ep (ClusterId 0x04E0) [0x0007; 0x0008]%N
                "0x04E0:ntc1_operation/ntc2_operation";
          L_info lg (Text "[Namron4512785] IMPORTANT: Set ntc1_sensor_type and ntc2_sensor_type (r1-r6) to enable temperature reporting!")
      end
  end.

(** ** Polling *)

(** The body of the poll timer's callback. *)
Definition poll (net : transport) (dev : device) : io unit :=
  io_try
    (match findBestEndpoint dev with
     | None => mret tt
     | Some ep =>
         _ ← request net (Read (ID ep) (ClusterName "msTemperatureMeasurement") [0x0000%N]);
         request net (Read (ID ep) (ClusterId 0x04E0) [0x0000; 0x0003]%N)
     end)
    (fun _ => mret tt).

(** [onEvent(type, data, device)]. *)
Definition onEvent (type : event_arg) (dev : option device) (st : timers) : timers :=
  let '(eventType, eventDevice) :=
    match type with
    | EventObject (Some (ty, d)) => (ty, d)
    | EventObject None => (None, dev)
    | Named name => (Some name, dev)
    end in
  let named (name : string) : bool :=
    match eventType with Some n => String.eqb n name | None => false end in
  match eventDevice with
  | None => st
  | Some d =>
      match ieeeAddr d with
      | None => st
      | Some key =>
          if String.eqb key "" || named "start" || named "stop" then st
          else if named "stop" then
            match registry st !! key with
            | Some h => registry_delete key (clearInterval h st)
            | None => st
            end
          else
            match registry st !! key with
            | Some _ => st
            | None =>
                let '(timer, st') := setInterval {| polled := d; intervalMs := 60000 |} st in
                registry_set key timer st'
            end
      end
  end.

(** ** Exposed entities *)

(** [exposes.access]: the access masks the definition names.  An entity's
    mask is written as the operands of [|]. *)
Module ea.
Inductive access : Type := STATE | SET | GET | STATE_SET | STATE_GET | ALL.
End ea.

(** [e.numeric(name, access).withUnit(unit)], [e.binary(name, access,
    value_on, value_off)] and [e.enum(name, access, values)]. *)
Inductive expose_type : Type :=
  | numeric (unit : string)
  | binary (value_on value_off : value)
  | enum (values : list string).

Record expose : Type := {
  name : string;
  access : list ea.access;
  exposed_as : expose_type;
  description : string;
}.

(** [Object.keys(map)] of an enumeration table: its labels, in order. *)
Definition Object_keys (map : EnumMapping) : list string := fst <$> map.

(** The degree sign is the code unit 0xB0. *)
Definition degrees_C : string := String (ascii_of_nat 176) "C".

Definition exposes : list expose :=
  [{| name := "voltage"; access := [ea.STATE; ea.STATE_GET];
      exposed_as := numeric "V"; description := "RMS voltage" |};
   {| name := "current"; access := [ea.STATE; ea.STATE_GET];
      exposed_as := numeric "A"; description := "RMS current" |};
   {| name := "power"; access := [ea.STATE; ea.STATE_GET];
      exposed_as := numeric "W"; description := "Active power" |};
   {| name := "energy"; access := [ea.STATE; ea.STATE_GET];
      exposed_as := numeric "kWh"; description := "Total energy consumed" |};
   {| name := "device_temperature"; access := [ea.STATE; ea.STATE_GET];
      exposed_as := numeric degrees_C; description := "Internal device temperature" |};
   {| name := "ntc1_temperature"; access := [ea.STATE; ea.STATE_GET];
      exposed_as := numeric degrees_C; description := "External NTC1 temperature" |};
   {| name := "ntc2_temperature"; access := [ea.STATE; ea.STATE_GET];
      exposed_as := numeric degrees_C; description := "External NTC2 temperature" |};
   {| name := "water_sensor"; access := [ea.STATE; ea.STATE_GET];
      exposed_as := binary (VBool true) (VBool false);
      description := "External water sensor (true=water detected)" |};
   {| name := "ntc1_sensor_type"; access := [ea.ALL];
      exposed_as := enum (Object_keys NTC_TYPE_MAP);
      description := "Select NTC probe type for temperature sensor #1" |};
   {| name := "ntc2_sensor_type"; access := [ea.ALL];
      exposed_as := enum (Object_keys NTC_TYPE_MAP);
      description := "Select NTC probe type for temperature sensor #2" |};
   {| name := "water_alarm_relay_action"; access := [ea.STATE_SET; ea.STATE_GET];
      exposed_as := enum (Object_keys WATER_RELAY_ACTION_MAP);
      description := "How should the relay react when water sensor detects a leak?" |};
   {| name := "ntc1_operation_mode"; access := [ea.STATE_SET; ea.STATE_GET];
      exposed_as := enum (Object_keys NTC1_OPERATION_MAP);
      description := "How should relay react to NTC1 temperature? (Hot = above threshold, Cold = below threshold)" |};
   {| name := "ntc2_operation_mode"; access := [ea.STATE_SET; ea.STATE_GET];
      exposed_as := enum (Object_keys NTC2_OPERATION_MAP);
      description := "How should relay react to NTC2 temperature? (Hot = above threshold, Cold = below threshold)" |};
   {| name := "ntc1_relay_auto_temp"; access := [ea.STATE_SET; ea.STATE_GET];
      exposed_as := numeric degrees_C;
      description := "Temperature threshold for NTC1 relay control (0-100" +:+ degrees_C
                     +:+ ", works with ntc1_operation_mode)" |};
   {| name := "ntc2_relay_auto_temp"; access := [ea.STATE_SET; ea.STATE_GET];
      exposed_as := numeric degrees_C;
      description := "Temperature threshold for NTC2 relay control (0-100" +:+ degrees_C
                     +:+ ", works with ntc2_operation_mode)" |};
   {| name := "override_option"; access := [ea.STATE_SET; ea.STATE_GET];
      exposed_as := enum (Object_keys OVERRIDE_OPTION_MAP);
      description := "Which condition wins if both water alarm and temperature trigger at the same time?" |};
   {| name := "ntc1_calibration"; access := [ea.STATE_SET; ea.STATE_GET];
      exposed_as := numeric degrees_C;
      description := "Temperature calibration offset for NTC1 (-10 to +10" +:+ degrees_C +:+ ")" |};
   {| name := "ntc2_calibration"; access := [ea.STATE_SET; ea.STATE_GET];
      exposed_as := numeric degrees_C;
      description := "Temperature calibration offset for NTC2 (-10 to +10" +:+ degrees_C +:+ ")" |};
   {| name := "ntc1_temp_hysteresis"; access := [ea.STATE_SET; ea.STATE_GET];
      exposed_as := numeric degrees_C;
      description := "Temperature hysteresis for NTC1 to prevent rapid switching (-10 to +10"
                     +:+ degrees_C +:+ ")" |};
   {| name := "ntc2_temp_hysteresis"; access := [ea.STATE_SET; ea.STATE_GET];
      exposed_as := numeric degrees_C;
      description := "Temperature hysteresis for NTC2 to prevent rapid switching (-10 to +10"
                     +:+ degrees_C +:+ ")" |};
   {| name := "water_condition_alarm"; access := [ea.STATE];
      exposed_as := binary (VBool true) (VBool false);
      description := "Water leak alarm status (true=alarm active)" |};
   {| name := "ntc_condition_alarm"; access := [ea.STATE];
      exposed_as := binary (VBool true) (VBool false);
      description := "NTC temperature alarm status (true=alarm active)" |};
   {| name := "is_execute_condition"; access := [ea.STATE];
      exposed_as := binary (VBool true) (VBool false);
      description := "Indicates if current conditions will trigger relay action" |}].

(** A toZigbee converter: the keys it answers for, its refresh and, where
    it has one, its write. *)
Record tz_converter : Type := {
  key : list string;
  convertGet : reader -> string -> result (option object);
  convertSet : option (writer -> string -> value -> list write_call * result (option object));
}.

Section ToZigbeeConverters.
Context `{Runtime}.

Definition get_attribute : tz_converter := {|
  key := get_attribute_key;
  convertGet := get_attribute_convertGet;
  convertSet := None;
|}.

Definition set_private_attribute : tz_converter := {|
  key := set_private_attribute_key;
  convertGet := set_private_attribute_convertGet;
  convertSet := Some set_private_attribute_convertSet;
|}.

Definition toZigbee : list tz_converter := [get_attribute; set_private_attribute].

End ToZigbeeConverters.

End Converter.

(** * The earlier revision, namron_30a_relay.mjs

    The helpers, [on_off_num], [device_temp_num], [temp_measurement_num],
    [safeRead] and the handlers of [private_04e0_num] other than the water
    sensor's read the same in both revisions and are taken from
    [Converter]; what differs is embedded here. *)

Module Relay30a.

Definition NTC_TYPE_MAP : EnumMapping :=
  [("none", 0); ("ntc_10k", 1); ("ntc_12k", 2); ("ntc_15k", 3);
   ("ntc_22k", 4); ("ntc_33k", 5); ("ntc_47k", 6)].
Definition NTC_TYPE_INV : object := invert NTC_TYPE_MAP.

Definition WATER_RELAY_ACTION_MAP : EnumMapping :=
  [("no_action", 0); ("alarm_turn_off", 1); ("alarm_turn_on", 2);
   ("alarm_turn_off_no_action", 3); ("alarm_turn_on_no_action", 4);
   ("no_alarm_turn_off", 5); ("no_alarm_turn_on", 6)].
Definition WATER_RELAY_ACTION_INV : object := invert WATER_RELAY_ACTION_MAP.

Definition NTC1_OPERATION_MAP : EnumMapping :=
  [("unuse", 0); ("ntc1_1", 1); ("ntc1_2", 2); ("ntc1_3", 3); ("ntc1_4", 4)].
Definition NTC1_OPERATION_INV : object := invert NTC1_OPERATION_MAP.

Definition NTC2_OPERATION_MAP : EnumMapping :=
  [("unuse", 0); ("ntc2_1", 1); ("ntc2_2", 2); ("ntc2_3", 3); ("ntc2_4", 4)].
Definition NTC2_OPERATION_INV : object := invert NTC2_OPERATION_MAP.

Definition OVERRIDE_OPTION_MAP : EnumMapping :=
  [("no_priority", 0); ("water_alarm_priority", 1); ("ntc_priority", 2)].
Definition OVERRIDE_OPTION_INV : object := invert OVERRIDE_OPTION_MAP.

Section FromZigbee.
Context `{Runtime}.

Definition on_off_num : fz_converter := {|
  cluster := ClusterId 0x0006;
  type := Converter.report_types;
  convert := convert Converter.on_off_num;
|}.

Definition device_temp_num : fz_converter := {|
  cluster := ClusterId 0x0002;
  type := Converter.report_types;
  convert := convert Converter.device_temp_num;
|}.

Definition temp_measurement_num : fz_converter := {|
  cluster := ClusterId 0x0402;
  type := Converter.report_types;
  convert := convert Converter.temp_measurement_num;
|}.

Definition private_04e0_num : fz_converter := {|
  cluster := ClusterId PRIVATE_CLUSTER_ID;
  type := Converter.report_types;
  convert := fun msg =>
    match data msg with
    | None => None
    | Some d =>
        let out : object := ∅ in
        let out := mapAndAssign d 0x0000 [idx 0x0000; "measuredValue2"; "ntc2Temperature"]
                     (Converter.assign_temperature "ntc2_temperature") out in
        let out := mapAndAssign d 0x0001 [idx 0x0001; "resistanceValue1"]
                     (Converter.assign_label "ntc1_sensor_type" NTC_TYPE_INV) out in
        let out := mapAndAssign d 0x0002 [idx 0x0002; "resistanceValue2"]
                     (Converter.assign_label "ntc2_sensor_type" NTC_TYPE_INV) out in
        let out := mapAndAssign d 0x0003 [idx 0x0003; "waterSensorValue"; "waterSensor"]
                     (fun raw out => <[ "water_sensor" := VBool (truthy raw) ]> out) out in
        let out := mapAndAssign d 0x0004 [idx 0x0004; "NTCCalibration1"]
                     (Converter.assign_number "ntc1_calibration") out in
        let out := mapAndAssign d 0x0005 [idx 0x0005; "NTCCalibration2"]
                     (Converter.assign_number "ntc2_calibration") out in
        let out := mapAndAssign d 0x0006 [idx 0x0006; "waterAlarmRelayAction"]
                     (Converter.assign_label "water_alarm_relay_action" WATER_RELAY_ACTION_INV) out in
        let out := mapAndAssign d 0x0007 [idx 0x0007; "ntc1OperationSelect"]
                     (Converter.assign_label "ntc1_operation_mode" NTC1_OPERATION_INV) out in
        let out := mapAndAssign d 0x0008 [idx 0x0008; "ntc2OperationSelect"]
                     (Converter.assign_label "ntc2_operation_mode" NTC2_OPERATION_INV) out in
        let out := mapAndAssign d 0x0009 [idx 0x0009; "ntc1RelayAutoTemp"]
                     (Converter.assign_temperature "ntc1_relay_auto_temp") out in
        let out := mapAndAssign d 0x000A [idx 0x000A; "ntc2RelayAutoTemp"]
                     (Converter.assign_temperature "ntc2_relay_auto_temp") out in
        let out := mapAndAssign d 0x000B [idx 0x000B; "overrideOption"]
                     (Converter.assign_label "override_option" OVERRIDE_OPTION_INV) out in
        let out := mapAndAssign d 0x000C [idx 0x000C; "ntc1TempHysterisis"]
                     (Converter.assign_number "ntc1_temp_hysteresis") out in
        let out := mapAndAssign d 0x000D [idx 0x000D; "ntc2TempHysterisis"]
                     (Converter.assign_number "ntc2_temp_hysteresis") out in
        let out := mapAndAssign d 0x000E [idx 0x000E; "waterConditionAlarm"]
                     (Converter.assign_flag "water_condition_alarm") out in
        let out := mapAndAssign d 0x000F [idx 0x000F; "ntcConditionAlarm"]
                     (Converter.assign_flag "ntc_condition_alarm") out in
        let out := mapAndAssign d 0x0010 [idx 0x0010; "isExecuteCondition"]
                     (Converter.assign_flag "is_execute_condition") out in
        nonempty out
    end;
|}.

(** [Math.round((raw / scale) * factor) / factor], the expression every
    numeric decode of this revision is an instance of. *)
Definition scaled (raw : value) (scale factor : Z) : value :=
  VNumber (div (Math_round (mul (js_div raw (int scale)) (of_int factor))) (of_int factor)).

Definition electrical_num : fz_converter := {|
  cluster := ClusterId 0x0B04;
  type := Converter.report_types;
  convert := fun msg =>
    match data msg with
    | None => None
    | Some d =>
        let out : object := ∅ in
        let voltKey := pick d [idx 0x0505; "rmsVoltage"] in
        let currKey := pick d [idx 0x0508; "rmsCurrent"] in
        let powKey := pick d [idx 0x050B; "activePower"] in
        let out := match voltKey with
                   | Some k => <[ "voltage" := scaled (get d k) 10 10 ]> out
                   | None => out
                   end in
        let out := match currKey with
                   | Some k => <[ "current" := scaled (get d k) 1000 1000 ]> out
                   | None => out
                   end in
        let out := match powKey with
                   | Some k => <[ "power" := scaled (get d k) 10 10 ]> out
                   | None => out
                   end in
        nonempty out
    end;
|}.

Definition metering_num : fz_converter := {|
  cluster := ClusterId 0x0702;
  type := Converter.report_types;
  convert := fun msg =>
    match data msg with
    | None => None
    | Some d =>
        match pick d [idx 0x0000; "currentSummationDelivered"] with
        | Some key =>
            let raw := get d key in
            if is_number raw then Some {[ "energy" := scaled raw 1000 1000 ]} else None
        | None => None
        end
    end;
|}.

(** The debug converters only write to the console. *)
Definition debug (cl : N) : fz_converter := {|
  cluster := ClusterId cl;
  type := Converter.report_types;
  convert := fun _ => None;
|}.

(** [electrical_num] and [metering_num] are defined but not registered:
    this revision leaves both clusters to [m.electricityMeter()]. *)
Definition fromZigbee : list fz_converter :=
  [on_off_num; device_temp_num; temp_measurement_num; private_04e0_num;
   debug 0x0006; debug 0x0002; debug 0x0402; debug 0x04E0; debug 0x0B04; debug 0x0702].

End FromZigbee.

Section ToZigbee.
Context `{Runtime}.

(** One numeric case of [convertGet]. *)
Definition get_scaled (read : reader) (cl : cluster_ref) (attr : N)
    (aliases : list string) (field : string) (scale factor : Z)
  : result (option object) :=
  res ← read cl [attr];
  k ← pick_res res aliases;
  let raw := get_res res k in
  if is_number raw then Return (state field (scaled raw scale factor)) else Return None.

(** [tzLocal.get_attribute.convertGet(entity, key)]: a failed read is
    written to the console and the refresh resolves to undefined. *)
Definition get_attribute_convertGet (read : reader) (key : string)
  : result (option object) :=
  try_catch
    (switch key
       [("device_temperature",
           res ← read (ClusterName "genDeviceTempCfg") [0x0000%N];
           k ← pick_res res [idx 0x0000; "currentTemperature"];
           let raw := get_res res k in
           if negb (strict_eq raw VUndefined) && negb (strict_eq raw VNull) && not_sentinel raw
           then Return (state "device_temperature" (scaled raw 10 10))
           else Return None);
        ("ntc1_temperature",
           res ← read (ClusterName "msTemperatureMeasurement") [0x0000%N];
           k ← pick_res res [idx 0x0000; "measuredValue"];
           let raw := get_res res k in
           if negb (strict_eq raw VUndefined) && negb (strict_eq raw VNull) && not_sentinel raw
           then Return (state "ntc1_temperature" (scaled raw 100 10))
           else Return None);
        ("ntc2_temperature",
           res ← read (ClusterId 0x04E0) [0x0000%N];
           k ← pick_res res [idx 0x0000; "ntc2Temperature"];
           let raw := get_res res k in
           if is_number raw && not_sentinel raw
           then Return (state "ntc2_temperature" (scaled raw 100 10))
           else Return None);
        ("water_sensor",
           res ← read (ClusterId 0x04E0) [0x0003%N];
           k ← pick_res res [idx 0x0003; "waterSensor"];
           let raw := get_res res k in
           if negb (strict_eq raw VUndefined)
           then Return (state "water_sensor" (VBool (truthy raw)))
           else Return None);
        ("voltage",
           get_scaled read (ClusterName "haElectricalMeasurement") 0x0505
             [idx 0x0505; "rmsVoltage"] "voltage" 10 10);
        ("current",
           get_scaled read (ClusterName "haElectricalMeasurement") 0x0508
             [idx 0x0508; "rmsCurrent"] "current" 1000 1000);
        ("power",
           get_scaled read (ClusterName "haElectricalMeasurement") 0x050B
             [idx 0x050B; "activePower"] "power" 10 10);
        ("energy",
           get_scaled read (ClusterName "seMetering") 0x0000
             [idx 0x0000; "currentSummationDelivered"; "currentSummDelivered"] "energy" 1000 1000);
        ("ntc1_sensor_type",
           Converter.get_label read 0x0001 [idx 0x0001; "resistanceValue1"]
             "ntc1_sensor_type" NTC_TYPE_INV);
        ("ntc2_sensor_type",
           Converter.get_label read 0x0002 [idx 0x0002; "resistanceValue2"]
             "ntc2_sensor_type" NTC_TYPE_INV);
        ("water_alarm_relay_action",
           Converter.get_label read 0x0006 [idx 0x0006; "waterAlarmRelayAction"]
             "water_alarm_relay_action" WATER_RELAY_ACTION_INV);
        ("ntc1_operation_mode",
           Converter.get_label read 0x0007 [idx 0x0007; "ntc1OperationSelect"]
             "ntc1_operation_mode" NTC1_OPERATION_INV);
        ("ntc2_operation_mode",
           Converter.get_label read 0x0008 [idx 0x0008; "ntc2OperationSelect"]
             "ntc2_operation_mode" NTC2_OPERATION_INV);
        ("ntc1_relay_auto_temp",
           Converter.get_threshold read 0x0009 [idx 0x0009; "ntc1RelayAutoTemp"]
             "ntc1_relay_auto_temp");
        ("ntc2_relay_auto_temp",
           Converter.get_threshold read 0x000A [idx 0x000A; "ntc2RelayAutoTemp"]
             "ntc2_relay_auto_temp");
        ("override_option",
           Converter.get_label read 0x000B [idx 0x000B; "overrideOption"]
             "override_option" OVERRIDE_OPTION_INV);
        ("ntc1_calibration",
           Converter.get_number read 0x0004 [idx 0x0004; "NTCCalibration1"] "ntc1_calibration");
        ("ntc2_calibration",
           Converter.get_number read 0x0005 [idx 0x0005; "NTCCalibration2"] "ntc2_calibration");
        ("ntc1_temp_hysteresis",
           Converter.get_number read 0x000C [idx 0x000C; "ntc1TempHysterisis"] "ntc1_temp_hysteresis");
        ("ntc2_temp_hysteresis",
           Converter.get_number read 0x000D [idx 0x000D; "ntc2TempHysterisis"] "ntc2_temp_hysteresis");
        ("water_condition_alarm",
           res ← read (ClusterId PRIVATE_CLUSTER_ID) [0x000E%N];
           k ← pick_res res [idx 0x000E; "waterConditionAlarm"];
           let raw := get_res res k in
           if negb (nullish raw)
           then Return (state "water_condition_alarm" (VBool (truthy raw)))
           else Return None);
        ("ntc_condition_alarm",
           res ← read (ClusterId PRIVATE_CLUSTER_ID) [0x000F%N];
           k ← pick_res res [idx 0x000F; "ntcConditionAlarm"];
           let raw := get_res res k in
           if negb (nullish raw)
           then Return (state "ntc_condition_alarm" (VBool (truthy raw)))
           else Return None);
        ("is_execute_condition",
           res ← read (ClusterId PRIVATE_CLUSTER_ID) [0x0010%N];
           k ← pick_res res [idx 0x0010; "isExecuteCondition"];
           let raw := get_res res k in
           if negb (nullish raw)
           then Return (state "is_execute_condition" (VBool (truthy raw)))
           else Return None)]
       (Return None))
    (fun _ => Return None).

(** One case of [convertSet]: this revision writes the bare payload,
    [{attr: payload}], without a data type. *)
Definition write_parsed (write : Converter.writer) (p : result parsed) (attr : N)
    (field : string) : list write_call * result (option object) :=
  match p with
  | Throw e => ([], Throw e)
  | Return {| raw := payload; text := echoed |} =>
      let call := {| w_cluster := PRIVATE_CLUSTER_ID; w_attr := attr;
                     w_value := payload; w_type := None |} in
      ([call], _ ← write call; Return (state field echoed))
  end.

(** [tzLocal.set_private_attribute.convertSet(entity, key, value, meta)]. *)
Definition set_private_attribute_convertSet (write : Converter.writer) (key : string)
    (v : value) : list write_call * result (option object) :=
  switch key
    [("ntc1_sensor_type",
        write_parsed write (parseEnumValue v NTC_TYPE_MAP key) 0x0001 "ntc1_sensor_type");
     ("ntc2_sensor_type",
        write_parsed write (parseEnumValue v NTC_TYPE_MAP key) 0x0002 "ntc2_sensor_type");
     ("water_alarm_relay_action",
        write_parsed write (parseEnumValue v WATER_RELAY_ACTION_MAP key) 0x0006
          "water_alarm_relay_action");
     ("ntc1_operation_mode",
        write_parsed write (parseEnumValue v NTC1_OPERATION_MAP key) 0x0007 "ntc1_operation_mode");
     ("ntc2_operation_mode",
        write_parsed write (parseEnumValue v NTC2_OPERATION_MAP key) 0x0008 "ntc2_operation_mode");
     ("ntc1_relay_auto_temp",
        write_parsed write (parseNumeric v key (of_int 100)) 0x0009 "ntc1_relay_auto_temp");
     ("ntc2_relay_auto_temp",
        write_parsed write (parseNumeric v key (of_int 100)) 0x000A "ntc2_relay_auto_temp");
     ("override_option",
        write_parsed write (parseEnumValue v OVERRIDE_OPTION_MAP key) 0x000B "override_option");
     ("ntc1_calibration",
        write_parsed write (parseNumeric v key (of_int 1)) 0x0004 "ntc1_calibration");
     ("ntc2_calibration",
        write_parsed write (parseNumeric v key (of_int 1)) 0x0005 "ntc2_calibration");
     ("ntc1_temp_hysteresis",
        write_parsed write (parseNumeric v key (of_int 1)) 0x000C "ntc1_temp_hysteresis");
     ("ntc2_temp_hysteresis",
        write_parsed write (parseNumeric v key (of_int 1)) 0x000D "ntc2_temp_hysteresis")]
    ([], Throw (UnsupportedKey key)).

End ToZigbee.

(** [configure(device, coordinatorEndpoint, logger)]. *)
Definition configure (net : transport) (dev : device) (lg : option logger) : io unit :=
  match findBestEndpoint dev with
  | None => L_error lg (Text "[Namron4512785] no endpoint available on device")
  | Some ep =>
      _ ← L_info lg (Text ("[Namron4512785] using endpoint " +:+ pretty (ID ep)));
      _ ← io_try
            (request net (Bind (ID ep)
               ["genOnOff"; "genDeviceTempCfg"; "msTemperatureMeasurement";
                "haElectricalMeasurement"; "seMetering"]))
            (fun err => L_warn lg (TextErr "[Namron4512785] bind failed: " err));
      _ ← io_try (request net (ReportOnOff (ID ep)))
            (fun err => L_warn lg (TextErr "[Namron4512785] onOff rpt failed: " err));
      _ ← io_try (request net (ReportTemperature (ID ep) 15 600 10))
            (fun err => L_warn lg (TextErr "[Namron4512785] temp rpt failed: " err));
      _ ← io_try (request net (ReportRmsVoltage (ID ep) 10 3600 1))
            (fun err => L_warn lg (TextErr "[Namron4512785] volt rpt failed: " err));
      _ ← io_try (request net (ReportRmsCurrent (ID ep) 10 3600 10))
            (fun err => L_warn lg (TextErr "[Namron4512785] curr rpt failed: " err));
      _ ← io_try (request net (ReportActivePower (ID ep) 10 3600 5))
            (fun err => L_warn lg (TextErr "[Namron4512785] power rpt failed: " err));
      _ ← io_try
            (request net (ConfigureReporting (ID ep) 0x0002
               [{| attribute := 0x0000; minimumReportInterval := 15;
                   maximumReportInterval := 600; reportableChange := 10 |}]))
            (fun err => L_warn lg (TextErr "[Namron4512785] device temp rpt failed: " err));
      _ ← io_try
            (request net (ConfigureReporting (ID ep) 0x0702
               [{| attribute := 0x0000; minimumReportInterval := 30;
                   maximumReportInterval := 3600; reportableChange := 1 |}]))
            (fun err => L_warn lg (TextErr "[Namron4512785] metering rpt failed: " err));
      _ ← Converter.safeRead net lg ep (ClusterName "genOnOff") [0x0000%N] "genOnOff:0x0000";
      _ ← Converter.safeRead net lg ep (ClusterName "genDeviceTempCfg") [0x0000%N]
            "genDeviceTempCfg:0x0000";
      _ ← Converter.safeRead net lg ep (ClusterName "msTemperatureMeasurement") [0x0000%N]
            "msTemperatureMeasurement:0x0000";
      _ ← Converter.safeRead net lg ep (ClusterName "haElectricalMeasurement")
            [0x0505; 0x0508; 0x050B]%N "haElectricalMeasurement:volt/curr/power";
      Converter.safeRead net lg ep (ClusterId 0x04E0) [0x0000; 0x0003]%N "0x04E0:ntc2/water"
  end.

(** The body of the poll timer's callback; an error is written to the
    console. *)
Definition poll (net : transport) (dev : device) : io unit :=
  io_try
    (match findBestEndpoint dev with
     | None => mret tt
     | Some ep =>
         _ ← request net (Read (ID ep) (ClusterName "haElectricalMeasurement")
                            [0x0505; 0x0508; 0x050B]%N);
         _ ← request net (Read (ID ep) (ClusterName "seMetering") [0x0000%N]);
         _ ← request net (Read (ID ep) (ClusterName "genDeviceTempCfg") [0x0000%N]);
         _ ← request net (Read (ID ep) (ClusterName "msTemperatureMeasurement") [0x0000%N]);
         request net (Read (ID ep) (ClusterId 0x04E0) [0x0000; 0x0003]%N)
     end)
    (fun err h =>
       (Return tt, h ++ [Logged ConsoleWarn (TextErr "[Namron4512785] poll error: " err)])).

(** [onEvent(type, data, device)]; its console output is left out.  The
    event name is compared as it is, so an event object matches no branch. *)
Definition onEvent (type : event_arg) (dev : option device) (st : timers) : timers :=
  let named (name : string) : bool :=
    match type with Named n => String.eqb n name | EventObject _ => false end in
  match dev ≫= ieeeAddr with
  | None => st
  | Some key =>
      if String.eqb key "" then st
      else
        match dev with
        | None => st
        | Some d =>
            if named "start" || named "deviceAnnounce" then
              match registry st !! key with
              | Some _ => st
              | None =>
                  let '(timer, st') := setInterval {| polled := d; intervalMs := 60000 |} st in
                  registry_set key timer st'
              end
            else if named "stop" then
              let st' := match registry st !! key with
                         | Some h => clearInterval h st
                         | None => st
                         end in
              registry_delete key st'
            else st
        end
  end.

End Relay30a.

(** * The cluster definition

    The manufacturer's description of the private cluster 0x04E0, written
    for the zigbee-clusters library: the names, ids and ZCL types of its
    attributes. *)

Module ZCLDataTypes.
Inductive t : Type :=
  | int16
  | int8
  | bool
  | enum8 (members : list (string * Z)).
End ZCLDataTypes.

Module HzcSwitchUserInterfaceConfigurationCluster.

Record attribute_definition : Type := {
  id : N;
  type : ZCLDataTypes.t;
}.

Definition ATTRIBUTES : list (string * attribute_definition) :=
  [("measuredValue2", {| id := 0x0000; type := ZCLDataTypes.int16 |});
   ("resistanceValue1",
      {| id := 0x0001;
         type := ZCLDataTypes.enum8
                   [("r0", 0); ("r1", 1); ("r2", 2); ("r3", 3); ("r4", 4); ("r5", 5); ("r6", 6)] |});
   ("resistanceValue2",
      {| id := 0x0002;
         type := ZCLDataTypes.enum8
                   [("r0", 0); ("r1", 1); ("r2", 2); ("r3", 3); ("r4", 4); ("r5", 5); ("r6", 6)] |});
   ("waterSensorValue", {| id := 0x0003; type := ZCLDataTypes.bool |});
   ("NTCCalibration1", {| id := 0x0004; type := ZCLDataTypes.int8 |});
   ("NTCCalibration2", {| id := 0x0005; type := ZCLDataTypes.int8 |});
   ("waterAlarmRelayAction",
      {| id := 0x0006;
         type := ZCLDataTypes.enum8
                   [("noAction", 0); ("AlarmTurnOff", 1); ("AlarmTurnOn", 2);
                    ("AlarmTurnOffNoAction", 3); ("AlarmTurnOnNoAction", 4);
                    ("NoAlarmTurnOff", 5); ("NoAlarmTurnOn", 6)] |});
   ("ntc1OperationSelect",
      {| id := 0x0007;
         type := ZCLDataTypes.enum8
                   [("unuse", 0); ("ntc1_1", 1); ("ntc1_2", 2); ("ntc1_3", 3); ("ntc1_4", 4)] |});
   ("ntc2OperationSelect",
      {| id := 0x0008;
         type := ZCLDataTypes.enum8
                   [("unuse", 0); ("ntc2_1", 1); ("ntc2_2", 2); ("ntc2_3", 3); ("ntc2_4", 4)] |});
   ("ntc1RelayAutoTemp", {| id := 0x0009; type := ZCLDataTypes.int16 |});
   ("ntc2RelayAutoTemp", {| id := 0x000A; type := ZCLDataTypes.int16 |});
   ("overrideOption",
      {| id := 0x000B;
         type := ZCLDataTypes.enum8
                   [("NoPriority", 0); ("WaterAlarmPriority", 1); ("NTCPriority", 2)] |});
   ("ntc1TempHysterisis", {| id := 0x000C; type := ZCLDataTypes.int8 |});
   ("ntc2TempHysterisis", {| id := 0x000D; type := ZCLDataTypes.int8 |});
   ("waterConditionAlarm", {| id := 0x000E; type := ZCLDataTypes.bool |});
   ("ntcConditionAlarm", {| id := 0x000F; type := ZCLDataTypes.bool |});
   ("isExecuteCondition", {| id := 0x0010; type := ZCLDataTypes.bool |})].

Definition COMMANDS : list (string * N) := [("setClear", 0x0000%N)].

Definition ID : N := 0x04E0.
Definition NAME : string := "switchUserInterfaceConfiguration".

End HzcSwitchUserInterfaceConfigurationCluster.

(** * Specification vocabulary

    The notions the specification uses and the code does not name. *)

(** A field of what a converter returns; [None] when it returns undefined
    or an object without the field. *)
Definition field (o : option object) (f : string) : option value :=
  o ≫= (fun out => out !! f).

(** A message reporting one attribute. *)
Definition report (key : string) (raw : value) : message :=
  {| data := Some {[ key := raw ]} |}.

(** A read that answers with one attribute, whatever is asked. *)
Definition answers (key : string) (raw : value) : reader :=
  fun _ _ => Return (Some {[ key := raw ]}).

(** A canonical binary64 value: what every IEEE operation returns. *)
Definition binary64 (x : number) : Prop := valid_binary prec emax x = true.

(** The mantissa of a finite number fits 53 bits, as it does in every
    result of binary64 arithmetic. *)
Definition fits (x : number) : Prop :=
  match x with
  | S754_finite _ m _ => Z.pos m < 2 ^ 53
  | _ => True
  end.

(** "Rounded to [digits] decimal places": scale up by the power of ten,
    round to an integer, scale down ([round_to_decimals_spec] below). *)
Definition round_to_decimals (digits : Z) (x : number) : number :=
  div (Math_round (mul x (of_int (10 ^ digits)))) (of_int (10 ^ digits)).

(** Rounding a rational to the nearest integer, a tie going up, and the
    same with a tie going away from zero. *)
Definition round_half_up (q : Q) : Z := Qfloor (q + (1 # 2)).

Definition round_half_away_from_zero (q : Q) : Z :=
  if Qle_bool 0 q then Qfloor (q + (1 # 2)) else Qceiling (q - (1 # 2)).

(** [q] is negative and exactly half way between two integers. *)
Definition negative_tie (q : Q) : Prop :=
  (q < 0)%Q /\ exists n : Z, (q + (1 # 2) == inject_Z n)%Q.

(** [x] is within [eps] of the rational [q]. *)
Definition within (eps : Q) (x : number) (q : Q) : Prop :=
  exists a, to_Q x = Some a /\ (Qabs (a - q) < eps)%Q.

(** The raw values that mean "no reading": -32768 and 0x8000. *)
Definition sentinel (raw : value) : Prop :=
  raw = int (-32768) \/ raw = int 0x8000.

(** A runtime to close examples with: none of them reaches a string
    conversion, [Math.log10] or [**]. *)
Definition example_runtime : Runtime := {|
  StringToNumber := fun _ => NaN;
  NumberToString := fun _ => "";
  Math_log10 := fun _ => NaN;
  exponentiate := fun _ _ => NaN;
|}.

Definition example_endpoint : endpoint :=
  {| ID := 1; inputClusters := Some [int 0x0006; int 0x0702; int 0x04E0] |}.

Definition example_device : device := {|
  ieeeAddr := Some "0xa4c138f06b2a11d5";
  modelID := "4512785";
  manufacturerName := "Namron AS";
  endpoints := Some [example_endpoint];
  getEndpoint := fun n => if (n =? 1)%N then Some example_endpoint else None;
|}.

(** The enumeration tables of the write path, each with the inverse the
    read path decodes with. *)
Definition write_enums : list (EnumMapping * object) :=
  [(Converter.NTC_TYPE_MAP, Converter.NTC_TYPE_INV);
   (Converter.WATER_RELAY_ACTION_MAP, Converter.WATER_RELAY_ACTION_INV);
   (Converter.NTC1_OPERATION_MAP, Converter.NTC1_OPERATION_INV);
   (Converter.NTC2_OPERATION_MAP, Converter.NTC2_OPERATION_INV);
   (Converter.OVERRIDE_OPTION_MAP, Converter.OVERRIDE_OPTION_INV)].

Section DecodePaths.
Context `{Runtime}.

(** Where a scaled temperature is decoded from a report or read response:
    the converter, the keys the attribute may arrive under, the field. *)
Definition temperature_reports : list (fz_converter * list string * string) :=
  [(Converter.device_temp_num, [idx 0x0000; "currentTemperature"], "device_temperature");
   (Converter.temp_measurement_num, [idx 0x0000; "measuredValue"], "ntc1_temperature");
   (Converter.private_04e0_num, [idx 0x0000; "measuredValue2"; "ntc2Temperature"],
      "ntc2_temperature");
   (Converter.private_04e0_num, [idx 0x0009; "ntc1RelayAutoTemp"], "ntc1_relay_auto_temp");
   (Converter.private_04e0_num, [idx 0x000A; "ntc2RelayAutoTemp"], "ntc2_relay_auto_temp")].

(** Where one is decoded on refresh: the [convertGet], the field asked for,
    the cluster and attribute it reads, the keys of the answer. *)
Definition temperature_refreshes
  : list ((reader -> string -> result (option object)) * string * cluster_ref * N * list string) :=
  [(Converter.get_attribute_convertGet, "device_temperature",
      ClusterName "genDeviceTempCfg", 0x0000%N, [idx 0x0000; "currentTemperature"]);
   (Converter.get_attribute_convertGet, "ntc1_temperature",
      ClusterName "msTemperatureMeasurement", 0x0000%N, [idx 0x0000; "measuredValue"]);
   (Converter.get_attribute_convertGet, "ntc2_temperature",
      ClusterId 0x04E0, 0x0000%N, [idx 0x0000; "ntc2Temperature"]);
   (Converter.set_private_attribute_convertGet, "ntc1_relay_auto_temp",
      ClusterId PRIVATE_CLUSTER_ID, 0x0009%N, [idx 0x0009; "ntc1RelayAutoTemp"]);
   (Converter.set_private_attribute_convertGet, "ntc2_relay_auto_temp",
      ClusterId PRIVATE_CLUSTER_ID, 0x000A%N, [idx 0x000A; "ntc2RelayAutoTemp"])].

End DecodePaths.

(** ** Setup *)

(** The requests a history of events contains, in order. *)
Definition requests (h : list event) : list call :=
  omap (fun e => match e with Called c => Some c | Logged _ _ => None end) h.

(** The steps of the setup on endpoint [ep]: the binding, the reporting
    configurations, the seed reads. *)
Definition binding_step (ep : N) : call :=
  Bind ep ["genOnOff"; "genDeviceTempCfg"; "msTemperatureMeasurement";
           "haElectricalMeasurement"; "seMetering"].

Definition reporting_steps (ep : N) : list call :=
  [ReportOnOff ep;
   ReportTemperature ep 15 600 10;
   ReportRmsVoltage ep 10 3600 1;
   ReportRmsCurrent ep 10 3600 10;
   ReportActivePower ep 10 3600 5;
   ConfigureReporting ep 0x0002
     [{| attribute := 0x0000; minimumReportInterval := 15;
         maximumReportInterval := 600; reportableChange := 10 |}];
   ConfigureReporting ep 0x0702
     [{| attribute := 0x0000; minimumReportInterval := 30;
         maximumReportInterval := 3600; reportableChange := 1 |}];
   ConfigureReporting ep 0x04E0
     [{| attribute := 0x0000; minimumReportInterval := 15;
         maximumReportInterval := 600; reportableChange := 10 |};
      {| attribute := 0x0003; minimumReportInterval := 1;
         maximumReportInterval := 300; reportableChange := 1 |}]].

Definition seed_reads (ep : N) : list call :=
  [Read ep (ClusterName "genOnOff") [0x0000%N];
   Read ep (ClusterName "genDeviceTempCfg") [0x0000%N];
   Read ep (ClusterName "msTemperatureMeasurement") [0x0000%N];
   Read ep (ClusterName "haElectricalMeasurement") [0x0505; 0x0508; 0x050B]%N;
   Read ep (ClusterName "seMetering") [0x0000%N];
   Read ep (ClusterId 0x04E0) [0x0000; 0x0003]%N;
   Read ep (ClusterId 0x04E0) [0x0001; 0x0002]%N;
   Read ep (ClusterId 0x04E0) [0x0007; 0x0008]%N].

(** A computation that returns normally from every history, whatever the
    radio stack does, having sent exactly the requests [cs]. *)
Definition completes (m : io unit) (cs : list call) : Prop :=
  forall h, exists t, m h = (Return tt, h ++ t) /\ requests t = cs.

(** A radio stack on which binding throws and everything else succeeds,
    and one on which every request throws. *)
Definition bind_fails : transport := fun _ c =>
  match c with
  | Bind _ _ => Some (TransportError "bind seMetering: UNSUPPORTED_ATTRIBUTE")
  | _ => None
  end.

Definition all_fail : transport := fun _ _ => Some (TransportError "no response").

(** ** Poll timers *)

Definition no_timers : timers := {| registry := ∅; live := ∅; next_handle := 0 |}.

(** The live timer [t] polls the device whose address is [key]. *)
Definition polls (key : string) (t : interval) : Prop :=
  ieeeAddr (polled t) = Some key.

(** Exactly one live timer polls [key], and it is the registered one. *)
Definition exactly_one_timer (key : string) (st : timers) : Prop :=
  exists h, registry st !! key = Some h
    /\ forall h', (exists t, live st !! h' = Some t /\ polls key t) <-> h' = h.

(** No live timer polls [key]. *)
Definition no_timer (key : string) (st : timers) : Prop :=
  registry st !! key = None /\ forall h t, live st !! h = Some t -> ~ polls key t.

(** The registry and the live timers agree: the handle registered for a
    device is live and polls it, every live timer is the one registered for
    its device, and handles are not reused. *)
Record consistent (st : timers) : Prop := {
  registered_live : forall key h,
    registry st !! key = Some h -> exists t, live st !! h = Some t /\ polls key t;
  live_registered : forall h t,
    live st !! h = Some t -> exists key, polls key t /\ registry st !! key = Some h;
  handles_fresh : forall h t,
    live st !! h = Some t -> (h < next_handle st)%N;
}.

(** What both revisions do on a polling-start event for the device [d]
    whose address is [key]: nothing when [key] is registered, otherwise a
    new 60 s timer, registered under [key]. *)
Definition register_timer (key : string) (d : device) (st : timers) : timers :=
  match registry st !! key with
  | Some _ => st
  | None =>
      let '(timer, st') := setInterval {| polled := d; intervalMs := 60000 |} st in
      registry_set key timer st'
  end.

(** A polling-start event for the converter: any event with a device other
    than the two the guard in [onEvent] returns on. *)
Definition starts_polling (name : string) : Prop :=
  name <> "start" /\ name <> "stop".

(** ** Tables and events *)

(** The label a table decodes code [c] to: the last entry carrying [c],
    which is the one [invert] keeps. *)
Definition last_label (map : EnumMapping) (c : Z) : option string :=
  fst <$> find (fun '(_, code) => code =? c) (rev map).

(** The capabilities an access mask grants: the operands of [|] that
    include the SET bit, and the GET bit. *)
Definition can_set (mask : list Converter.ea.access) : bool :=
  existsb (fun a => match a with
                    | Converter.ea.SET | Converter.ea.STATE_SET | Converter.ea.ALL => true
                    | _ => false
                    end) mask.

Definition can_get (mask : list Converter.ea.access) : bool :=
  existsb (fun a => match a with
                    | Converter.ea.GET | Converter.ea.STATE_GET | Converter.ea.ALL => true
                    | _ => false
                    end) mask.



Section ReportKeys.
Context `{Runtime}.

(** Every attribute the fromZigbee converters of the definition decode,
    the five registered and [on_off_num]: the converter and the keys the
    attribute may arrive under. *)
Definition report_keys : list (fz_converter * list string) :=
  [(Converter.on_off_num, [idx 0x0000; "onOff"]);
   (Converter.device_temp_num, [idx 0x0000; "currentTemperature"]);
   (Converter.temp_measurement_num, [idx 0x0000; "measuredValue"]);
   (Converter.private_04e0_num, [idx 0x0000; "measuredValue2"; "ntc2Temperature"]);
   (Converter.private_04e0_num, [idx 0x0001; "resistanceValue1"]);
   (Converter.private_04e0_num, [idx 0x0002; "resistanceValue2"]);
   (Converter.private_04e0_num, [idx 0x0003; "waterSensorValue"; "waterSensor"]);
   (Converter.private_04e0_num, [idx 0x0004; "NTCCalibration1"]);
   (Converter.private_04e0_num, [idx 0x0005; "NTCCalibration2"]);
   (Converter.private_04e0_num, [idx 0x0006; "waterAlarmRelayAction"]);
   (Converter.private_04e0_num, [idx 0x0007; "ntc1OperationSelect"]);
   (Converter.private_04e0_num, [idx 0x0008; "ntc2OperationSelect"]);
   (Converter.private_04e0_num, [idx 0x0009; "ntc1RelayAutoTemp"]);
   (Converter.private_04e0_num, [idx 0x000A; "ntc2RelayAutoTemp"]);
   (Converter.private_04e0_num, [idx 0x000B; "overrideOption"]);
   (Converter.private_04e0_num, [idx 0x000C; "ntc1TempHysterisis"]);
   (Converter.private_04e0_num, [idx 0x000D; "ntc2TempHysterisis"]);
   (Converter.private_04e0_num, [idx 0x000E; "waterConditionAlarm"]);
   (Converter.private_04e0_num, [idx 0x000F; "ntcConditionAlarm"]);
   (Converter.private_04e0_num, [idx 0x0010; "isExecuteCondition"]);
   (Converter.electrical_num, [idx 0x0505; "rmsVoltage"]);
   (Converter.electrical_num, [idx 0x0508; "rmsCurrent"]);
   (Converter.electrical_num, [idx 0x050B; "activePower"]);
   (Converter.metering_num, [idx 0x0000; "currentSummationDelivered"; "currentSummDelivered"])].

(** The fields with a report path and a refresh path that decode a raw
    number alike: the converter of the report, the converter of the
    refresh, the field, the attribute id.  The three temperatures are not
    among them. *)
Definition decoded_alike : list (fz_converter * Converter.tz_converter * string * N) :=
  [(Converter.electrical_num, Converter.get_attribute, "voltage", 0x0505%N);
   (Converter.electrical_num, Converter.get_attribute, "current", 0x0508%N);
   (Converter.electrical_num, Converter.get_attribute, "power", 0x050B%N);
   (Converter.metering_num, Converter.get_attribute, "energy", 0x0000%N);
   (Converter.private_04e0_num, Converter.get_attribute, "water_sensor", 0x0003%N);
   (Converter.private_04e0_num, Converter.get_attribute, "water_condition_alarm", 0x000E%N);
   (Converter.private_04e0_num, Converter.get_attribute, "ntc_condition_alarm", 0x000F%N);
   (Converter.private_04e0_num, Converter.get_attribute, "is_execute_condition", 0x0010%N);
   (Converter.private_04e0_num, Converter.set_private_attribute, "ntc1_sensor_type", 0x0001%N);
   (Converter.private_04e0_num, Converter.set_private_attribute, "ntc2_sensor_type", 0x0002%N);
   (Converter.private_04e0_num, Converter.set_private_attribute, "water_alarm_relay_action",
      0x0006%N);
   (Converter.private_04e0_num, Converter.set_private_attribute, "ntc1_operation_mode", 0x0007%N);
   (Converter.private_04e0_num, Converter.set_private_attribute, "ntc2_operation_mode", 0x0008%N);
   (Converter.private_04e0_num, Converter.set_private_attribute, "ntc1_relay_auto_temp", 0x0009%N);
   (Converter.private_04e0_num, Converter.set_private_attribute, "ntc2_relay_auto_temp", 0x000A%N);
   (Converter.private_04e0_num, Converter.set_private_attribute, "override_option", 0x000B%N);
   (Converter.private_04e0_num, Converter.set_private_attribute, "ntc1_calibration", 0x0004%N);
   (Converter.private_04e0_num, Converter.set_private_attribute, "ntc2_calibration", 0x0005%N);
   (Converter.private_04e0_num, Converter.set_private_attribute, "ntc1_temp_hysteresis",
      0x000C%N);
   (Converter.private_04e0_num, Converter.set_private_attribute, "ntc2_temp_hysteresis",
      0x000D%N)].

End ReportKeys.

(** The events of a run, oldest first, each with the device argument. *)
Definition run (onEvent : event_arg -> option device -> timers -> timers)
    (events : list (event_arg * option device)) (st : timers) : timers :=
  foldl (fun st '(type, dev) => onEvent type dev st) st events.


(** An endpoint that lists one of the clusters [findBestEndpoint] looks
    for, by number or by the number's text. *)
Definition serves_desired (ep : endpoint) : bool :=
  existsb (hasCluster ep) [0x0006; 0x0002; 0x0402; 0x0B04; 0x0702]%N.

(** The two reads of the converter's poll, and the five of the earlier
    revision's. *)
Definition poll_reads (ep : N) : list call :=
  [Read ep (ClusterName "msTemperatureMeasurement") [0x0000%N];
   Read ep (ClusterId 0x04E0) [0x0000; 0x0003]%N].

Definition earlier_poll_reads (ep : N) : list call :=
  [Read ep (ClusterName "haElectricalMeasurement") [0x0505; 0x0508; 0x050B]%N;
   Read ep (ClusterName "seMetering") [0x0000%N];
   Read ep (ClusterName "genDeviceTempCfg") [0x0000%N];
   Read ep (ClusterName "msTemperatureMeasurement") [0x0000%N];
   Read ep (ClusterId 0x04E0) [0x0000; 0x0003]%N].

(** Sending requests one after the other until one throws: the history
    that leaves, every request attempted being recorded, and after the one
    that threw what the handler logs. *)
Fixpoint until_failure (net : transport) (cs : list call) (on_error : thrown -> list event)
    (h : list event) : list event :=
  match cs with
  | [] => h
  | c :: rest =>
      match net h c with
      | Some e => h ++ [Called c] ++ on_error e
      | None => until_failure net rest on_error (h ++ [Called c])
      end
  end.

(** * Properties *)

(** ** Key resolution and output objects *)

Section Resolution.
Implicit Types (d out : object) (k f : string) (aliases : list string).

Lemma pick_hasOwn d aliases k :
  pick d aliases = Some k -> hasOwn d k = true.
Proof.
  unfold pick. intros Hf. apply find_some in Hf. tauto.
Qed.

Lemma pick_hasAny d aliases k :
  pick d aliases = Some k -> hasAny d aliases = true.
Proof.
  unfold pick, hasAny. intros Hf. apply find_some in Hf.
  apply existsb_exists. exists k. tauto.
Qed.

Lemma get_lookup d k v : d !! k = Some v -> get d k = v.
Proof. unfold get. now intros ->. Qed.

Lemma nonempty_lookup out f v : out !! f = Some v -> nonempty out = Some out.
Proof.
  intros Hf. unfold nonempty.
  destruct (Nat.eqb_spec (size out) 0) as [Hz|]; [|reflexivity].
  apply map_size_empty_iff in Hz. subst out. now rewrite lookup_empty in Hf.
Qed.

(** A handler that leaves field [f] alone lets it through [mapAndAssign]. *)
Lemma mapAndAssign_ne d attrId aliases handler out f :
  (forall raw o, handler raw o !! f = o !! f) ->
  mapAndAssign d attrId aliases handler out !! f = out !! f.
Proof.
  intros Hh. unfold mapAndAssign. destruct (hasAny d aliases); [apply Hh | reflexivity].
Qed.

Lemma mapAndAssign_pick d attrId aliases handler out k raw :
  pick d aliases = Some k -> d !! k = Some raw ->
  mapAndAssign d attrId aliases handler out = handler raw out.
Proof.
  intros Hp Hk. unfold mapAndAssign.
  rewrite (pick_hasAny _ _ _ Hp), Hp. cbn [default from_option id].
  now rewrite (get_lookup _ _ _ Hk).
Qed.

End Resolution.

Section Handlers.
Context `{Runtime}.
Implicit Types (out inv : object) (f g : string) (raw : value).

Lemma assign_temperature_ne g f raw out :
  g <> f -> Converter.assign_temperature g raw out !! f = out !! f.
Proof.
  intros Hne. unfold Converter.assign_temperature.
  destruct (_ && _); [now apply lookup_insert_ne | reflexivity].
Qed.

Lemma assign_label_ne g inv f raw out :
  g <> f -> Converter.assign_label g inv raw out !! f = out !! f.
Proof.
  intros Hne. unfold Converter.assign_label.
  destruct (negb _); [now apply lookup_insert_ne | reflexivity].
Qed.

Lemma assign_number_ne g f raw out :
  g <> f -> Converter.assign_number g raw out !! f = out !! f.
Proof.
  intros Hne. unfold Converter.assign_number.
  destruct (is_number _); [now apply lookup_insert_ne | reflexivity].
Qed.

Lemma assign_flag_ne g f raw out :
  g <> f -> Converter.assign_flag g raw out !! f = out !! f.
Proof.
  intros Hne. unfold Converter.assign_flag.
  destruct (negb _); [now apply lookup_insert_ne | reflexivity].
Qed.

End Handlers.

(** Steps of [private_04e0_num] that assign a field other than the one
    looked up are skipped. *)
Ltac skip_other_fields :=
  repeat first
    [ rewrite mapAndAssign_ne by
        (intros;
         first [ apply assign_temperature_ne | apply assign_label_ne
               | apply assign_number_ne | apply assign_flag_ne
               | apply lookup_insert_ne ];
         discriminate) ].

(** Running a refresh whose read answered [res], with [raw] under the
    first acceptable key present. *)
Ltac run_refresh Hread Hpick Hraw :=
  cbn [find String.eqb Ascii.eqb Bool.eqb andb fst snd];
  unfold Converter.get_label, Converter.get_threshold, Converter.get_number;
  rewrite Hread; cbn [mbind result_bind pick_res];
  rewrite Hpick; cbn [mbind result_bind get_res default from_option id];
  rewrite (get_lookup _ _ _ Hraw).

(** ** Numbers *)

Lemma digits2_pos_bound (m : positive) : Z.pos m < 2 ^ Z.pos (digits2_pos m).
Proof.
  induction m as [m IH | m IH |]; cbn [digits2_pos].
  - rewrite Pos2Z.inj_succ, Z.pow_succ_r by lia. lia.
  - rewrite Pos2Z.inj_succ, Z.pow_succ_r by lia. lia.
  - reflexivity.
Qed.

Lemma binary64_fits (x : number) : binary64 x -> fits x.
Proof.
  destruct x as [| | | s m e]; try (intros _; exact I).
  unfold binary64, valid_binary, bounded, canonical_mantissa, fexp, prec.
  intros Hv. apply andb_true_iff in Hv as [Hc _]. apply Z.eqb_eq in Hc.
  pose proof (digits2_pos_bound m) as Hd.
  assert (Hle : Z.pos (digits2_pos m) <= 53) by lia.
  cbn. eapply Z.lt_le_trans; [exact Hd |]. apply Z.pow_le_mono_r; lia.
Qed.

Lemma log2_digits (p : positive) : Z.log2 (Z.pos p) = Z.pos (digits2_pos p) - 1.
Proof.
  assert (Hs : forall q, digits2_pos q = Pos.size q)
    by (induction q as [q IH | q IH |]; cbn; congruence).
  destruct p as [p | p |]; cbn; [| | reflexivity];
    rewrite <- (Hs p); change (PosDef.Pos.succ (digits2_pos p)) with (Pos.succ (digits2_pos p));
    rewrite Pos2Z.inj_succ; lia.
Qed.

Lemma iter_xO_value (p k : positive) : Z.pos (Pos.iter xO p k) = Z.pos p * 2 ^ Z.pos k.
Proof.
  induction k as [| k IH] using Pos.peano_ind.
  - cbn. lia.
  - rewrite Pos.iter_succ, Pos2Z.inj_xO, IH, Pos2Z.inj_succ, Z.pow_succ_r by lia. ring.
Qed.

Lemma iter_xO_digits (p k : positive) :
  Z.pos (digits2_pos (Pos.iter xO p k)) = Z.pos (digits2_pos p) + Z.pos k.
Proof.
  induction k as [| k IH] using Pos.peano_ind.
  - cbn. lia.
  - rewrite Pos.iter_succ. cbn [digits2_pos]. rewrite Pos2Z.inj_succ, IH. lia.
Qed.

(** A 53-bit mantissa with an exponent in range is left as it is. *)
Lemma binary_round_aux_exact (s : bool) (m : positive) (e : Z) :
  Z.pos (digits2_pos m) = 53 -> -1074 <= e <= 971 ->
  binary_round_aux prec emax s (Z.pos m) e loc_Exact = S754_finite s m e.
Proof.
  intros Hd He.
  assert (Hshr : forall l, shr_fexp prec emax (Z.pos m) e l = (shr_record_of_loc (Z.pos m) l, e)).
  { intros l. unfold shr_fexp, fexp, emin, prec, emax. cbn [Zdigits2]. rewrite Hd.
    replace (Z.max (53 + e - 53) (3 - 1024 - 53) - e) with 0 by lia. reflexivity. }
  unfold binary_round_aux. rewrite Hshr. cbn [shr_record_of_loc shr_m loc_of_shr_record round_nearest_even].
  rewrite Hshr. cbn [shr_record_of_loc shr_m].
  unfold emax, prec. destruct (Z.leb_spec e (1024 - 53)); [reflexivity | lia].
Qed.

(** An integer below 2^53 in magnitude is represented exactly: its mantissa
    is the integer shifted up to 53 bits. *)
Lemma of_int_exact (n : Z) :
  n <> 0 -> Z.log2 (Z.abs n) <= 52 ->
  of_int n = S754_finite (n <? 0) (Z.to_pos (Z.abs n * 2 ^ (52 - Z.log2 (Z.abs n))))
               (Z.log2 (Z.abs n) - 52).
Proof.
  intros Hn Hl.
  assert (Hgen : forall (s : bool) (p : positive),
             Z.log2 (Z.pos p) <= 52 ->
             binary_round prec emax s p 0
             = S754_finite s (Z.to_pos (Z.pos p * 2 ^ (52 - Z.log2 (Z.pos p))))
                 (Z.log2 (Z.pos p) - 52)).
  { intros s p Hp. rewrite log2_digits in *. unfold binary_round, shl_align, fexp, emin, prec, emax.
    set (d := Z.pos (digits2_pos p)) in *.
    assert (Hd1 : 1 <= d) by (unfold d; lia).
    assert (Hf : Z.max (d + 0 - 53) (3 - 1024 - 53) = d - 53) by lia.
    rewrite Hf, Z.sub_0_r.
    destruct (d - 53) as [| k | k] eqn:Hk; try lia.
    - replace (52 - (d - 1)) with 0 by lia. replace (d - 1 - 52) with 0 by lia.
      rewrite Z.pow_0_r, Z.mul_1_r. cbn [Z.to_pos].
      apply (binary_round_aux_exact s p 0); fold d; lia.
    - replace (52 - (d - 1)) with (Z.pos k) by lia. replace (d - 1 - 52) with (Z.neg k) by lia.
      rewrite <- iter_xO_value. cbn [Z.to_pos].
      apply (binary_round_aux_exact s (Pos.iter xO p k) (Z.neg k)).
      + rewrite iter_xO_digits. fold d. lia.
      + lia. }
  unfold of_int. destruct n as [| p | p]; [contradiction | |]; cbn [Z.abs] in *.
  - exact (Hgen false p Hl).
  - exact (Hgen true p Hl).
Qed.

Lemma to_int_of_int n : Z.abs n < 2 ^ 53 -> to_int (of_int n) = Some n.
Proof.
  intros Hn.
  destruct (Z.eq_dec n 0) as [-> | Hnz]; [reflexivity |].
  assert (Hpos : 0 < Z.abs n) by lia.
  assert (Hl : Z.log2 (Z.abs n) < 53) by (apply Z.log2_lt_pow2; lia).
  pose proof (Z.log2_nonneg (Z.abs n)) as Hl0.
  rewrite of_int_exact by lia.
  set (l := Z.log2 (Z.abs n)) in *.
  assert (Hk : 0 < 2 ^ (52 - l)) by (apply Z.pow_pos_nonneg; lia).
  assert (Hm : Z.pos (Z.to_pos (Z.abs n * 2 ^ (52 - l))) = Z.abs n * 2 ^ (52 - l))
    by (apply Z2Pos.id; nia).
  unfold to_int. rewrite Hm.
  destruct (Z.leb_spec 0 (l - 52)) as [Hge | Hlt].
  - replace (52 - l) with 0 by lia. replace (l - 52) with 0 by lia.
    rewrite Z.pow_0_r, !Z.mul_1_r. f_equal. unfold cond_Zopp. destruct (Z.ltb_spec n 0); lia.
  - replace (- (l - 52)) with (52 - l) by lia.
    rewrite Z.mod_mul by lia. rewrite Z.eqb_refl.
    rewrite Z.div_mul by lia. f_equal. unfold cond_Zopp. destruct (Z.ltb_spec n 0); lia.
Qed.

(** [Math.round] returns the integer nearest to its argument, a tie going
    up. *)
Lemma Math_round_spec (x : number) (q : Q) :
  fits x -> to_Q x = Some q ->
  to_int (Math_round x) = Some (Qfloor (q + (1 # 2))%Q).
Proof.
  intros Hv Hq. destruct x as [s | s | | s m e]; try discriminate.
  - injection Hq as <-. reflexivity.
  - assert (Hm : Z.pos m < 2 ^ 53) by exact Hv.
    cbn [to_Q] in Hq. cbn [Math_round].
    destruct (Z.leb_spec 0 e) as [He | He].
    + injection Hq as <-. cbn [to_int]. destruct (Z.leb_spec 0 e); [| lia].
      f_equal. unfold Qfloor, Qplus, inject_Z. cbn [Qnum Qden].
      rewrite Z.mul_1_r. change (Z.pos (1 * 2)) with 2.
      set (z := cond_Zopp s (Z.pos m) * 2 ^ e).
      apply Z.div_unique with (r := 1); lia.
    + injection Hq as <-.
      assert (Hk : 0 < 2 ^ (- e)) by (apply Z.pow_pos_nonneg; lia).
      assert (Hk2 : 2 ^ (- e + 1) = 2 ^ (- e) * 2) by (rewrite Z.pow_add_r by lia; reflexivity).
      assert (Hk1 : 2 <= 2 ^ (- e)).
      { change 2 with (2 ^ 1) at 1. apply Z.pow_le_mono_r; lia. }
      set (a := cond_Zopp s (Z.pos m)) in *.
      assert (Ha : Z.abs a < 2 ^ 53) by (unfold a, cond_Zopp; destruct s; lia).
      assert (Hfl : Qfloor ((a # Z.to_pos (2 ^ (- e))) + (1 # 2))%Q
                    = (2 * a + 2 ^ (- e)) / 2 ^ (- e + 1)).
      { unfold Qfloor, Qplus. cbn [Qnum Qden].
        rewrite Pos2Z.inj_mul, Z2Pos.id by lia. rewrite Hk2. f_equal. lia. }
      rewrite Hfl. set (n := (2 * a + 2 ^ (- e)) / 2 ^ (- e + 1)).
      assert (Hn : Z.abs n < 2 ^ 53).
      { assert (- 2 ^ 53 + 1 <= n < 2 ^ 53); [| lia]. unfold n. rewrite Hk2.
        assert (HP : 0 < 2 ^ 53) by reflexivity.
        set (P := 2 ^ 53) in *. set (K := 2 ^ (- e)) in *. split.
        - apply Z.div_le_lower_bound; [lia |]. nia.
        - apply Z.div_lt_upper_bound; [lia |]. nia. }
      destruct (Z.eqb_spec n 0) as [-> | Hnz]; [reflexivity |].
      now apply to_int_of_int.
Qed.

(** Every product has a mantissa of at most 53 bits: rounding shifts it
    down to the precision of the format. *)

Lemma Zdigits2_bound (m : Z) : 0 <= m -> m < 2 ^ Zdigits2 m.
Proof.
  destruct m as [| p | p]; intros Hm; try lia.
  - reflexivity.
  - apply digits2_pos_bound.
Qed.

Lemma Zdigits2_nonneg (m : Z) : 0 <= Zdigits2 m.
Proof. destruct m; cbn; lia. Qed.

Lemma shr_1_m (r : shr_record) : 0 <= shr_m r -> shr_m (shr_1 r) = shr_m r / 2.
Proof.
  destruct r as [m r s]. cbn [shr_m]. intros Hm. unfold shr_1.
  destruct m as [| [p | p |] | p]; cbn [shr_m]; try lia.
  - reflexivity.
  - apply Z.div_unique with (r := 1); lia.
  - apply Z.div_unique with (r := 0); lia.
  - reflexivity.
Qed.

Lemma iter_shr_1_m (k : positive) (r : shr_record) :
  0 <= shr_m r -> shr_m (SpecFloat.iter_pos shr_1 k r) = shr_m r / 2 ^ Z.pos k.
Proof.
  revert r. induction k as [k IH | k IH |]; intros r Hm; cbn [SpecFloat.iter_pos].
  - assert (H1 : 0 <= shr_m (shr_1 r)) by (rewrite shr_1_m by exact Hm; apply Z.div_pos; lia).
    assert (Hk : 0 < 2 ^ Z.pos k) by (apply Z.pow_pos_nonneg; lia).
    assert (H2 : 0 <= shr_m (SpecFloat.iter_pos shr_1 k (shr_1 r)))
      by (rewrite IH by exact H1; apply Z.div_pos; lia).
    rewrite IH by exact H2. rewrite IH by exact H1. rewrite shr_1_m by exact Hm.
    rewrite !Z.div_div by lia. f_equal.
    replace (Z.pos k~1) with (1 + Z.pos k + Z.pos k) by lia.
    rewrite !Z.pow_add_r by lia. ring.
  - assert (Hk : 0 < 2 ^ Z.pos k) by (apply Z.pow_pos_nonneg; lia).
    assert (H2 : 0 <= shr_m (SpecFloat.iter_pos shr_1 k r))
      by (rewrite IH by exact Hm; apply Z.div_pos; lia).
    rewrite IH by exact H2. rewrite IH by exact Hm.
    rewrite !Z.div_div by lia. f_equal.
    replace (Z.pos k~0) with (Z.pos k + Z.pos k) by lia.
    rewrite !Z.pow_add_r by lia. ring.
  - rewrite shr_1_m by exact Hm. reflexivity.
Qed.

(** Shifting to the exponent of the format leaves at most 53 bits. *)
Lemma shr_fexp_bound (m e : Z) (l : location) :
  0 <= m ->
  0 <= shr_m (fst (shr_fexp prec emax m e l)) < 2 ^ 53.
Proof.
  intros Hm. unfold shr_fexp, shr, fexp, prec.
  pose proof (Zdigits2_bound m Hm) as Hd. pose proof (Zdigits2_nonneg m) as Hd0.
  set (d := Zdigits2 m) in *.
  assert (Hrec : shr_m (shr_record_of_loc m l) = m) by (destruct l as [| []]; reflexivity).
  destruct (Z.max (d + e - 53) (emin 53 emax) - e) as [| k | k] eqn:Hk; cbn [fst].
  - rewrite Hrec. split; [exact Hm |].
    eapply Z.lt_le_trans; [exact Hd |]. apply Z.pow_le_mono_r; lia.
  - rewrite iter_shr_1_m by (rewrite Hrec; exact Hm). rewrite Hrec.
    assert (Hp : 0 < 2 ^ Z.pos k) by (apply Z.pow_pos_nonneg; lia).
    split; [apply Z.div_pos; lia |].
    apply Z.div_lt_upper_bound; [lia |].
    eapply Z.lt_le_trans; [exact Hd |].
    rewrite <- Z.pow_add_r by lia. apply Z.pow_le_mono_r; lia.
  - rewrite Hrec. split; [exact Hm |].
    eapply Z.lt_le_trans; [exact Hd |]. apply Z.pow_le_mono_r; lia.
Qed.

Lemma round_nearest_even_bound (m : Z) (l : location) :
  0 <= m < 2 ^ 53 -> 0 <= round_nearest_even m l <= 2 ^ 53.
Proof.
  intros Hm. unfold round_nearest_even. destruct l as [| []]; try destruct (Z.even m); lia.
Qed.

Lemma binary_round_aux_fits (s : bool) (m e : Z) (l : location) :
  0 <= m -> fits (binary_round_aux prec emax s m e l).
Proof.
  intros Hm. unfold binary_round_aux.
  pose proof (shr_fexp_bound m e l Hm) as H1.
  destruct (shr_fexp prec emax m e l) as [mrs' e'] eqn:E1. cbn [fst] in H1.
  pose proof (round_nearest_even_bound _ (loc_of_shr_record mrs') H1) as H2.
  pose proof (shr_fexp_bound _ e' loc_Exact (proj1 H2)) as H3.
  destruct (shr_fexp prec emax (round_nearest_even (shr_m mrs') (loc_of_shr_record mrs')) e' loc_Exact)
    as [mrs'' e''] eqn:E2. cbn [fst] in H3.
  destruct (shr_m mrs'') as [| p | p]; cbn; try exact I.
  destruct (e'' <=? emax - prec); cbn; [lia | exact I].
Qed.

Lemma mul_fits (x y : number) : fits (mul x y).
Proof.
  unfold mul, SFmul. destruct x as [sx | sx | | sx mx ex], y as [sy | sy | | sy my ey];
    try exact I.
  apply binary_round_aux_fits. lia.
Qed.

(** What rounding to decimal places yields: an integer number of units of
    the last place, the integer nearest to the scaled value. *)
Lemma round_to_decimals_spec (digits : Z) (x : number) (q : Q) :
  to_Q (mul x (of_int (10 ^ digits))) = Some q ->
  exists units,
    round_to_decimals digits x = div units (of_int (10 ^ digits))
    /\ to_int units = Some (round_half_up q).
Proof.
  intros Hq. exists (Math_round (mul x (of_int (10 ^ digits)))). split; [reflexivity |].
  apply Math_round_spec; [apply mul_fits | exact Hq].
Qed.

(** ** Rounding modes *)

Lemma tie_mod (a : Z) (b : positive) :
  (exists n : Z, ((a # b) + (1 # 2) == inject_Z n)%Q)
  <-> (a * 2 + Z.pos b) mod (Z.pos b * 2) = 0.
Proof.
  unfold Qeq, Qplus, inject_Z. cbn [Qnum Qden]. rewrite Pos2Z.inj_mul. split.
  - intros [n Hn]. rewrite Z.mul_1_r, Z.mul_1_l in Hn. rewrite Hn. apply Z.mod_mul. lia.
  - intros Hm. exists ((a * 2 + Z.pos b) / (Z.pos b * 2)).
    pose proof (Z.div_mod (a * 2 + Z.pos b) (Z.pos b * 2) ltac:(lia)) as Hd. lia.
Qed.

Lemma away_negative (a : Z) (b : positive) :
  a < 0 ->
  round_half_away_from_zero (a # b) = - ((Z.pos b * 2 - (a * 2 + Z.pos b)) / (Z.pos b * 2)).
Proof.
  intros Ha. unfold round_half_away_from_zero, Qle_bool. cbn [Qnum Qden].
  destruct (Z.leb_spec (0 * Z.pos b) (a * 1)) as [|_]; [lia |].
  unfold Qceiling, Qfloor, Qminus, Qplus, Qopp. cbn [Qnum Qden].
  rewrite Pos2Z.inj_mul. f_equal. f_equal. lia.
Qed.

Lemma round_half_up_away (q : Q) :
  ~ negative_tie q -> round_half_up q = round_half_away_from_zero q.
Proof.
  destruct q as [a b]. intros Hnt.
  destruct (Z.lt_ge_cases a 0) as [Ha | Ha].
  - rewrite away_negative by exact Ha.
    assert (Hm : (a * 2 + Z.pos b) mod (Z.pos b * 2) <> 0).
    { intros Hm. apply Hnt. split; [unfold Qlt; cbn; lia | now apply tie_mod]. }
    unfold round_half_up, Qfloor, Qplus. cbn [Qnum Qden]. rewrite Pos2Z.inj_mul.
    rewrite Z.mul_1_l.
    set (X := a * 2 + Z.pos b) in *. set (D := Z.pos b * 2) in *.
    replace (D - X) with (- X + 1 * D) by lia.
    rewrite Z.div_add by lia. rewrite Z.div_opp_l_nz by (try exact Hm; lia). lia.
  - unfold round_half_away_from_zero, round_half_up, Qle_bool. cbn [Qnum Qden].
    destruct (Z.leb_spec (0 * Z.pos b) (a * 1)); [reflexivity | lia].
Qed.

Lemma round_half_up_tie (q : Q) :
  negative_tie q -> round_half_up q = round_half_away_from_zero q + 1.
Proof.
  destruct q as [a b]. intros [Hneg Ht]. apply tie_mod in Ht.
  assert (Ha : a < 0) by (unfold Qlt in Hneg; cbn in Hneg; lia).
  rewrite away_negative by exact Ha.
  unfold round_half_up, Qfloor, Qplus. cbn [Qnum Qden]. rewrite Pos2Z.inj_mul.
  rewrite Z.mul_1_l.
  set (X := a * 2 + Z.pos b) in *. set (D := Z.pos b * 2) in *.
  replace (D - X) with (- X + 1 * D) by lia.
  rewrite Z.div_add by lia. rewrite Z.div_opp_l_z by (try exact Ht; lia). lia.
Qed.

(** ** The write path: numbers *)

Section NumericEncode.
Context `{Runtime}.

Lemma parseNumeric_number (v s : number) (label : string) :
  is_finite v = true ->
  exists t, parseNumeric (VNumber v) label s
            = Return {| raw := Math_round (mul v s); text := t |}.
Proof.
  intros Hf. unfold parseNumeric. cbn [nullish ToNumber]. rewrite Hf. cbn [negb].
  destruct (num_eqb s (of_int 1)); eexists; reflexivity.
Qed.

(** C5, as the code has it: for every finite input [v] and scale [s] whose
    binary64 product [v * s] is finite, the encoded raw value is the integer
    nearest to that product, a tie going towards +Infinity.  It is the
    round-half-away-from-zero of the product unless the product is negative
    with fractional part exactly one half, where it is one more. *)
Theorem parseNumeric_rounds_half_up (v s : number) (label : string) (q : Q) :
  is_finite v = true ->
  to_Q (mul v s) = Some q ->
  exists r,
    parseNumeric (VNumber v) label s = Return r
    /\ to_int (raw r) = Some (round_half_up q)
    /\ (~ negative_tie q -> round_half_up q = round_half_away_from_zero q)
    /\ (negative_tie q -> round_half_up q = round_half_away_from_zero q + 1).
Proof.
  intros Hf Hq. destruct (parseNumeric_number v s label Hf) as [t Ht].
  eexists. split; [exact Ht |]. cbn [raw]. split; [| split].
  - apply Math_round_spec; [apply mul_fits | exact Hq].
  - apply round_half_up_away.
  - apply round_half_up_tie.
Qed.

End NumericEncode.

(** The calibration -30.5 at scale 1 is encoded as -30. *)
Lemma parseNumeric_rounds_half_up_witness :
  exists r,
    parseNumeric (H := example_runtime) (VNumber (decimal (-305) 1)) "ntc1_calibration" (of_int 1)
      = Return r
    /\ to_int (raw r) = Some (-30).
Proof.
  destruct (parseNumeric_rounds_half_up (H := example_runtime)
              (decimal (-305) 1) (of_int 1) "ntc1_calibration"
              (-8584986789675008 # 281474976710656))
    as (r & Hr & Hraw & _); [reflexivity | reflexivity |].
  exists r. split; [exact Hr | exact Hraw].
Defined.

(** C5 as stated fails: -30.5 is a finite input, its product with the scale
    1 is -30.5 exactly, round-half-away-from-zero of -30.5 is -31, and the
    encoded raw value is -30. *)
Lemma parseNumeric_half_away_counterexample :
  is_finite (decimal (-305) 1) = true
  /\ to_Q (mul (decimal (-305) 1) (of_int 1)) = Some (-8584986789675008 # 281474976710656)%Q
  /\ (-8584986789675008 # 281474976710656 == - (61 # 2))%Q
  /\ round_half_away_from_zero (-8584986789675008 # 281474976710656) = -31
  /\ parseNumeric (H := example_runtime) (VNumber (decimal (-305) 1)) "ntc1_calibration" (of_int 1)
     = Return {| raw := of_int (-30); text := VNumber (of_int (-30)) |}.
Proof. repeat split. Qed.

(** ** The write path: enumerations *)

Lemma enum_code_None (map : EnumMapping) (key : string) :
  ~ In key (fst <$> map) -> enum_code map key = None.
Proof.
  unfold enum_code. induction map as [| [k c] map IH]; [reflexivity |].
  cbn. intros Hn. destruct (String.eqb_spec k key) as [-> | _]; [tauto |].
  apply IH. tauto.
Qed.

Lemma parseEnumValue_unknown (map : EnumMapping) (s label : string) :
  ~ In (trim s) (fst <$> map) ->
  parseEnumValue (VString s) map label = Throw (InvalidValue label (VString s)).
Proof.
  intros Hn. unfold parseEnumValue. cbn [nullish].
  now rewrite (enum_code_None _ _ Hn).
Qed.

Section EnumEncode.
Context `{Runtime}.

(** C4, as the code has it: for every enumeration table of the write path
    and every label in it, encoding the label yields its code and decoding
    that code yields the label back; encoding a string whose trimmed form
    is not a label of the table throws the invalid-value error, naming the
    field and the string; and the write ntc1_sensor_type = "NTC-10K" sends
    the ENUM8 value 1 to attribute 0x0001 of cluster 0x04E0 and echoes
    "NTC-10K". *)
Theorem enum_codec :
  (forall map inv label code fld,
      In (map, inv) write_enums -> In (label, code) map ->
      parseEnumValue (VString label) map fld
        = Return {| raw := of_int code; text := VString label |}
      /\ label_or_raw inv (VNumber (of_int code)) = VString label)
  /\ (forall map inv s fld,
      In (map, inv) write_enums -> ~ In (trim s) (fst <$> map) ->
      parseEnumValue (VString s) map fld = Throw (InvalidValue fld (VString s)))
  /\ (forall write : Converter.writer,
      let request := {| w_cluster := 0x04E0; w_attr := 0x0001;
                        w_value := of_int 1; w_type := Some ENUM8 |} in
      write request = Return tt ->
      Converter.set_private_attribute_convertSet write "ntc1_sensor_type" (VString "NTC-10K")
        = ([request], Return (Some {[ "ntc1_sensor_type" := VString "NTC-10K" ]}))).
Proof.
  split; [| split].
  - intros map inv label code fld Hm Hl.
    cbn in Hm;
      repeat (destruct Hm as [Hm | Hm]; [injection Hm as <- <- |]); try contradiction;
      cbn in Hl;
      repeat (destruct Hl as [Hl | Hl]; [injection Hl as <- <- |]); try contradiction;
      split; vm_compute; reflexivity.
  - intros map inv s fld _ Hn. now apply parseEnumValue_unknown.
  - intros write request Hw. unfold Converter.set_private_attribute_convertSet, switch.
    cbn [find String.eqb Ascii.eqb Bool.eqb andb fst snd].
    unfold Converter.write_parsed.
    change (parseEnumValue (VString "NTC-10K") Converter.NTC_TYPE_MAP "ntc1_sensor_type")
      with (Return {| raw := of_int 1; text := VString "NTC-10K" |}).
    cbv beta iota. change PRIVATE_CLUSTER_ID with 0x04E0%N. fold request.
    rewrite Hw. reflexivity.
Qed.

End EnumEncode.

(** The three parts at "NTC-47K", at "ntc_10k" (a label of the earlier
    revision only) and at a device that accepts the write. *)
Lemma enum_codec_witness :
  (parseEnumValue (VString "NTC-47K") Converter.NTC_TYPE_MAP "ntc2_sensor_type"
     = Return {| raw := of_int 6; text := VString "NTC-47K" |}
   /\ label_or_raw (H := example_runtime) Converter.NTC_TYPE_INV (VNumber (of_int 6))
     = VString "NTC-47K")
  /\ parseEnumValue (VString "ntc_10k") Converter.NTC_TYPE_MAP "ntc1_sensor_type"
     = Throw (InvalidValue "ntc1_sensor_type" (VString "ntc_10k"))
  /\ Converter.set_private_attribute_convertSet (H := example_runtime)
       (fun _ => Return tt) "ntc1_sensor_type" (VString "NTC-10K")
     = ([{| w_cluster := 0x04E0; w_attr := 0x0001; w_value := of_int 1; w_type := Some ENUM8 |}],
        Return (Some {[ "ntc1_sensor_type" := VString "NTC-10K" ]})).
Proof.
  destruct (enum_codec (H := example_runtime)) as (Hround & Hthrow & Hwrite).
  split; [| split].
  - exact (Hround Converter.NTC_TYPE_MAP Converter.NTC_TYPE_INV "NTC-47K" 6 "ntc2_sensor_type"
             (or_introl eq_refl)
             (or_intror (or_intror (or_intror (or_intror (or_intror (or_intror
                (or_introl eq_refl)))))))).
  - refine (Hthrow Converter.NTC_TYPE_MAP Converter.NTC_TYPE_INV "ntc_10k" "ntc1_sensor_type"
              (or_introl eq_refl) _).
    change (trim "ntc_10k") with "ntc_10k". cbn [fmap list_fmap Converter.NTC_TYPE_MAP fst In].
    intros Hin. repeat (destruct Hin as [Hin | Hin]; [discriminate Hin |]). exact Hin.
  - exact (Hwrite (fun _ => Return tt) eq_refl).
Defined.

(** C4 as stated fails: " NTC-10K", with a leading space, is not a label of
    the table, and encoding it does not throw: it is trimmed and encoded
    as "NTC-10K" is. *)
Lemma parseEnumValue_trims_counterexample :
  ~ In " NTC-10K" (fst <$> Converter.NTC_TYPE_MAP)
  /\ parseEnumValue (VString " NTC-10K") Converter.NTC_TYPE_MAP "ntc1_sensor_type"
     = Return {| raw := of_int 1; text := VString "NTC-10K" |}.
Proof.
  split; [| reflexivity].
  cbn. intros Hin. repeat (destruct Hin as [Hin | Hin]; [discriminate Hin |]). exact Hin.
Qed.

(** ** The read path *)

Lemma field_nonempty (out : object) (f : string) :
  field (nonempty out) f = out !! f.
Proof.
  unfold nonempty. destruct (Nat.eqb_spec (size out) 0) as [Hz |]; [| reflexivity].
  apply map_size_empty_iff in Hz. subst out. cbn. now rewrite lookup_empty.
Qed.

Lemma not_sentinel_false (raw : value) : sentinel raw -> not_sentinel raw = false.
Proof. intros [-> | ->]; reflexivity. Qed.

(** The decimal constants of the scenarios are the binary64 values nearest
    to 284.27, 231.9 and 3.29: each is within half a unit in the last place
    of the decimal it stands for; 23.5 is exact. *)
Lemma scenario_constants :
  within (1 # 2 ^ 45) (decimal 28427 2) (28427 # 100)
  /\ within (1 # 2 ^ 46) (decimal 2319 1) (2319 # 10)
  /\ within (1 # 2 ^ 52) (decimal 329 2) (329 # 100)
  /\ (exists a, to_Q (decimal 235 1) = Some a /\ (a == 235 # 10)%Q).
Proof.
  repeat split; eexists; (split; [reflexivity | vm_compute; reflexivity]).
Qed.

Section ReadPath.
Context `{Runtime}.

Lemma private_water_sensor (d : object) (k : string) (raw : value) :
  pick d [idx 0x0003; "waterSensorValue"; "waterSensor"] = Some k ->
  d !! k = Some raw ->
  field (convert Converter.private_04e0_num {| data := Some d |}) "water_sensor"
  = Some (VBool (negb (truthy raw))).
Proof.
  intros Hp Hk. cbn [convert Converter.private_04e0_num data].
  rewrite field_nonempty. skip_other_fields.
  rewrite (mapAndAssign_pick _ _ _ _ _ _ _ Hp Hk). apply lookup_insert_eq.
Qed.

Lemma refresh_water_sensor (read : reader) (res : object) (k : string) (raw : value) :
  read (ClusterId 0x04E0) [0x0003%N] = Return (Some res) ->
  pick res [idx 0x0003; "waterSensor"] = Some k ->
  res !! k = Some raw ->
  raw <> VUndefined ->
  Converter.get_attribute_convertGet read "water_sensor"
  = Return (Some {[ "water_sensor" := VBool (negb (truthy raw)) ]}).
Proof.
  intros Hr Hp Hk Hu. unfold Converter.get_attribute_convertGet, switch.
  run_refresh Hr Hp Hk.
  destruct raw; try reflexivity. contradiction.
Qed.

(** C1: attribute 0x0003 of the private cluster is decoded with inverted
    polarity on both decodes the converter has.  A report or read response
    that carries the attribute under any of its keys, with raw value [raw],
    yields water_sensor = false when [raw] is truthy and true otherwise;
    so does a refresh whose read answers with [raw].  The raw value 1 is
    truthy and 0 is not. *)
Theorem water_sensor_inverted :
  (forall d k raw,
      pick d [idx 0x0003; "waterSensorValue"; "waterSensor"] = Some k ->
      d !! k = Some raw ->
      field (convert Converter.private_04e0_num {| data := Some d |}) "water_sensor"
      = Some (VBool (if truthy raw then false else true)))
  /\ (forall (read : reader) res k raw,
      read (ClusterId 0x04E0) [0x0003%N] = Return (Some res) ->
      pick res [idx 0x0003; "waterSensor"] = Some k ->
      res !! k = Some raw ->
      raw <> VUndefined ->
      Converter.get_attribute_convertGet read "water_sensor"
      = Return (Some {[ "water_sensor" := VBool (if truthy raw then false else true) ]}))
  /\ truthy (int 1) = true
  /\ truthy (int 0) = false.
Proof.
  split; [| split; [| split; reflexivity]].
  - intros d k raw Hp Hk. rewrite (private_water_sensor d k raw Hp Hk).
    now destruct (truthy raw).
  - intros read res k raw Hr Hp Hk Hu.
    rewrite (refresh_water_sensor read res k raw Hr Hp Hk Hu).
    now destruct (truthy raw).
Qed.

(** C2: [metering_num] handles attribute reports and read responses of
    seMetering; whenever attribute 0x0000 arrives under one of its keys
    with a numeric raw value [x], the energy is [x / 100] rounded to 2
    decimal places; the raw value 28427 gives 284.27. *)
Theorem energy_scaled_by_100 :
  (forall d k x,
      pick d [idx 0x0000; "currentSummationDelivered"; "currentSummDelivered"] = Some k ->
      d !! k = Some (VNumber x) ->
      convert Converter.metering_num {| data := Some d |}
      = Some {[ "energy" := VNumber (round_to_decimals 2 (div x (of_int 100))) ]})
  /\ convert Converter.metering_num (report (idx 0x0000) (int 28427))
     = Some {[ "energy" := VNumber (decimal 28427 2) ]}
  /\ In Converter.metering_num Converter.fromZigbee
  /\ cluster Converter.metering_num = ClusterName "seMetering"
  /\ type Converter.metering_num = ["attributeReport"; "readResponse"].
Proof.
  assert (Hgen : forall d k x,
      pick d [idx 0x0000; "currentSummationDelivered"; "currentSummDelivered"] = Some k ->
      d !! k = Some (VNumber x) ->
      convert Converter.metering_num {| data := Some d |}
      = Some {[ "energy" := VNumber (round_to_decimals 2 (div x (of_int 100))) ]}).
  { intros d k x Hp Hk. cbn [convert Converter.metering_num data].
    rewrite Hp, (get_lookup _ _ _ Hk). reflexivity. }
  split; [exact Hgen |]. split; [| split; [| split; reflexivity]].
  - unfold report.
    rewrite (Hgen {[ idx 0x0000 := int 28427 ]} (idx 0x0000) (of_int 28427)); reflexivity.
  - cbn. tauto.
Qed.

Lemma electrical_voltage (d : object) (k : string) (raw : value) :
  pick d [idx 0x0505; "rmsVoltage"] = Some k -> d !! k = Some raw ->
  field (convert Converter.electrical_num {| data := Some d |}) "voltage"
  = Some (VNumber (js_div raw (int 10))).
Proof.
  intros Hp Hk. cbn [convert Converter.electrical_num data].
  rewrite field_nonempty, Hp. rewrite (get_lookup _ _ _ Hk).
  destruct (pick d [idx 0x050B; "activePower"]), (pick d [idx 0x0508; "rmsCurrent"]);
    repeat (rewrite lookup_insert_ne by discriminate); apply lookup_insert_eq.
Qed.

Lemma electrical_current (d : object) (k : string) (raw : value) :
  pick d [idx 0x0508; "rmsCurrent"] = Some k -> d !! k = Some raw ->
  field (convert Converter.electrical_num {| data := Some d |}) "current"
  = Some (VNumber (round_to_decimals 2 (js_div raw (int 1000)))).
Proof.
  intros Hp Hk. cbn [convert Converter.electrical_num data].
  rewrite field_nonempty, Hp. rewrite (get_lookup _ _ _ Hk).
  destruct (pick d [idx 0x050B; "activePower"]), (pick d [idx 0x0505; "rmsVoltage"]);
    repeat (rewrite lookup_insert_ne by discriminate); apply lookup_insert_eq.
Qed.

(** C6: the voltage is the raw value of attribute 0x0505 divided by 10,
    which for an integer raw value [n] is the one-decimal number [n / 10];
    the current is the raw value of attribute 0x0508 divided by 1000 and
    rounded to 2 decimal places.  Raw 2319 decodes to 231.9 and raw 3290
    to 3.29. *)
Theorem electrical_scaling :
  (forall d k (n : Z),
      pick d [idx 0x0505; "rmsVoltage"] = Some k -> d !! k = Some (int n) ->
      field (convert Converter.electrical_num {| data := Some d |}) "voltage"
      = Some (VNumber (decimal n 1)))
  /\ (forall d k raw,
      pick d [idx 0x0508; "rmsCurrent"] = Some k -> d !! k = Some raw ->
      field (convert Converter.electrical_num {| data := Some d |}) "current"
      = Some (VNumber (round_to_decimals 2 (js_div raw (int 1000)))))
  /\ field (convert Converter.electrical_num (report (idx 0x0505) (int 2319))) "voltage"
     = Some (VNumber (decimal 2319 1))
  /\ field (convert Converter.electrical_num (report (idx 0x0508) (int 3290))) "current"
     = Some (VNumber (decimal 329 2)).
Proof.
  split; [| split; [| split]].
  - intros d k n Hp Hk. now rewrite (electrical_voltage d k (int n) Hp Hk).
  - exact electrical_current.
  - unfold report.
    rewrite (electrical_voltage {[ idx 0x0505 := int 2319 ]} (idx 0x0505) (int 2319));
      reflexivity.
  - unfold report.
    rewrite (electrical_current {[ idx 0x0508 := int 3290 ]} (idx 0x0508) (int 3290));
      reflexivity.
Qed.

Lemma assign_temperature_sentinel (f : string) (raw : value) (out : object) :
  sentinel raw -> Converter.assign_temperature f raw out = out.
Proof.
  intros Hs. unfold Converter.assign_temperature.
  now rewrite (not_sentinel_false _ Hs), andb_false_r.
Qed.

(** C3: a sentinel raw value, -32768 or 0x8000, never becomes a reading.
    On every report path of a scaled temperature the converter returns no
    value for the field, and every refresh of one resolves to undefined. *)
Theorem sentinel_decodes_to_no_reading (raw : value) :
  sentinel raw ->
  (forall c aliases f d k,
      In (c, aliases, f) temperature_reports ->
      pick d aliases = Some k -> d !! k = Some raw ->
      field (convert c {| data := Some d |}) f = None)
  /\ (forall get key cl attr aliases (read : reader) res k,
      In (get, key, cl, attr, aliases) temperature_refreshes ->
      read cl [attr] = Return (Some res) ->
      pick res aliases = Some k -> res !! k = Some raw ->
      get read key = Return None).
Proof.
  intros Hs. split.
  - intros c aliases f d k Hin Hp Hk. cbn in Hin.
    repeat (destruct Hin as [Hin | Hin]; [injection Hin as <- <- <- |]); try contradiction.
    + cbn [convert Converter.device_temp_num data].
      rewrite Hp, (get_lookup _ _ _ Hk), (not_sentinel_false _ Hs). reflexivity.
    + cbn [convert Converter.temp_measurement_num data].
      rewrite Hp, (get_lookup _ _ _ Hk), (not_sentinel_false _ Hs). reflexivity.
    + cbn [convert Converter.private_04e0_num data]. rewrite field_nonempty.
      skip_other_fields. rewrite (mapAndAssign_pick _ _ _ _ _ _ _ Hp Hk).
      rewrite (assign_temperature_sentinel _ _ _ Hs). apply lookup_empty.
    + cbn [convert Converter.private_04e0_num data]. rewrite field_nonempty.
      skip_other_fields. rewrite (mapAndAssign_pick _ _ _ _ _ _ _ Hp Hk).
      rewrite (assign_temperature_sentinel _ _ _ Hs). skip_other_fields. apply lookup_empty.
    + cbn [convert Converter.private_04e0_num data]. rewrite field_nonempty.
      skip_other_fields. rewrite (mapAndAssign_pick _ _ _ _ _ _ _ Hp Hk).
      rewrite (assign_temperature_sentinel _ _ _ Hs). skip_other_fields. apply lookup_empty.
  - intros get key cl attr aliases read res k Hin Hr Hp Hk. cbn in Hin.
    repeat (destruct Hin as [Hin | Hin]; [injection Hin as <- <- <- <- <- |]);
      try contradiction;
      unfold Converter.get_attribute_convertGet, Converter.set_private_attribute_convertGet, switch;
      run_refresh Hr Hp Hk;
      rewrite (not_sentinel_false _ Hs), ?andb_false_r; reflexivity.
Qed.

(** The refresh of device_temperature reports the raw value as it is. *)
Lemma refresh_device_temperature (read : reader) (res : object) (k : string) (raw : value) :
  read (ClusterName "genDeviceTempCfg") [0x0000%N] = Return (Some res) ->
  pick res [idx 0x0000; "currentTemperature"] = Some k ->
  res !! k = Some raw ->
  nullish raw = false -> not_sentinel raw = true ->
  Converter.get_attribute_convertGet read "device_temperature"
  = Return (Some {[ "device_temperature" := raw ]}).
Proof.
  intros Hr Hp Hk Hn Hs. unfold Converter.get_attribute_convertGet, switch.
  run_refresh Hr Hp Hk. rewrite Hs. destruct raw; try discriminate; reflexivity.
Qed.

(** The report of it divides by 10 and rounds to one decimal place. *)
Lemma report_device_temperature (d : object) (k : string) (raw : value) :
  pick d [idx 0x0000; "currentTemperature"] = Some k ->
  d !! k = Some raw ->
  nullish raw = false -> not_sentinel raw = true ->
  convert Converter.device_temp_num {| data := Some d |}
  = Some {[ "device_temperature" := VNumber (round_to_decimals 1 (js_div raw (int 10))) ]}.
Proof.
  intros Hp Hk Hn Hs. cbn [convert Converter.device_temp_num data].
  rewrite Hp, (get_lookup _ _ _ Hk), Hs, Hn. reflexivity.
Qed.

(** C10 does not hold of the converter: on the raw reading 235, which both
    paths accept, the refresh of device_temperature reports 235 and the
    attribute report 23.5. *)
Theorem refresh_device_temperature_unscaled :
  Converter.get_attribute_convertGet (answers (idx 0x0000) (int 235)) "device_temperature"
    = Return (Some {[ "device_temperature" := int 235 ]})
  /\ convert Converter.device_temp_num (report (idx 0x0000) (int 235))
    = Some {[ "device_temperature" := VNumber (decimal 235 1) ]}
  /\ int 235 <> VNumber (decimal 235 1).
Proof.
  split; [| split].
  - apply (refresh_device_temperature _ {[ idx 0x0000 := int 235 ]} (idx 0x0000) (int 235));
      reflexivity.
  - unfold report.
    rewrite (report_device_temperature {[ idx 0x0000 := int 235 ]} (idx 0x0000) (int 235));
      reflexivity.
  - intros Heq. vm_compute in Heq. discriminate Heq.
Qed.

End ReadPath.

(** A report with raw value 1 under the numeric key, one with raw value 0
    under a legacy name, and a refresh answered with true. *)
Lemma water_sensor_inverted_witness :
  field (convert (Converter.private_04e0_num (H := example_runtime))
           (report (idx 0x0003) (int 1))) "water_sensor"
    = Some (VBool false)
  /\ field (convert (Converter.private_04e0_num (H := example_runtime))
              (report "waterSensorValue" (int 0))) "water_sensor"
    = Some (VBool true)
  /\ Converter.get_attribute_convertGet (H := example_runtime)
       (answers "waterSensor" (VBool true)) "water_sensor"
    = Return (Some {[ "water_sensor" := VBool false ]}).
Proof.
  destruct (water_sensor_inverted (H := example_runtime)) as (Hrep & Href & _).
  split; [| split].
  - exact (Hrep {[ idx 0x0003 := int 1 ]} (idx 0x0003) (int 1) eq_refl eq_refl).
  - exact (Hrep {[ "waterSensorValue" := int 0 ]} "waterSensorValue" (int 0) eq_refl eq_refl).
  - exact (Href (answers "waterSensor" (VBool true)) {[ "waterSensor" := VBool true ]}
             "waterSensor" (VBool true) eq_refl eq_refl eq_refl ltac:(discriminate)).
Defined.

(** The summation 28427 arriving under its shortened name. *)
Lemma energy_scaled_by_100_witness :
  convert (Converter.metering_num (H := example_runtime))
    (report "currentSummDelivered" (int 28427))
  = Some {[ "energy" := VNumber (decimal 28427 2) ]}.
Proof.
  exact (proj1 (energy_scaled_by_100 (H := example_runtime))
           {[ "currentSummDelivered" := int 28427 ]} "currentSummDelivered" (of_int 28427)
           eq_refl eq_refl).
Defined.

(** Voltage 2319 and current 3290 arriving under their names. *)
Lemma electrical_scaling_witness :
  field (convert (Converter.electrical_num (H := example_runtime))
           (report "rmsVoltage" (int 2319))) "voltage"
    = Some (VNumber (decimal 2319 1))
  /\ field (convert (Converter.electrical_num (H := example_runtime))
              (report "rmsCurrent" (int 3290))) "current"
    = Some (VNumber (decimal 329 2)).
Proof.
  destruct (electrical_scaling (H := example_runtime)) as (Hvolt & Hcurr & _).
  split.
  - exact (Hvolt {[ "rmsVoltage" := int 2319 ]} "rmsVoltage" 2319 eq_refl eq_refl).
  - exact (Hcurr {[ "rmsCurrent" := int 3290 ]} "rmsCurrent" (int 3290) eq_refl eq_refl).
Defined.

(** The sentinel 0x8000 for NTC2 in a report, and -32768 answering a
    refresh of the device temperature. *)
Lemma sentinel_decodes_to_no_reading_witness :
  field (convert (Converter.private_04e0_num (H := example_runtime))
           (report "ntc2Temperature" (int 0x8000))) "ntc2_temperature"
    = None
  /\ Converter.get_attribute_convertGet (H := example_runtime)
       (answers (idx 0x0000) (int (-32768))) "device_temperature"
    = Return None.
Proof.
  split.
  - exact (proj1 (sentinel_decodes_to_no_reading (H := example_runtime)
                    (int 0x8000) (or_intror eq_refl))
             Converter.private_04e0_num [idx 0x0000; "measuredValue2"; "ntc2Temperature"]
             "ntc2_temperature" {[ "ntc2Temperature" := int 0x8000 ]} "ntc2Temperature"
             (or_intror (or_intror (or_introl eq_refl))) eq_refl eq_refl).
  - exact (proj2 (sentinel_decodes_to_no_reading (H := example_runtime)
                    (int (-32768)) (or_introl eq_refl))
             Converter.get_attribute_convertGet "device_temperature"
             (ClusterName "genDeviceTempCfg") 0x0000%N [idx 0x0000; "currentTemperature"]
             (answers (idx 0x0000) (int (-32768))) {[ idx 0x0000 := int (-32768) ]} (idx 0x0000)
             (or_introl eq_refl) eq_refl eq_refl eq_refl).
Defined.

(** ** Setup *)

Lemma requests_app (t1 t2 : list event) : requests (t1 ++ t2) = requests t1 ++ requests t2.
Proof. apply omap_app. Qed.

Lemma completes_bind (m k : io unit) (cs1 cs2 : list call) :
  completes m cs1 -> completes k cs2 -> completes (m ≫= fun _ => k) (cs1 ++ cs2).
Proof.
  intros Hm Hk h. destruct (Hm h) as (t1 & E1 & R1). destruct (Hk (h ++ t1)) as (t2 & E2 & R2).
  exists (t1 ++ t2). unfold mbind, io_bind. rewrite E1, E2, app_assoc, requests_app, R1, R2.
  split; reflexivity.
Qed.

Lemma completes_L_info lg l : completes (L_info lg l) [].
Proof. intros h. eexists. split; reflexivity. Qed.

Lemma completes_L_warn lg l : completes (L_warn lg l) [].
Proof. intros h. eexists. split; reflexivity. Qed.

Lemma completes_L_error lg l : completes (L_error lg l) [].
Proof. intros h. eexists. split; reflexivity. Qed.

(** A request in a try block whose handler only logs: sent, and survived. *)
Lemma completes_try_request net c lg s :
  completes (io_try (request net c) (fun err => L_warn lg (TextErr s err))) [c].
Proof.
  intros h. unfold io_try, request, L_warn. destruct (net h c).
  - eexists. rewrite <- app_assoc. split; reflexivity.
  - eexists. split; reflexivity.
Qed.

Lemma completes_try_request_then_log net c lg l s :
  completes (io_try (request net c ≫= fun _ => L_info lg l)
               (fun err => L_warn lg (TextErr s err))) [c].
Proof.
  intros h. unfold io_try, request, L_warn, L_info, mbind, io_bind. destruct (net h c).
  - eexists. rewrite <- app_assoc. split; reflexivity.
  - eexists. rewrite <- app_assoc. split; reflexivity.
Qed.

Lemma completes_safeRead net lg ep cl attrs label :
  completes (Converter.safeRead net lg ep cl attrs label) [Read (ID ep) cl attrs].
Proof. apply completes_try_request_then_log. Qed.

Ltac setup_step :=
  first [ apply completes_L_info | apply completes_L_warn | apply completes_L_error
        | apply completes_try_request | apply completes_try_request_then_log
        | apply completes_safeRead
        | eapply completes_bind ].

(** C9: once an endpoint is found, the setup sends the binding, every
    reporting configuration and every seed read, in order, and returns
    normally, whatever the radio stack answers to any of them: a throwing
    binding step, like any other throwing step, is logged and the steps
    after it run. *)
Theorem setup_survives_failures (net : transport) (dev : device) (lg : option logger)
    (eps : list endpoint) (ep : endpoint) :
  endpoints dev = Some eps ->
  findBestEndpoint dev = Some ep ->
  forall h, exists t,
    Converter.configure net dev lg h = (Return tt, h ++ t)
    /\ requests t = binding_step (ID ep) :: reporting_steps (ID ep) ++ seed_reads (ID ep).
Proof.
  intros He Hb.
  assert (exists cs, completes (Converter.configure net dev lg) cs
                     /\ cs = binding_step (ID ep) :: reporting_steps (ID ep) ++ seed_reads (ID ep))
    as (cs & Hc & ->).
  { eexists. split.
    - unfold Converter.configure. rewrite He, Hb. repeat setup_step.
    - reflexivity. }
  exact Hc.
Qed.

(** The setup of the example device on a radio stack whose binding throws,
    and on one where every request throws. *)
Lemma setup_survives_failures_witness :
  (exists t,
      Converter.configure bind_fails example_device None [] = (Return tt, t)
      /\ requests t = binding_step 1 :: reporting_steps 1 ++ seed_reads 1)
  /\ (exists t,
      Converter.configure all_fail example_device None [] = (Return tt, t)
      /\ requests t = binding_step 1 :: reporting_steps 1 ++ seed_reads 1).
Proof.
  split.
  - destruct (setup_survives_failures bind_fails example_device None
                [example_endpoint] example_endpoint eq_refl eq_refl []) as (t & Ht & Hr).
    exists t. split; [exact Ht | exact Hr].
  - destruct (setup_survives_failures all_fail example_device None
                [example_endpoint] example_endpoint eq_refl eq_refl []) as (t & Ht & Hr).
    exists t. split; [exact Ht | exact Hr].
Defined.

(** On the radio stack whose binding throws, the failure is logged right
    after the request and the first reporting configuration follows. *)
Lemma bind_failure_is_logged :
  firstn 3 (skipn 6 (snd (Converter.configure bind_fails example_device None [])))
  = [Called (binding_step 1);
     Logged ConsoleWarn
       (TextErr "[Namron4512785] bind failed: "
          (TransportError "bind seMetering: UNSUPPORTED_ATTRIBUTE"));
     Called (ReportOnOff 1)].
Proof. vm_compute. reflexivity. Qed.

(** Without [device.endpoints] the setup throws before any request. *)
Lemma setup_without_endpoints (net : transport) (dev : device) (lg : option logger) (h : list event) :
  endpoints dev = None ->
  exists t, Converter.configure net dev lg h = (Throw TypeError, h ++ t) /\ requests t = [].
Proof.
  intros He. unfold Converter.configure. rewrite He.
  unfold mbind, io_bind, L_info, L_warn, io_throw. eexists.
  rewrite <- !app_assoc. split; reflexivity.
Qed.

(** X30: the setup of the earlier revision has the same structure with
    fewer steps: the binding, seven reporting configurations and five seed
    reads are all sent, whatever throws. *)
Lemma earlier_setup_survives_failures (net : transport) (dev : device) (lg : option logger)
    (ep : endpoint) :
  findBestEndpoint dev = Some ep ->
  completes (Relay30a.configure net dev lg)
    (binding_step (ID ep) :: firstn 7 (reporting_steps (ID ep)) ++ firstn 4 (seed_reads (ID ep))
       ++ [Read (ID ep) (ClusterId 0x04E0) [0x0000; 0x0003]%N]).
Proof.
  intros Hb.
  assert (exists cs, completes (Relay30a.configure net dev lg) cs
                     /\ cs = binding_step (ID ep) :: firstn 7 (reporting_steps (ID ep))
                               ++ firstn 4 (seed_reads (ID ep))
                               ++ [Read (ID ep) (ClusterId 0x04E0) [0x0000; 0x0003]%N])
    as (cs & Hc & ->); [| exact Hc].
  eexists. split.
  - unfold Relay30a.configure. rewrite Hb. repeat setup_step.
  - reflexivity.
Qed.

(** ** Poll timers *)

Lemma polls_inj (key key' : string) (t : interval) : polls key t -> polls key' t -> key = key'.
Proof. unfold polls. congruence. Qed.

Lemma consistent_no_timers : consistent no_timers.
Proof.
  split; cbn; intros *; rewrite lookup_empty; discriminate.
Qed.

Lemma registered_exactly_one (key : string) (h : N) (st : timers) :
  consistent st -> registry st !! key = Some h -> exactly_one_timer key st.
Proof.
  intros Hc Hr. exists h. split; [exact Hr |]. intros h'. split.
  - intros (t & Hl & Hp). destruct (live_registered _ Hc _ _ Hl) as (key' & Hp' & Hr').
    rewrite (polls_inj _ _ _ Hp Hp') in Hr. congruence.
  - intros ->. exact (registered_live _ Hc _ _ Hr).
Qed.

Lemma register_timer_registered (key : string) (d : device) (st : timers) :
  is_Some (registry (register_timer key d st) !! key).
Proof.
  unfold register_timer. destruct (registry st !! key) eqn:Hr.
  - rewrite Hr. eauto.
  - cbn. rewrite lookup_insert_eq. eauto.
Qed.

Lemma register_timer_consistent (key : string) (d : device) (st : timers) :
  ieeeAddr d = Some key -> consistent st -> consistent (register_timer key d st).
Proof.
  intros Hd Hc. unfold register_timer. destruct (registry st !! key) eqn:Hr; [exact Hc |].
  cbn. split; cbn.
  - intros key2 h. destruct (decide (key = key2)) as [<- | Hne].
    + rewrite lookup_insert_eq. intros [= <-]. rewrite lookup_insert_eq. eexists. split; eauto.
    + rewrite lookup_insert_ne by exact Hne. intros Hr2.
      destruct (registered_live _ Hc _ _ Hr2) as (t & Hl & Hp).
      pose proof (handles_fresh _ Hc _ _ Hl) as Hf.
      exists t. split; [| exact Hp]. rewrite lookup_insert_ne by lia. exact Hl.
  - intros h t. destruct (decide (next_handle st = h)) as [<- | Hne].
    + rewrite lookup_insert_eq. intros [= <-]. exists key. split; [exact Hd |].
      apply lookup_insert_eq.
    + rewrite lookup_insert_ne by exact Hne. intros Hl.
      destruct (live_registered _ Hc _ _ Hl) as (key2 & Hp & Hr2).
      exists key2. split; [exact Hp |]. rewrite lookup_insert_ne; [exact Hr2 | congruence].
  - intros h t. destruct (decide (next_handle st = h)) as [<- | Hne].
    + intros _. lia.
    + rewrite lookup_insert_ne by exact Hne. intros Hl.
      pose proof (handles_fresh _ Hc _ _ Hl). lia.
Qed.

Lemma register_timer_twice (key : string) (d : device) (st : timers) :
  register_timer key d (register_timer key d st) = register_timer key d st.
Proof.
  destruct (register_timer_registered key d st) as [h Hh].
  unfold register_timer at 1. now rewrite Hh.
Qed.

Lemma Converter_onEvent_starts (name key : string) (d : device) (st : timers) :
  starts_polling name -> ieeeAddr d = Some key -> key <> "" ->
  Converter.onEvent (Named name) (Some d) st = register_timer key d st.
Proof.
  intros [Hs Hp] Hd Hk. unfold Converter.onEvent. rewrite Hd.
  apply String.eqb_neq in Hs, Hp, Hk. rewrite Hs, Hp, Hk. reflexivity.
Qed.

Lemma Relay30a_onEvent_starts (name key : string) (d : device) (st : timers) :
  name = "start" \/ name = "deviceAnnounce" -> ieeeAddr d = Some key -> key <> "" ->
  Relay30a.onEvent (Named name) (Some d) st = register_timer key d st.
Proof.
  intros Hn Hd Hk. unfold Relay30a.onEvent. cbn [mbind option_bind]. rewrite Hd.
  apply String.eqb_neq in Hk. rewrite Hk.
  destruct Hn as [-> | ->]; reflexivity.
Qed.

Lemma Converter_onEvent_cases (type : event_arg) (dev : option device) (st : timers) :
  Converter.onEvent type dev st = st
  \/ exists key d, ieeeAddr d = Some key
       /\ Converter.onEvent type dev st = register_timer key d st.
Proof.
  unfold Converter.onEvent.
  destruct type as [name | [[ty d'] |]]; cbv beta iota zeta.
  - destruct dev as [d |]; [| now left]. destruct (ieeeAddr d) as [key |] eqn:Hd; [| now left].
    destruct (String.eqb key ""), (String.eqb name "start"), (String.eqb name "stop");
      cbn [orb]; try (now left). right. now exists key, d.
  - destruct d' as [d |]; [| now left]. destruct (ieeeAddr d) as [key |] eqn:Hd; [| now left].
    destruct ty as [name |].
    + destruct (String.eqb key ""), (String.eqb name "start"), (String.eqb name "stop");
        cbn [orb]; try (now left). right. now exists key, d.
    + destruct (String.eqb key ""); cbn [orb]; [now left |]. right. now exists key, d.
  - destruct dev as [d |]; [| now left]. destruct (ieeeAddr d) as [key |] eqn:Hd; [| now left].
    destruct (String.eqb key ""); cbn [orb]; [now left |]. right. now exists key, d.
Qed.

Lemma register_timer_keeps (key key' : string) (d : device) (st : timers) (h : N) (t : interval) :
  registry st !! key' = Some h -> live st !! h = Some t -> (h < next_handle st)%N ->
  registry (register_timer key d st) !! key' = Some h
  /\ live (register_timer key d st) !! h = Some t.
Proof.
  intros Hr Hl Hf. unfold register_timer. destruct (registry st !! key) eqn:Hk; [tauto |].
  cbn. split.
  - rewrite lookup_insert_ne; [exact Hr | congruence].
  - rewrite lookup_insert_ne; [exact Hl | lia].
Qed.

(** The registry and the live timers agree after every event, so no
    device ever has two live timers. *)
Lemma Converter_onEvent_consistent (type : event_arg) (dev : option device) (st : timers) :
  consistent st -> consistent (Converter.onEvent type dev st).
Proof.
  intros Hc. destruct (Converter_onEvent_cases type dev st) as [-> | (key & d & Hd & ->)].
  - exact Hc.
  - now apply register_timer_consistent.
Qed.

(** No event of the converter unregisters or stops a timer. *)
Lemma Converter_onEvent_never_cancels (type : event_arg) (dev : option device)
    (st : timers) (key : string) (h : N) :
  consistent st -> registry st !! key = Some h ->
  registry (Converter.onEvent type dev st) !! key = Some h
  /\ is_Some (live (Converter.onEvent type dev st) !! h).
Proof.
  intros Hc Hr. destruct (registered_live _ Hc _ _ Hr) as (t & Hl & _).
  pose proof (handles_fresh _ Hc _ _ Hl) as Hf.
  destruct (Converter_onEvent_cases type dev st) as [-> | (key' & d & Hd & ->)].
  - eauto.
  - destruct (register_timer_keeps key' key d st h t Hr Hl Hf) as [Hr' Hl']. eauto.
Qed.

(** C7, as the code has it: for every device identity and every event that
    starts polling (any event naming the device other than start and stop:
    deviceAnnounce, for one), processing the event twice leaves exactly one
    live poll timer for the identity, the registered one; the second event
    changes nothing. *)
Theorem second_start_is_noop (name key : string) (d : device) (st : timers) :
  starts_polling name -> ieeeAddr d = Some key -> key <> "" -> consistent st ->
  let st1 := Converter.onEvent (Named name) (Some d) st in
  let st2 := Converter.onEvent (Named name) (Some d) st1 in
  st2 = st1 /\ exactly_one_timer key st2 /\ consistent st2.
Proof.
  intros Hn Hd Hk Hc. cbn zeta. rewrite !(Converter_onEvent_starts name key d) by assumption.
  rewrite register_timer_twice. split; [reflexivity |].
  pose proof (register_timer_consistent key d st Hd Hc) as Hc1.
  destruct (register_timer_registered key d st) as [h Hh].
  split; [| exact Hc1]. exact (registered_exactly_one key h _ Hc1 Hh).
Qed.

(** Two deviceAnnounce events for the example device, nothing polling
    before. *)
Lemma second_start_is_noop_witness :
  Converter.onEvent (Named "deviceAnnounce") (Some example_device)
    (Converter.onEvent (Named "deviceAnnounce") (Some example_device) no_timers)
  = Converter.onEvent (Named "deviceAnnounce") (Some example_device) no_timers
  /\ exactly_one_timer "0xa4c138f06b2a11d5"
       (Converter.onEvent (Named "deviceAnnounce") (Some example_device)
          (Converter.onEvent (Named "deviceAnnounce") (Some example_device) no_timers)).
Proof.
  destruct (second_start_is_noop "deviceAnnounce" "0xa4c138f06b2a11d5" example_device no_timers)
    as (Hsame & Hone & _).
  - split; discriminate.
  - reflexivity.
  - discriminate.
  - exact consistent_no_timers.
  - split; [exact Hsame | exact Hone].
Defined.

(** C7 as stated fails: two start events for the example device, nothing
    polling before, leave no timer at all. *)
Lemma two_start_events_counterexample :
  Converter.onEvent (Named "start") (Some example_device)
    (Converter.onEvent (Named "start") (Some example_device) no_timers)
  = no_timers
  /\ ~ exactly_one_timer "0xa4c138f06b2a11d5"
        (Converter.onEvent (Named "start") (Some example_device)
           (Converter.onEvent (Named "start") (Some example_device) no_timers)).
Proof.
  split; [reflexivity |].
  intros (h & Hr & _). cbn in Hr. rewrite lookup_empty in Hr. discriminate Hr.
Qed.

(** C8 does not hold of the converter: a stop event, as a name or as an
    event object, leaves the timers as they were, because the guard at the
    top of [onEvent] returns on it before the branch that would cancel. *)
Theorem stop_event_is_ignored (dev : option device) (st : timers) :
  Converter.onEvent (Named "stop") dev st = st
  /\ forall d, Converter.onEvent (EventObject (Some (Some "stop", d))) dev st = st.
Proof.
  split.
  - unfold Converter.onEvent. destruct dev as [d |]; [| reflexivity].
    destruct (ieeeAddr d) as [key |]; [| reflexivity].
    cbn. now rewrite orb_true_r.
  - intros d. unfold Converter.onEvent. destruct d as [d |]; [| reflexivity].
    destruct (ieeeAddr d) as [key |]; [| reflexivity].
    cbn. now rewrite orb_true_r.
Qed.

(** The example device, polling since its deviceAnnounce, is still polled
    by timer 0 after stop. *)
Lemma stop_leaves_timer_running :
  let polling := Converter.onEvent (Named "deviceAnnounce") (Some example_device) no_timers in
  let stopped := Converter.onEvent (Named "stop") (Some example_device) polling in
  registry stopped !! "0xa4c138f06b2a11d5" = Some 0%N
  /\ live stopped !! 0%N = Some {| polled := example_device; intervalMs := 60000 |}.
Proof. split; reflexivity. Qed.

(** ** The earlier revision *)

(** X26: in the earlier revision a start event does start polling, and a
    second one is a no-op that leaves exactly one live timer. *)
Lemma Relay30a_second_start_is_noop (name key : string) (d : device) (st : timers) :
  name = "start" \/ name = "deviceAnnounce" ->
  ieeeAddr d = Some key -> key <> "" -> consistent st ->
  let st1 := Relay30a.onEvent (Named name) (Some d) st in
  let st2 := Relay30a.onEvent (Named name) (Some d) st1 in
  st2 = st1 /\ exactly_one_timer key st2 /\ consistent st2.
Proof.
  intros Hn Hd Hk Hc. cbn zeta. rewrite !(Relay30a_onEvent_starts name key d) by assumption.
  rewrite register_timer_twice. split; [reflexivity |].
  pose proof (register_timer_consistent key d st Hd Hc) as Hc1.
  destruct (register_timer_registered key d st) as [h Hh].
  split; [| exact Hc1]. exact (registered_exactly_one key h _ Hc1 Hh).
Qed.

(** X27: in the earlier revision a stop event cancels the timer of the
    device and removes its entry. *)
Lemma Relay30a_stop (key : string) (d : device) (st : timers) :
  ieeeAddr d = Some key -> key <> "" -> consistent st ->
  let st' := Relay30a.onEvent (Named "stop") (Some d) st in
  no_timer key st' /\ consistent st'.
Proof.
  intros Hd Hk Hc. cbn zeta. unfold Relay30a.onEvent. cbn [mbind option_bind]. rewrite Hd.
  apply String.eqb_neq in Hk. rewrite Hk. cbn [String.eqb Ascii.eqb Bool.eqb orb andb].
  destruct (registry st !! key) as [h |] eqn:Hr.
  - split.
    + split; cbn; [apply lookup_delete_eq |].
      intros h' t Hl Hp. apply lookup_delete_Some in Hl as [Hne Hl].
      destruct (live_registered _ Hc _ _ Hl) as (key' & Hp' & Hr').
      rewrite <- (polls_inj _ _ _ Hp Hp') in Hr'. congruence.
    + split; cbn.
      * intros key2 h2 Hr2. apply lookup_delete_Some in Hr2 as [Hne Hr2].
        destruct (registered_live _ Hc _ _ Hr2) as (t & Hl & Hp).
        exists t. split; [| exact Hp]. apply lookup_delete_Some. split; [| exact Hl].
        intros <-. destruct (registered_live _ Hc _ _ Hr) as (t' & Hl' & Hp').
        assert (t' = t) by congruence. subst t'. apply Hne. exact (polls_inj _ _ _ Hp' Hp).
      * intros h2 t Hl. apply lookup_delete_Some in Hl as [Hne Hl].
        destruct (live_registered _ Hc _ _ Hl) as (key2 & Hp & Hr2).
        exists key2. split; [exact Hp |]. apply lookup_delete_Some. split; [| exact Hr2].
        intros <-. congruence.
      * intros h2 t Hl. apply lookup_delete_Some in Hl as [_ Hl].
        exact (handles_fresh _ Hc _ _ Hl).
  - split.
    + split; cbn; [apply lookup_delete_eq |].
      intros h' t Hl Hp. destruct (live_registered _ Hc _ _ Hl) as (key' & Hp' & Hr').
      rewrite <- (polls_inj _ _ _ Hp Hp') in Hr'. congruence.
    + unfold registry_delete. rewrite (delete_id _ _ Hr). now destruct st.
Qed.

Section EarlierReadPath.
Context `{Runtime}.

(** X28: in the earlier revision the water sensor is decoded without
    inversion. *)
Lemma Relay30a_water_sensor (d : object) (k : string) (raw : value) :
  pick d [idx 0x0003; "waterSensorValue"; "waterSensor"] = Some k ->
  d !! k = Some raw ->
  field (convert Relay30a.private_04e0_num {| data := Some d |}) "water_sensor"
  = Some (VBool (truthy raw)).
Proof.
  intros Hp Hk. cbn [convert Relay30a.private_04e0_num data].
  rewrite field_nonempty. skip_other_fields.
  rewrite (mapAndAssign_pick _ _ _ _ _ _ _ Hp Hk). apply lookup_insert_eq.
Qed.

(** There the energy is the raw value divided by 1000, to 3 decimal places:
    28427 gives 28.427.  The converter is defined without being registered. *)
Lemma Relay30a_energy :
  convert Relay30a.metering_num (report (idx 0x0000) (int 28427))
  = Some {[ "energy" := VNumber (decimal 28427 3) ]}
  /\ ~ In Relay30a.metering_num Relay30a.fromZigbee.
Proof.
  split; [reflexivity |]. cbn [Relay30a.fromZigbee In]. intros Hin.
  repeat (destruct Hin as [Hin | Hin];
          [apply (f_equal (fun c => field (convert c (report (idx 0x0000) (int 28427))) "energy"))
             in Hin;
           vm_compute in Hin; discriminate Hin |]).
  exact Hin.
Qed.

(** X29: in the earlier revision the refresh of device_temperature
    computes what the report does. *)
Lemma Relay30a_refresh_agrees_with_report (read : reader) (res : object) (k : string)
    (raw : value) :
  read (ClusterName "genDeviceTempCfg") [0x0000%N] = Return (Some res) ->
  pick res [idx 0x0000; "currentTemperature"] = Some k ->
  res !! k = Some raw ->
  nullish raw = false -> not_sentinel raw = true ->
  Relay30a.get_attribute_convertGet read "device_temperature"
  = Return (convert Relay30a.device_temp_num {| data := Some res |}).
Proof.
  intros Hr Hp Hk Hn Hs. unfold Relay30a.get_attribute_convertGet, switch.
  run_refresh Hr Hp Hk. rewrite Hs.
  cbn [convert Relay30a.device_temp_num Converter.device_temp_num data].
  rewrite Hp, (get_lookup _ _ _ Hk), Hs, Hn. destruct raw; try discriminate; reflexivity.
Qed.

End EarlierReadPath.

(** * Further properties of the code *)

(** ** Key resolution *)

(** X1: [pick] returns the first acceptable key the object has, in the
    order the keys are listed, and nothing when it has none of them;
    [hasAny] says whether [pick] finds one. *)
Theorem pick_first_present (obj : object) (keys : list string) :
  match pick obj keys with
  | Some k =>
      exists before after,
        keys = before ++ k :: after
        /\ hasOwn obj k = true
        /\ forall k', In k' before -> hasOwn obj k' = false
  | None => forall k, In k keys -> hasOwn obj k = false
  end
  /\ (hasAny obj keys = true <-> is_Some (pick obj keys)).
Proof.
  unfold pick, hasAny. induction keys as [| k keys [IH1 IH2]]; cbn [find existsb].
  - split; [intros k [] |]. split; [discriminate | intros [? [=]]].
  - destruct (hasOwn obj k) eqn:Hk.
    + split.
      * exists [], keys. repeat split; [exact Hk | intros k' []].
      * cbn. split; eauto.
    + split.
      * destruct (find (hasOwn obj) keys) as [k0 |].
        -- destruct IH1 as (before & after & -> & Hk0 & Hb).
           exists (k :: before), after. repeat split; [exact Hk0 |].
           intros k' [<- | Hin]; [exact Hk | now apply Hb].
        -- intros k' [<- | Hin]; [exact Hk | now apply IH1].
      * cbn. exact IH2.
Qed.

(** ** Enumeration tables *)

Lemma invert_snoc (m : EnumMapping) (k : string) (v : Z) :
  invert (m ++ [(k, v)]) = <[pretty v := VString k]> (invert m).
Proof. unfold invert. now rewrite foldl_app. Qed.

Lemma invert_lookup (m : EnumMapping) (c : Z) :
  invert m !! pretty c = VString <$> last_label m c.
Proof.
  unfold last_label. induction m as [| [k v] m IH] using rev_ind.
  - apply lookup_empty.
  - rewrite invert_snoc, rev_app_distr. cbn [rev app find].
    destruct (Z.eqb_spec v c) as [-> | Hne].
    + now rewrite lookup_insert_eq.
    + rewrite lookup_insert_ne; [exact IH |].
      intros Heq. apply (inj pretty) in Heq. contradiction.
Qed.

Section Decode.
Context `{Runtime}.

Lemma ToPropertyKey_int (c : Z) :
  Z.abs c < 2 ^ 53 -> ToPropertyKey (int c) = pretty c.
Proof.
  intros Hc. unfold int. cbn [ToPropertyKey]. unfold Number_toString.
  rewrite (to_int_of_int c Hc).
  assert (Hb : (Z.abs c <? 10 ^ 21) = true).
  { apply Z.ltb_lt. eapply Z.lt_trans; [exact Hc | reflexivity]. }
  rewrite Hb. destruct (of_int c) as [| [] | |] eqn:E; try reflexivity.
  all: exfalso; pose proof (to_int_of_int c Hc) as Ht; rewrite E in Ht; discriminate Ht.
Qed.

(** X2: the decode of a wire code through an inverted table,
    [INV[raw] ?? raw], is the label of the last entry of the table that
    carries the code, and the code itself when no entry does. *)
Theorem invert_decodes (map : EnumMapping) (c : Z) :
  Z.abs c < 2 ^ 53 ->
  label_or_raw (invert map) (int c)
  = match last_label map c with
    | Some label => VString label
    | None => int c
    end.
Proof.
  intros Hc. unfold label_or_raw, get. rewrite (ToPropertyKey_int c Hc), invert_lookup.
  destruct (last_label map c); reflexivity.
Qed.

End Decode.

(** A code outside the table, and a table with two labels for one code. *)
Lemma invert_decodes_witness :
  label_or_raw (H := example_runtime) (invert Converter.NTC_TYPE_MAP) (int 9) = int 9
  /\ label_or_raw (H := example_runtime) (invert [("a", 1); ("b", 1)]) (int 1) = VString "b".
Proof.
  split.
  - exact (invert_decodes (H := example_runtime) Converter.NTC_TYPE_MAP 9 eq_refl).
  - exact (invert_decodes (H := example_runtime) [("a", 1); ("b", 1)] 1 eq_refl).
Defined.

(** ** The write path: what the parsers return *)

Lemma binary_round_aux_not_nan (s : bool) (m e : Z) (l : location) :
  0 <= m -> is_nan (binary_round_aux prec emax s m e l) = false.
Proof.
  intros Hm. unfold binary_round_aux.
  pose proof (shr_fexp_bound m e l Hm) as H1.
  destruct (shr_fexp prec emax m e l) as [mrs' e'] eqn:E1. cbn [fst] in H1.
  pose proof (round_nearest_even_bound _ (loc_of_shr_record mrs') H1) as H2.
  pose proof (shr_fexp_bound _ e' loc_Exact (proj1 H2)) as H3.
  destruct (shr_fexp prec emax (round_nearest_even (shr_m mrs') (loc_of_shr_record mrs')) e' loc_Exact)
    as [mrs'' e''] eqn:E2. cbn [fst] in H3.
  destruct (shr_m mrs'') as [| p | p]; [reflexivity | | lia].
  destruct (e'' <=? emax - prec); reflexivity.
Qed.

Lemma of_int_not_nan (n : Z) : is_nan (of_int n) = false.
Proof.
  unfold of_int, binary_normalize. destruct n as [| p | p]; [reflexivity | |];
    unfold binary_round; destruct (shl_align _ _ _) as [mz ez];
    apply binary_round_aux_not_nan; lia.
Qed.

(** [x === x] holds of every number but NaN. *)
Lemma num_eqb_refl (x : number) : is_nan x = false -> num_eqb x x = true.
Proof.
  unfold num_eqb, SFeqb, SFcompare. destruct x as [s | [] | | [] m e]; try reflexivity;
    try discriminate; intros _; rewrite Z.compare_refl;
    change (Pos.compare_cont Eq m m) with (Pos.compare m m); now rewrite Pos.compare_refl.
Qed.

(** Numbers that are [===] are the same integer, if either is one. *)
Lemma num_eqb_to_int (x y : number) : num_eqb x y = true -> to_int x = to_int y.
Proof.
  unfold num_eqb, SFeqb, SFcompare.
  destruct x as [sx | sx | | sx mx ex], y as [sy | sy | | sy my ey];
    try reflexivity; try discriminate;
    try (destruct sx; discriminate); try (destruct sy; discriminate).
  destruct sx, sy; try discriminate;
    destruct (Z.compare_spec ex ey) as [-> | |]; try discriminate;
    change (Pos.compare_cont Eq mx my) with (Pos.compare mx my);
    destruct (Pos.compare_spec mx my) as [-> | |]; try discriminate; reflexivity.
Qed.

Lemma num_eqb_of_int (a b : Z) :
  Z.abs a < 2 ^ 53 -> Z.abs b < 2 ^ 53 -> num_eqb (of_int a) (of_int b) = (a =? b).
Proof.
  intros Ha Hb. destruct (Z.eqb_spec a b) as [-> | Hne].
  - apply num_eqb_refl, of_int_not_nan.
  - destruct (num_eqb (of_int a) (of_int b)) eqn:E; [| reflexivity].
    apply num_eqb_to_int in E. rewrite !to_int_of_int in E by assumption. congruence.
Qed.

Lemma enum_code_In (map : EnumMapping) (key : string) (code : Z) :
  enum_code map key = Some code -> In (key, code) map.
Proof.
  unfold enum_code. destruct (find _ map) as [[k c] |] eqn:Hf; [| discriminate].
  intros [= <-]. apply find_some in Hf as [Hin Hk]. apply String.eqb_eq in Hk. now subst k.
Qed.

Lemma parseEnumValue_Return (v : value) (map : EnumMapping) (label : string) (p : parsed) :
  parseEnumValue v map label = Return p ->
  exists k code, In (k, code) map /\ text p = VString k
                 /\ num_eqb (of_int code) (raw p) = true.
Proof.
  unfold parseEnumValue. destruct v as [| | b | x | s]; cbn [nullish]; try discriminate.
  - destruct (find _ map) as [[k c] |] eqn:Hf; [| discriminate]. intros [= <-].
    apply find_some in Hf as [Hin Heq]. exists k, c. cbn. tauto.
  - destruct (enum_code map (trim s)) as [code |] eqn:Hc; [| discriminate]. intros [= <-].
    exists (trim s), code. cbn. split; [now apply enum_code_In |]. split; [reflexivity |].
    apply num_eqb_refl, of_int_not_nan.
Qed.

Lemma parseEnumValue_Throw (v : value) (map : EnumMapping) (label : string) (e : thrown) :
  parseEnumValue v map label = Throw e ->
  e = if nullish v then MissingValue label else InvalidValue label v.
Proof.
  unfold parseEnumValue. destruct v as [| | b | x | s]; cbn [nullish]; try congruence.
  - destruct (find _ map) as [[k c] |]; congruence.
  - destruct (enum_code map (trim s)); congruence.
Qed.

(** X3: whatever [parseEnumValue] returns is an entry of the table: the
    echoed text is a label and the payload equals its code, so no write can
    carry a code the table does not list.  What it throws is the
    missing-value error exactly on null and undefined, and the
    invalid-value error naming the field and the input otherwise. *)
Theorem parseEnumValue_outcomes (v : value) (map : EnumMapping) (label : string) :
  match parseEnumValue v map label with
  | Return p =>
      exists k code, In (k, code) map /\ text p = VString k
                     /\ num_eqb (of_int code) (raw p) = true
  | Throw e => e = if nullish v then MissingValue label else InvalidValue label v
  end.
Proof.
  destruct (parseEnumValue v map label) as [p | e] eqn:E.
  - exact (parseEnumValue_Return v map label p E).
  - exact (parseEnumValue_Throw v map label e E).
Qed.

(** X4: a number is accepted exactly when it is a code of the table; it is
    then sent as it is and echoed as the first label that carries it. *)
Theorem parseEnumValue_accepts_code (map : EnumMapping) (label : string) (c : Z) :
  Z.abs c < 2 ^ 53 ->
  Forall (fun entry => Z.abs (snd entry) < 2 ^ 53) map ->
  parseEnumValue (int c) map label
  = match find (fun '(_, code) => code =? c) map with
    | Some (k, _) => Return {| raw := of_int c; text := VString k |}
    | None => Throw (InvalidValue label (int c))
    end.
Proof.
  intros Hc Hm. unfold parseEnumValue, int. cbn [nullish].
  assert (Hf : find (fun '(_, code) => num_eqb (of_int code) (of_int c)) map
               = find (fun '(_, code) => code =? c) map).
  { induction Hm as [| [k code] m Hcode _ IH]; [reflexivity |]. cbn [find].
    rewrite (num_eqb_of_int code c Hcode Hc), IH. reflexivity. }
  rewrite Hf. destruct (find _ map) as [[k code] |]; reflexivity.
Qed.

(** The override option 2, and 7, which the table does not list. *)
Lemma parseEnumValue_accepts_code_witness :
  parseEnumValue (int 2) Converter.OVERRIDE_OPTION_MAP "override_option"
  = Return {| raw := of_int 2; text := VString "Temperature (NTC) has priority" |}
  /\ parseEnumValue (int 7) Converter.NTC_TYPE_MAP "ntc1_sensor_type"
     = Throw (InvalidValue "ntc1_sensor_type" (int 7)).
Proof.
  split.
  - refine (parseEnumValue_accepts_code Converter.OVERRIDE_OPTION_MAP "override_option" 2
              eq_refl _).
    repeat constructor.
  - refine (parseEnumValue_accepts_code Converter.NTC_TYPE_MAP "ntc1_sensor_type" 7 eq_refl _).
    repeat constructor.
Defined.

(** ** The write path: integers at scale 1 *)

Lemma iter_shr_1_exact (k m : positive) :
  SpecFloat.iter_pos shr_1 k {| shr_m := Z.pos (Pos.iter xO m k); shr_r := false; shr_s := false |}
  = {| shr_m := Z.pos m; shr_r := false; shr_s := false |}.
Proof.
  revert m. induction k as [k IH | k IH |]; intros m; cbn [SpecFloat.iter_pos Pos.iter].
  - cbn [shr_1 orb]. now rewrite !IH.
  - now rewrite !IH.
  - reflexivity.
Qed.

(** A 53-bit mantissa followed by [k] zero bits rounds to itself. *)
Lemma binary_round_aux_shifted (s : bool) (m k : positive) (e : Z) :
  Z.pos (digits2_pos m) = 53 -> -1074 <= e <= 971 ->
  binary_round_aux prec emax s (Z.pos (Pos.iter xO m k)) (e - Z.pos k) loc_Exact
  = S754_finite s m e.
Proof.
  intros Hd He.
  assert (Hshr : shr_fexp prec emax (Z.pos (Pos.iter xO m k)) (e - Z.pos k) loc_Exact
                 = ({| shr_m := Z.pos m; shr_r := false; shr_s := false |}, e)).
  { unfold shr_fexp, fexp, emin, prec, emax. cbn [Zdigits2]. rewrite iter_xO_digits, Hd.
    replace (Z.max (53 + Z.pos k + (e - Z.pos k) - 53) (3 - 1024 - 53) - (e - Z.pos k))
      with (Z.pos k) by lia.
    cbn [shr shr_record_of_loc]. rewrite iter_shr_1_exact. f_equal. lia. }
  assert (Hshr' : shr_fexp prec emax (Z.pos m) e loc_Exact
                  = ({| shr_m := Z.pos m; shr_r := false; shr_s := false |}, e)).
  { unfold shr_fexp, fexp, emin, prec, emax. cbn [Zdigits2]. rewrite Hd.
    replace (Z.max (53 + e - 53) (3 - 1024 - 53) - e) with 0 by lia. reflexivity. }
  unfold binary_round_aux. rewrite Hshr.
  cbn [shr_m loc_of_shr_record round_nearest_even]. rewrite Hshr'. cbn [shr_m].
  unfold emax, prec. destruct (Z.leb_spec e (1024 - 53)); [reflexivity | lia].
Qed.

(** The shape of a nonzero integer below 2^53. *)
Lemma of_int_shape (n : Z) :
  n <> 0 -> Z.abs n < 2 ^ 53 ->
  exists (m : positive) (e : Z),
    of_int n = S754_finite (n <? 0) m e
    /\ Z.pos (digits2_pos m) = 53 /\ -52 <= e <= 0
    /\ Z.pos m = Z.abs n * 2 ^ (- e).
Proof.
  intros Hn Hb.
  assert (Hl : Z.log2 (Z.abs n) < 53) by (apply Z.log2_lt_pow2; lia).
  pose proof (Z.log2_nonneg (Z.abs n)) as Hl0.
  rewrite of_int_exact by lia. set (l := Z.log2 (Z.abs n)) in *.
  assert (Hk : 0 < 2 ^ (52 - l)) by (apply Z.pow_pos_nonneg; lia).
  assert (Hm : Z.pos (Z.to_pos (Z.abs n * 2 ^ (52 - l))) = Z.abs n * 2 ^ (52 - l))
    by (apply Z2Pos.id; nia).
  exists (Z.to_pos (Z.abs n * 2 ^ (52 - l))), (l - 52).
  split; [reflexivity |]. split; [| split; [lia |]].
  - pose proof (log2_digits (Z.to_pos (Z.abs n * 2 ^ (52 - l)))) as Hd.
    rewrite Hm in Hd. rewrite Z.log2_mul_pow2 in Hd by lia. fold l in Hd. lia.
  - rewrite Hm. f_equal. f_equal. lia.
Qed.

Lemma mul_of_int_1 (n : Z) : Z.abs n < 2 ^ 53 -> mul (of_int n) (of_int 1) = of_int n.
Proof.
  intros Hb. destruct (Z.eq_dec n 0) as [-> | Hn]; [reflexivity |].
  destruct (of_int_shape n Hn Hb) as (m & e & -> & Hd & He & _).
  change (of_int 1) with (S754_finite false 4503599627370496 (-52)).
  unfold mul, SFmul. rewrite xorb_false_r.
  replace (m * 4503599627370496)%positive with (Pos.iter xO m 52)
    by (apply Pos2Z.inj; rewrite iter_xO_value, Pos2Z.inj_mul; reflexivity).
  replace (e + -52) with (e - Z.pos 52) by lia.
  apply binary_round_aux_shifted; [exact Hd | lia].
Qed.

(** [Math.round] leaves an integer as it is. *)
Lemma Math_round_of_int (n : Z) : Z.abs n < 2 ^ 53 -> Math_round (of_int n) = of_int n.
Proof.
  intros Hb. destruct (Z.eq_dec n 0) as [-> | Hn]; [reflexivity |].
  destruct (of_int_shape n Hn Hb) as (m & e & Hof & Hd & He & Hm).
  rewrite Hof. cbn [Math_round]. destruct (Z.leb_spec 0 e) as [| Hlt]; [reflexivity |].
  rewrite Hm.
  assert (Hk : 0 < 2 ^ (- e)) by (apply Z.pow_pos_nonneg; lia).
  replace (2 ^ (- e + 1)) with (2 ^ (- e) * 2) by (rewrite Z.pow_add_r by lia; reflexivity).
  assert (Hq : (2 * cond_Zopp (n <? 0) (Z.abs n * 2 ^ (- e)) + 2 ^ (- e)) / (2 ^ (- e) * 2) = n).
  { symmetry. apply Z.div_unique with (r := 2 ^ (- e)); [lia |].
    unfold cond_Zopp. destruct (Z.ltb_spec n 0); nia. }
  rewrite Hq. destruct (Z.eqb_spec n 0); [contradiction |]. now rewrite Hof.
Qed.

Lemma is_finite_of_int (n : Z) : Z.abs n < 2 ^ 53 -> is_finite (of_int n) = true.
Proof.
  intros Hb. destruct (Z.eq_dec n 0) as [-> | Hn]; [reflexivity |].
  destruct (of_int_shape n Hn Hb) as (m & e & -> & _). reflexivity.
Qed.

Section IntegerEncode.
Context `{Runtime}.

(** X5: at scale 1, the scale of the calibration and hysteresis writes, an
    integer is encoded as itself and echoed as itself: neither the product
    with the scale nor the rounding changes it. *)
Theorem parseNumeric_integer (n : Z) (label : string) :
  Z.abs n < 2 ^ 53 ->
  parseNumeric (int n) label (of_int 1) = Return {| raw := of_int n; text := int n |}.
Proof.
  intros Hb. unfold parseNumeric, int. cbn [nullish ToNumber].
  rewrite (is_finite_of_int n Hb). cbn [negb].
  rewrite (mul_of_int_1 n Hb), (Math_round_of_int n Hb).
  change (num_eqb (of_int 1) (of_int 1)) with true. reflexivity.
Qed.


End IntegerEncode.

(** The calibration 7. *)
Lemma parseNumeric_integer_witness :
  parseNumeric (H := example_runtime) (int 7) "ntc1_calibration" (of_int 1)
  = Return {| raw := of_int 7; text := int 7 |}.
Proof. exact (parseNumeric_integer (H := example_runtime) 7 "ntc1_calibration" eq_refl). Defined.


(** ** Reports: the key an attribute arrives under *)

Section SingleAttribute.
Implicit Types (k a : string) (raw : value) (aliases : list string).

Lemma hasOwn_report k raw a : hasOwn {[ k := raw ]} a = String.eqb a k.
Proof.
  unfold hasOwn. destruct (String.eqb_spec a k) as [-> | Hne].
  - now rewrite lookup_singleton_eq.
  - rewrite lookup_singleton_ne; [reflexivity | congruence].
Qed.

Lemma pick_report k raw aliases :
  pick {[ k := raw ]} aliases = if existsb (fun a => String.eqb a k) aliases then Some k else None.
Proof.
  unfold pick. induction aliases as [| a aliases IH]; [reflexivity |]. cbn [find existsb].
  rewrite hasOwn_report. destruct (String.eqb_spec a k) as [-> | _]; [reflexivity | exact IH].
Qed.

Lemma hasAny_report k raw aliases :
  hasAny {[ k := raw ]} aliases = existsb (fun a => String.eqb a k) aliases.
Proof.
  unfold hasAny. induction aliases as [| a aliases IH]; [reflexivity |]. cbn [existsb].
  now rewrite hasOwn_report, IH.
Qed.

Lemma get_report k raw : get {[ k := raw ]} k = raw.
Proof. unfold get. now rewrite lookup_singleton_eq. Qed.

Lemma mapAndAssign_report_hit k raw attrId aliases handler out :
  existsb (fun a => String.eqb a k) aliases = true ->
  mapAndAssign {[ k := raw ]} attrId aliases handler out = handler raw out.
Proof.
  intros He. unfold mapAndAssign. rewrite hasAny_report, pick_report, He.
  cbn [default from_option id]. now rewrite get_report.
Qed.

Lemma mapAndAssign_report_miss k raw attrId aliases handler out :
  existsb (fun a => String.eqb a k) aliases = false ->
  mapAndAssign {[ k := raw ]} attrId aliases handler out = out.
Proof. intros He. unfold mapAndAssign. now rewrite hasAny_report, He. Qed.

End SingleAttribute.

(** Decoding a message that reports one attribute: which alias lists the
    key belongs to is computed. *)
Ltac decide_aliases :=
  repeat match goal with
         | |- context [existsb (fun a => String.eqb a ?k) ?l] =>
             let b := eval vm_compute in (existsb (fun a => String.eqb a k) l) in
             change (existsb (fun a => String.eqb a k) l) with b
         end;
  cbv beta iota.

Ltac decode_report :=
  unfold report;
  cbn [convert data Converter.on_off_num Converter.device_temp_num
       Converter.temp_measurement_num Converter.private_04e0_num
       Converter.electrical_num Converter.metering_num];
  repeat match goal with
         | |- context [mapAndAssign {[ ?k := ?raw ]} ?attrId ?aliases ?handler ?out] =>
             let b := eval vm_compute in (existsb (fun a => String.eqb a k) aliases) in
             lazymatch b with
             | true => rewrite (mapAndAssign_report_hit k raw attrId aliases handler out eq_refl)
             | false => rewrite (mapAndAssign_report_miss k raw attrId aliases handler out eq_refl)
             end
         end;
  rewrite ?pick_report; decide_aliases; rewrite ?get_report.

Section ReportKeyProperties.
Context `{Runtime}.

Lemma report_key_first (c : fz_converter) (aliases : list string) (k : string) (raw : value) :
  In (c, aliases) report_keys -> In k aliases ->
  convert c (report k raw) = convert c (report (hd k aliases) raw).
Proof.
  intros Hc Hk. cbn [report_keys In] in Hc.
  repeat (destruct Hc as [Hc | Hc];
          [injection Hc as <- <-; cbn [In] in Hk;
           repeat (destruct Hk as [<- | Hk]; [cbn [hd]; decode_report; reflexivity |]);
           contradiction |]).
  contradiction.
Qed.

(** X7: an attribute decodes the same under each of the keys it may arrive
    under, the numeric id or any of its names, in every fromZigbee
    converter of the definition and for every raw value. *)
Theorem report_key_is_immaterial (c : fz_converter) (aliases : list string)
    (k1 k2 : string) (raw : value) :
  In (c, aliases) report_keys -> In k1 aliases -> In k2 aliases ->
  convert c (report k1 raw) = convert c (report k2 raw).
Proof.
  intros Hc H1 H2.
  rewrite (report_key_first c aliases k1 raw Hc H1), (report_key_first c aliases k2 raw Hc H2).
  destruct aliases; [contradiction | reflexivity].
Qed.

(** X8: every attribute name of the manufacturer's cluster definition is
    one of the keys [private_04e0_num] accepts for the id the definition
    gives the name, and a report under the name decodes as a report under
    the id does. *)
Theorem cluster_names_are_decoded (name : string)
    (def : HzcSwitchUserInterfaceConfigurationCluster.attribute_definition) (raw : value) :
  In (name, def) HzcSwitchUserInterfaceConfigurationCluster.ATTRIBUTES ->
  (exists names,
      In (Converter.private_04e0_num,
          idx (HzcSwitchUserInterfaceConfigurationCluster.id def) :: names) report_keys
      /\ In name names)
  /\ convert Converter.private_04e0_num (report name raw)
     = convert Converter.private_04e0_num
         (report (idx (HzcSwitchUserInterfaceConfigurationCluster.id def)) raw).
Proof.
  intros Hin. cbn [HzcSwitchUserInterfaceConfigurationCluster.ATTRIBUTES In] in Hin.
  repeat (destruct Hin as [Hin | Hin];
          [injection Hin as <- <-; cbn [HzcSwitchUserInterfaceConfigurationCluster.id];
           split;
           [eexists; split;
            [unfold report_keys; repeat (first [left; reflexivity | right]) | left; reflexivity]
           | decode_report; reflexivity] |]).
  contradiction.
Qed.

End ReportKeyProperties.

(** The rmsCurrent report, and the name the cluster definition gives
    attribute 0x0003. *)
Lemma report_key_is_immaterial_witness :
  convert (Converter.electrical_num (H := example_runtime)) (report (idx 0x0508) (int 3290))
  = convert (Converter.electrical_num (H := example_runtime)) (report "rmsCurrent" (int 3290)).
Proof.
  refine (report_key_is_immaterial (H := example_runtime) Converter.electrical_num
            [idx 0x0508; "rmsCurrent"] (idx 0x0508) "rmsCurrent" (int 3290) _
            (or_introl eq_refl) (or_intror (or_introl eq_refl))).
  unfold report_keys. do 21 right. left. reflexivity.
Defined.

Lemma cluster_names_are_decoded_witness :
  convert (Converter.private_04e0_num (H := example_runtime)) (report "waterSensorValue" (int 1))
  = convert (Converter.private_04e0_num (H := example_runtime)) (report (idx 0x0003) (int 1)).
Proof.
  exact (proj2 (cluster_names_are_decoded (H := example_runtime) "waterSensorValue"
                  {| HzcSwitchUserInterfaceConfigurationCluster.id := 0x0003;
                     HzcSwitchUserInterfaceConfigurationCluster.type := ZCLDataTypes.bool |}
                  (int 1) (or_intror (or_intror (or_intror (or_introl eq_refl)))))).
Defined.

(** ** Reports: the fields a converter sets *)

(** [g] is an exposed name, so it is not [f], which is none. *)
Ltac exposed_name Hnin :=
  let E := fresh in
  intros E; apply Hnin; rewrite <- E; vm_compute;
  repeat (first [left; reflexivity | right]).

Section ReportedFields.
Context `{Runtime}.

(** X9: a registered fromZigbee converter sets no state field but the
    ones the definition exposes, whatever the message. *)
Theorem reported_fields_are_exposed (c : fz_converter) (msg : message) (f : string) (v : value) :
  In c Converter.fromZigbee ->
  field (convert c msg) f = Some v ->
  In f (Converter.name <$> Converter.exposes).
Proof.
  intros Hc Hf.
  destruct (in_dec string_dec f (Converter.name <$> Converter.exposes)) as [Hin | Hnin];
    [exact Hin | exfalso].
  destruct msg as [[d |]];
    [| cbn [Converter.fromZigbee In] in Hc;
       repeat (destruct Hc as [<- | Hc]; [discriminate Hf |]); contradiction].
  assert (Hsingle : forall g x, g <> f -> field (Some {[ g := x ]}) f = Some v -> False).
  { intros g x Hg. cbn. rewrite lookup_singleton_ne by exact Hg. discriminate. }
  cbn [Converter.fromZigbee In] in Hc.
  destruct Hc as [<- | [<- | [<- | [<- | [<- | []]]]]];
    cbn [convert data Converter.device_temp_num Converter.temp_measurement_num
         Converter.private_04e0_num Converter.electrical_num Converter.metering_num] in Hf.
  - destruct (pick d _); [| discriminate Hf]. destruct (_ && _); [| discriminate Hf].
    revert Hf. apply Hsingle. exposed_name Hnin.
  - destruct (pick d _); [| discriminate Hf]. destruct (_ && _); [| discriminate Hf].
    revert Hf. apply Hsingle. exposed_name Hnin.
  - rewrite field_nonempty in Hf.
    repeat (rewrite mapAndAssign_ne in Hf by
              (intros;
               first [ apply assign_temperature_ne | apply assign_label_ne
                     | apply assign_number_ne | apply assign_flag_ne
                     | apply lookup_insert_ne ];
               exposed_name Hnin)).
    rewrite lookup_empty in Hf. discriminate Hf.
  - rewrite field_nonempty in Hf.
    destruct (pick d [idx 1285; _]), (pick d [idx 1288; _]), (pick d [idx 1291; _]);
      repeat (rewrite lookup_insert_ne in Hf by exposed_name Hnin);
      rewrite lookup_empty in Hf; discriminate Hf.
  - destruct (pick d _); [| discriminate Hf]. destruct (is_number _); [| discriminate Hf].
    revert Hf. apply Hsingle. exposed_name Hnin.
Qed.

End ReportedFields.

(** The rmsVoltage report sets voltage, which is exposed. *)
Lemma reported_fields_are_exposed_witness :
  field (convert (Converter.electrical_num (H := example_runtime))
           (report (idx 0x0505) (int 2319))) "voltage" = Some (VNumber (decimal 2319 1))
  /\ In "voltage" (Converter.name <$> Converter.exposes).
Proof.
  split; [reflexivity |].
  exact (reported_fields_are_exposed (H := example_runtime) Converter.electrical_num
           (report (idx 0x0505) (int 2319)) "voltage" (VNumber (decimal 2319 1))
           (or_intror (or_intror (or_intror (or_introl eq_refl)))) eq_refl).
Defined.

(** ** Refresh *)

Lemma switch_default {A} (k : string) (cases : list (string * A)) (otherwise : A) :
  ~ In k (fst <$> cases) -> switch k cases otherwise = otherwise.
Proof.
  unfold switch. induction cases as [| [k' b] cases IH]; [reflexivity |].
  cbn. intros Hn. destruct (String.eqb_spec k' k) as [-> | _]; [tauto |].
  apply IH. tauto.
Qed.

(** The refresh of a key the switch lists: the case is selected, the read
    is examined in each of its outcomes. *)
Ltac refresh_case read :=
  unfold Converter.get_attribute_convertGet, Converter.set_private_attribute_convertGet, switch;
  cbn [find String.eqb Ascii.eqb Bool.eqb andb fst snd];
  unfold Converter.get_label, Converter.get_threshold, Converter.get_number;
  destruct (read _ _) as [[res |] | cause];
  cbn [mbind result_bind pick_res get_res try_catch].

Section Refresh.
Context `{Runtime}.

(** X10: a refresh resolves to the state of the field it was asked for and
    of no other, or to undefined; it throws only for a key of its
    converter's list, and then the read-failure error naming the key.  For a
    key outside the list it resolves to undefined whatever the device
    would answer. *)
Theorem refresh_outcomes (tz : Converter.tz_converter) (read : reader) (k : string) :
  In tz Converter.toZigbee ->
  match Converter.convertGet tz read k with
  | Return None => True
  | Return (Some o) => In k (Converter.key tz) /\ exists v, o = {[ k := v ]}
  | Throw e => In k (Converter.key tz) /\ exists cause, e = ReadFailed k cause
  end.
Proof.
  intros [<- | [<- | []]]; cbn [Converter.convertGet Converter.key Converter.get_attribute
                                 Converter.set_private_attribute].
  - destruct (in_dec string_dec k Converter.get_attribute_key) as [Hin | Hnin].
    + pose proof Hin as Hk. cbn [Converter.get_attribute_key In] in Hk.
      repeat (destruct Hk as [<- | Hk];
              [refresh_case read;
               [ match goal with |- context [if ?c then _ else _] => destruct c end;
                 cbn [try_catch]; unfold state; eauto
               | eauto | eauto ] |]).
      contradiction.
    + unfold Converter.get_attribute_convertGet. rewrite switch_default by exact Hnin. exact I.
  - destruct (in_dec string_dec k Converter.set_private_attribute_key) as [Hin | Hnin].
    + pose proof Hin as Hk. cbn [Converter.set_private_attribute_key In] in Hk.
      repeat (destruct Hk as [<- | Hk];
              [refresh_case read;
               [ match goal with |- context [if ?c then _ else _] => destruct c end;
                 cbn [try_catch]; unfold state; eauto
               | eauto | eauto ] |]).
      contradiction.
    + unfold Converter.set_private_attribute_convertGet.
      rewrite switch_default by exact Hnin. exact I.
Qed.

(** X11: for a key of its converter's list, a refresh whose read throws
    throws the read-failure error carrying the cause, and one whose read
    resolves to undefined throws it with the TypeError of looking a key up
    in undefined: in neither case does it resolve. *)
Theorem refresh_failures (tz : Converter.tz_converter) (read : reader) (k : string) :
  In tz Converter.toZigbee -> In k (Converter.key tz) ->
  (forall e, (forall cl attrs, read cl attrs = Throw e) ->
             Converter.convertGet tz read k = Throw (ReadFailed k e))
  /\ ((forall cl attrs, read cl attrs = Return None) ->
      Converter.convertGet tz read k = Throw (ReadFailed k TypeError)).
Proof.
  intros [<- | [<- | []]] Hk;
    cbn [Converter.convertGet Converter.key Converter.get_attribute
         Converter.set_private_attribute Converter.get_attribute_key
         Converter.set_private_attribute_key In] in *.
  all: repeat (destruct Hk as [<- | Hk];
               [split; [intros e Hr | intros Hr];
                unfold Converter.get_attribute_convertGet,
                  Converter.set_private_attribute_convertGet, switch;
                cbn [find String.eqb Ascii.eqb Bool.eqb andb fst snd];
                unfold Converter.get_label, Converter.get_threshold, Converter.get_number;
                rewrite Hr; reflexivity |]).
  all: contradiction.
Qed.

End Refresh.

(** The refresh of the water sensor on a device that does not answer. *)
Lemma refresh_failures_witness :
  Converter.get_attribute_convertGet (H := example_runtime)
    (fun _ _ => Throw (TransportError "no response")) "water_sensor"
  = Throw (ReadFailed "water_sensor" (TransportError "no response")).
Proof.
  exact (proj1 (refresh_failures (H := example_runtime) Converter.get_attribute
                  (fun _ _ => Throw (TransportError "no response")) "water_sensor"
                  (or_introl eq_refl) (or_intror (or_intror (or_intror (or_introl eq_refl)))))
           (TransportError "no response") (fun _ _ => eq_refl)).
Defined.

(** A refresh of a key the converter does not list, on a device that
    would answer. *)
Lemma refresh_outcomes_witness :
  match Converter.set_private_attribute_convertGet (H := example_runtime)
          (answers (idx 0x0505) (int 2319)) "voltage" with
  | Return None => True
  | Return (Some o) =>
      In "voltage" Converter.set_private_attribute_key /\ exists v, o = {[ "voltage" := v ]}
  | Throw e =>
      In "voltage" Converter.set_private_attribute_key /\ exists cause, e = ReadFailed "voltage" cause
  end.
Proof.
  exact (refresh_outcomes (H := example_runtime) Converter.set_private_attribute
           (answers (idx 0x0505) (int 2319)) "voltage" (or_intror (or_introl eq_refl))).
Defined.

(** ** Writes *)

Section Writes.
Context `{Runtime}.





End Writes.


(** ** Exposed entities *)

Lemma In_existsb (k : string) (l : list string) :
  In k l <-> existsb (String.eqb k) l = true.
Proof.
  rewrite existsb_exists. split.
  - intros Hin. exists k. split; [exact Hin | apply String.eqb_refl].
  - intros (x & Hin & Heq). apply String.eqb_eq in Heq. now subst x.
Qed.

Section Exposes.
Context `{Runtime}.

(** X14: the entities the definition exposes and the keys its toZigbee
    converters answer for are the same names, each once.  An entity is
    exposed as settable exactly when [set_private_attribute], the one
    converter with a write, lists its name; every entity has a refresh, and
    the only ones not exposed as gettable are state-only binaries. *)
Theorem exposes_match_toZigbee :
  NoDup (Converter.name <$> Converter.exposes)
  /\ (forall k, In k (Converter.name <$> Converter.exposes)
                <-> exists tz, In tz Converter.toZigbee /\ In k (Converter.key tz))
  /\ (forall e, In e Converter.exposes ->
        (can_set (Converter.access e) = true
         <-> In (Converter.name e) (Converter.key Converter.set_private_attribute))
        /\ (can_get (Converter.access e) = false ->
            Converter.access e = [Converter.ea.STATE]
            /\ Converter.exposed_as e = Converter.binary (VBool true) (VBool false))).
Proof.
  split; [| split].
  - apply (bool_decide_unpack _). vm_compute. reflexivity.
  - intros k. split.
    + intros Hin. cbn in Hin.
      repeat (destruct Hin as [<- | Hin];
              [first
                 [ exists Converter.get_attribute; split; [left; reflexivity |];
                   apply In_existsb; vm_compute; reflexivity
                 | exists Converter.set_private_attribute;
                   split; [right; left; reflexivity |];
                   apply In_existsb; vm_compute; reflexivity ] |]).
      contradiction.
    + intros (tz & [<- | [<- | []]] & Hk); cbn in Hk;
        repeat (destruct Hk as [<- | Hk]; [apply In_existsb; vm_compute; reflexivity |]);
        contradiction.
  - intros e He. cbn [Converter.exposes In] in He.
    repeat (destruct He as [<- | He];
            [split;
             [rewrite In_existsb; vm_compute; split; intros Hx; solve [exact Hx | reflexivity]
             | vm_compute; intros Hx; solve [discriminate Hx | split; reflexivity]] |]).
    contradiction.
Qed.

(** X15: every label an enumeration entity offers is one its write
    accepts: writing the label to the entity sends one ENUM8 write carrying
    an integer code and, when the device accepts it, echoes the label as
    the state of the entity. *)
Theorem exposed_labels_are_writable (e : Converter.expose) (labels : list string)
    (l : string) (write : Converter.writer) :
  In e Converter.exposes ->
  Converter.exposed_as e = Converter.enum labels ->
  In l labels ->
  exists attr code,
    Converter.set_private_attribute_convertSet write (Converter.name e) (VString l)
    = (let w := {| w_cluster := PRIVATE_CLUSTER_ID; w_attr := attr;
                   w_value := of_int code; w_type := Some ENUM8 |} in
       ([w], write w ≫= fun _ => Return (state (Converter.name e) (VString l)))).
Proof.
  intros He Hl Hin. cbn [Converter.exposes In] in He.
  repeat (destruct He as [<- | He];
          [first
             [ discriminate Hl
             | injection Hl as <-; cbn in Hin;
               repeat (destruct Hin as [<- | Hin]; [eexists _, _; reflexivity |]);
               contradiction ] |]).
  contradiction.
Qed.

End Exposes.

(** The last label of the water alarm action. *)
Lemma exposed_labels_are_writable_witness :
  exists attr code,
    Converter.set_private_attribute_convertSet (H := example_runtime) (fun _ => Return tt)
      "water_alarm_relay_action" (VString "No water: Turn ON")
    = ([{| w_cluster := PRIVATE_CLUSTER_ID; w_attr := attr;
           w_value := of_int code; w_type := Some ENUM8 |}],
       Return (state "water_alarm_relay_action" (VString "No water: Turn ON"))).
Proof.
  exact (exposed_labels_are_writable (H := example_runtime)
           {| Converter.name := "water_alarm_relay_action";
              Converter.access := [Converter.ea.STATE_SET; Converter.ea.STATE_GET];
              Converter.exposed_as := Converter.enum (Converter.Object_keys Converter.WATER_RELAY_ACTION_MAP);
              Converter.description := "How should the relay react when water sensor detects a leak?" |}
           (Converter.Object_keys Converter.WATER_RELAY_ACTION_MAP) "No water: Turn ON"
           (fun _ => Return tt)
           (or_intror (or_intror (or_intror (or_intror (or_intror (or_intror (or_intror
             (or_intror (or_intror (or_intror (or_introl eq_refl)))))))))))
           eq_refl
           (or_intror (or_intror (or_intror (or_intror (or_intror (or_intror
             (or_introl eq_refl)))))))).
Defined.

(** ** Report and refresh *)

Lemma nonempty_insert_empty (f : string) (v : value) :
  nonempty (<[ f := v ]> ∅) = Some {[ f := v ]}.
Proof.
  unfold nonempty. rewrite insert_empty, map_size_singleton. reflexivity.
Qed.

Lemma nonempty_empty : nonempty ∅ = None.
Proof. reflexivity. Qed.

Section ReportAndRefresh.
Context `{Runtime}.

(** X16: for every field but the three temperatures, refreshing the field
    from a device that answers a raw number under the attribute id resolves
    to exactly what a report of that number under the id decodes to. *)
Theorem refresh_decodes_as_report (c : fz_converter) (tz : Converter.tz_converter)
    (f : string) (attr : N) (x : number) :
  In (c, tz, f, attr) decoded_alike ->
  Converter.convertGet tz (answers (idx attr) (VNumber x)) f
  = Return (convert c (report (idx attr) (VNumber x))).
Proof.
  intros Hin. cbn [decoded_alike In] in Hin.
  repeat (destruct Hin as [Hin | Hin];
          [injection Hin as <- <- <- <-;
           unfold answers;
           cbn [Converter.convertGet Converter.get_attribute Converter.set_private_attribute];
           unfold Converter.get_attribute_convertGet,
             Converter.set_private_attribute_convertGet, switch;
           cbn [find String.eqb Ascii.eqb Bool.eqb andb fst snd];
           unfold Converter.get_label, Converter.get_threshold, Converter.get_number;
           cbn [mbind result_bind pick_res]; rewrite pick_report; decide_aliases;
           cbn [mbind result_bind get_res default from_option id]; rewrite get_report;
           decode_report;
           unfold Converter.assign_temperature, Converter.assign_label,
             Converter.assign_number, Converter.assign_flag;
           cbn [is_number nullish negb andb strict_eq try_catch];
           repeat match goal with
                  | |- context [if ?b then _ else _] => destruct b
                  end;
           rewrite ?nonempty_insert_empty, ?nonempty_empty; reflexivity |]).
  contradiction.
Qed.

End ReportAndRefresh.

(** The rmsCurrent attribute at 3290. *)
Lemma refresh_decodes_as_report_witness :
  Converter.get_attribute_convertGet (H := example_runtime)
    (answers (idx 0x0508) (int 3290)) "current"
  = Return (convert (Converter.electrical_num (H := example_runtime))
              (report (idx 0x0508) (int 3290))).
Proof.
  refine (refresh_decodes_as_report (H := example_runtime) Converter.electrical_num
            Converter.get_attribute "current" 0x0508%N (of_int 3290) _).
  right. left. reflexivity.
Defined.

(** ** Endpoints, setup and polling *)

(** X17: [findBestEndpoint] returns the first endpoint of the device that
    lists one of the clusters it looks for; when none does, endpoint 1;
    when there is none, the first endpoint.  It returns nothing exactly
    when the device has no endpoint at all. *)
Theorem findBestEndpoint_choice (dev : device) :
  let eps := default [] (endpoints dev) in
  (forall before ep after,
      eps = before ++ ep :: after ->
      serves_desired ep = true -> (forall e, In e before -> serves_desired e = false) ->
      findBestEndpoint dev = Some ep)
  /\ ((forall e, In e eps -> serves_desired e = false) ->
      findBestEndpoint dev = match getEndpoint dev 1%N with
                             | Some ep => Some ep
                             | None => head eps
                             end)
  /\ (findBestEndpoint dev = None <-> eps = [] /\ getEndpoint dev 1%N = None).
Proof.
  cbn zeta. unfold findBestEndpoint. fold serves_desired.
  change (fun ep => existsb (hasCluster ep) [6%N; 2%N; 1026%N; 2820%N; 1794%N])
    with serves_desired.
  set (eps := default [] (endpoints dev)). clearbody eps.
  assert (Hnone : forall l, (forall e, In e l -> serves_desired e = false) ->
                            find serves_desired l = None).
  { induction l as [| e l IH]; intros Hl; [reflexivity |]. cbn [find].
    rewrite (Hl e (or_introl eq_refl)). apply IH. intros e' He'. apply Hl. now right. }
  split; [| split].
  - intros before ep after -> Hep Hb.
    assert (Hf : find serves_desired (before ++ ep :: after) = Some ep).
    { induction before as [| e before IH]; cbn [app find].
      - now rewrite Hep.
      - rewrite (Hb e (or_introl eq_refl)). apply IH. intros e' He'. apply Hb. now right. }
    now rewrite Hf.
  - intros Hl. now rewrite (Hnone eps Hl).
  - split.
    + destruct (find serves_desired eps) eqn:Hf; [discriminate |].
      destruct (getEndpoint dev 1%N); [discriminate |].
      destruct eps; [tauto | discriminate].
    + intros [-> ->]. reflexivity.
Qed.

Lemma requests_Called (cs : list call) : requests (Called <$> cs) = cs.
Proof. induction cs as [| c cs IH]; [reflexivity |]. cbn. now f_equal. Qed.

(** X18: when [findBestEndpoint] finds no endpoint, the setup sends no
    request: it logs that no endpoint is available and returns, or, on a
    device object without an [endpoints] list, throws the TypeError of
    mapping over undefined. *)
Theorem setup_sends_nothing_without_endpoint (net : transport) (dev : device)
    (lg : option logger) (h : list event) :
  findBestEndpoint dev = None ->
  exists r t,
    Converter.configure net dev lg h = (r, h ++ t)
    /\ requests t = []
    /\ match endpoints dev with
       | Some _ =>
           r = Return tt
           /\ exists to, last t = Some (Logged to (Text "[Namron4512785] no endpoint available on device"))
       | None => r = Throw TypeError
       end.
Proof.
  intros Hb. unfold Converter.configure. rewrite Hb.
  destruct (endpoints dev) as [eps |];
    unfold mbind, io_bind, L_info, L_warn, L_error, io_throw; eexists _, _;
    rewrite <- !app_assoc; (split; [reflexivity |]); cbn [app].
  - split; [reflexivity |]. split; [reflexivity |]. eexists. reflexivity.
  - split; reflexivity.
Qed.

(** X19: a poll never throws.  It sends its reads to the endpoint
    [findBestEndpoint] picks, in order, and stops at the first one that
    throws; without an endpoint it sends nothing.  The converter drops the
    error; the earlier revision, with five reads, writes it to the
    console. *)
Theorem poll_outcomes (net : transport) (dev : device) (h : list event) :
  Converter.poll net dev h
  = (Return tt, match findBestEndpoint dev with
                | Some ep => until_failure net (poll_reads (ID ep)) (fun _ => []) h
                | None => h
                end)
  /\ Relay30a.poll net dev h
     = (Return tt,
        match findBestEndpoint dev with
        | Some ep =>
            until_failure net (earlier_poll_reads (ID ep))
              (fun e => [Logged ConsoleWarn (TextErr "[Namron4512785] poll error: " e)]) h
        | None => h
        end).
Proof.
  unfold Converter.poll, Relay30a.poll, io_try. destruct (findBestEndpoint dev) as [ep |].
  - unfold poll_reads, earlier_poll_reads, mbind, io_bind, request. cbn [until_failure].
    split.
    + repeat match goal with
             | |- context [net ?hist ?c] => destruct (net hist c)
             end; cbn [mret io_ret app]; rewrite ?app_nil_r; reflexivity.
    + repeat match goal with
             | |- context [net ?hist ?c] => destruct (net hist c)
             end; cbn [app]; rewrite <- ?app_assoc; reflexivity.
  - split; reflexivity.
Qed.

(** What a poll leaves is the history with some of its reads appended, in
    order, and after them what the handler logged. *)
Lemma until_failure_prefix (net : transport) (cs : list call)
    (on_error : thrown -> list event) (h : list event) :
  exists sent logged,
    until_failure net cs on_error h = h ++ (Called <$> sent) ++ logged
    /\ sent `prefix_of` cs.
Proof.
  revert h. induction cs as [| c cs IH]; intros h; cbn [until_failure].
  - exists [], []. split; [now rewrite app_nil_r | apply prefix_nil].
  - destruct (net h c) as [e |].
    + exists [c], (on_error e). split; [reflexivity |]. now apply prefix_cons, prefix_nil.
    + destruct (IH (h ++ [Called c])) as (sent & logged & -> & Hp). exists (c :: sent), logged.
      split; [now rewrite <- app_assoc | now apply prefix_cons].
Qed.

(** A device without endpoints. *)
Lemma setup_sends_nothing_without_endpoint_witness :
  exists r t,
    Converter.configure all_fail
      {| ieeeAddr := Some "0xa4c138f06b2a11d5"; modelID := "4512785";
         manufacturerName := "Namron AS"; endpoints := Some [];
         getEndpoint := fun _ => None |} None [] = (r, [] ++ t)
    /\ requests t = []
    /\ r = Return tt
    /\ exists to, last t = Some (Logged to (Text "[Namron4512785] no endpoint available on device")).
Proof.
  exact (setup_sends_nothing_without_endpoint all_fail
           {| ieeeAddr := Some "0xa4c138f06b2a11d5"; modelID := "4512785";
              manufacturerName := "Namron AS"; endpoints := Some [];
              getEndpoint := fun _ => None |} None [] eq_refl).
Defined.

(** ** Event sequences *)

Lemma run_snoc onEvent events type dev st :
  run onEvent (events ++ [(type, dev)]) st = onEvent type dev (run onEvent events st).
Proof. unfold run. now rewrite foldl_app. Qed.

(** X20: whatever events the converter receives, in whatever order, the
    registry and the live timers stay in agreement, and a device that was
    registered stays registered with the same timer, still live: nothing
    the converter can be sent stops a poll. *)
Theorem polling_is_permanent (events : list (event_arg * option device)) (st : timers) :
  consistent st ->
  consistent (run Converter.onEvent events st)
  /\ forall key h,
       registry st !! key = Some h ->
       registry (run Converter.onEvent events st) !! key = Some h
       /\ is_Some (live (run Converter.onEvent events st) !! h).
Proof.
  intros Hc. induction events as [| [type dev] events [IHc IHr]] using rev_ind.
  - split; [exact Hc |]. intros key h Hr. split; [exact Hr |].
    destruct (registered_live _ Hc _ _ Hr) as (t & Hl & _). eauto.
  - rewrite run_snoc. split.
    + now apply Converter_onEvent_consistent.
    + intros key h Hr. destruct (IHr key h Hr) as [Hr' _].
      now apply Converter_onEvent_never_cancels.
Qed.

(** X21: an event that names no device, or a device without an address,
    changes nothing, in either revision. *)
Theorem events_without_identity_are_ignored (name : string) (dev : option device) (st : timers) :
  (forall d, dev = Some d -> ieeeAddr d = None \/ ieeeAddr d = Some "") ->
  Converter.onEvent (Named name) dev st = st
  /\ Relay30a.onEvent (Named name) dev st = st.
Proof.
  intros Hd. unfold Converter.onEvent, Relay30a.onEvent. destruct dev as [d |]; [| split; reflexivity].
  cbn [mbind option_bind]. destruct (Hd d eq_refl) as [-> | ->]; split; reflexivity.
Qed.

(** X22: the converter takes the name and the device of an event object
    that has a type from the object, ignoring its own device argument; the
    earlier revision compares the object itself with the names and so
    ignores every event object. *)
Theorem event_objects (name : string) (d dev : option device) (fields : option (option string * option device))
    (st : timers) :
  Converter.onEvent (EventObject (Some (Some name, d))) dev st
  = Converter.onEvent (Named name) d st
  /\ Relay30a.onEvent (EventObject fields) dev st = st.
Proof.
  split; [reflexivity |]. unfold Relay30a.onEvent.
  destruct (dev ≫= ieeeAddr); [| reflexivity].
  destruct (String.eqb _ _); [reflexivity |]. destruct dev; reflexivity.
Qed.

(** ** The earlier revision: event sequences *)

(** Cancelling the timer registered for [key], if any, and removing the
    entry keeps the registry and the live timers in agreement. *)
Lemma cancel_consistent (key : string) (st : timers) :
  consistent st ->
  consistent (registry_delete key (match registry st !! key with
                                   | Some h => clearInterval h st
                                   | None => st
                                   end)).
Proof.
  intros Hc. destruct (registry st !! key) as [h |] eqn:Hr.
  - split; cbn.
    + intros key2 h2 Hr2. apply lookup_delete_Some in Hr2 as [Hne Hr2].
      destruct (registered_live _ Hc _ _ Hr2) as (t & Hl & Hp).
      exists t. split; [| exact Hp]. apply lookup_delete_Some. split; [| exact Hl].
      intros <-. destruct (registered_live _ Hc _ _ Hr) as (t' & Hl' & Hp').
      assert (t' = t) by congruence. subst t'. apply Hne. exact (polls_inj _ _ _ Hp' Hp).
    + intros h2 t Hl. apply lookup_delete_Some in Hl as [Hne Hl].
      destruct (live_registered _ Hc _ _ Hl) as (key2 & Hp & Hr2).
      exists key2. split; [exact Hp |]. apply lookup_delete_Some. split; [| exact Hr2].
      intros <-. congruence.
    + intros h2 t Hl. apply lookup_delete_Some in Hl as [_ Hl].
      exact (handles_fresh _ Hc _ _ Hl).
  - unfold registry_delete. rewrite (delete_id _ _ Hr). now destruct st.
Qed.

Lemma Relay30a_onEvent_consistent (type : event_arg) (dev : option device) (st : timers) :
  consistent st -> consistent (Relay30a.onEvent type dev st).
Proof.
  intros Hc. unfold Relay30a.onEvent.
  destruct dev as [d |]; [| exact Hc]. cbn [mbind option_bind].
  destruct (ieeeAddr d) as [key |] eqn:Hd; [| exact Hc].
  destruct (String.eqb key ""); [exact Hc |].
  destruct (_ || _).
  - now apply (register_timer_consistent key d st).
  - destruct (match type with Named n => String.eqb n "stop" | EventObject _ => false end);
      [| exact Hc].
    now apply cancel_consistent.
Qed.

(** X23: in the earlier revision too the registry and the live timers
    agree after every sequence of events, stop events included: a device
    never has two live timers, and no timer outlives its registration. *)
Theorem earlier_polling_is_consistent (events : list (event_arg * option device)) (st : timers) :
  consistent st -> consistent (run Relay30a.onEvent events st).
Proof.
  intros Hc. induction events as [| [type dev] events IH] using rev_ind; [exact Hc |].
  rewrite run_snoc. now apply Relay30a_onEvent_consistent.
Qed.

(** X24: in the earlier revision a start event followed by a stop event
    for a device that was not polled leaves the registry and the live
    timers as they were: only the next handle has moved on. *)
Theorem earlier_start_then_stop (key : string) (d : device) (st : timers) :
  ieeeAddr d = Some key -> key <> "" -> consistent st -> registry st !! key = None ->
  let st' := run Relay30a.onEvent [(Named "start", Some d); (Named "stop", Some d)] st in
  registry st' = registry st /\ live st' = live st
  /\ next_handle st' = N.succ (next_handle st).
Proof.
  intros Hd Hk Hc Hr. cbn [run foldl].
  rewrite (Relay30a_onEvent_starts "start" key d st (or_introl eq_refl) Hd Hk).
  unfold register_timer. rewrite Hr. cbn [setInterval].
  unfold Relay30a.onEvent. cbn [mbind option_bind]. rewrite Hd.
  apply String.eqb_neq in Hk. rewrite Hk. cbn [String.eqb Ascii.eqb Bool.eqb orb andb].
  cbn [registry_set registry]. rewrite lookup_insert_eq.
  cbn [clearInterval registry_delete registry live next_handle].
  cbn [registry_set registry live next_handle].
  split; [| split; [| reflexivity]].
  - rewrite delete_insert_eq. now apply delete_id.
  - rewrite delete_insert_eq. apply delete_id.
    destruct (live st !! next_handle st) as [t |] eqn:Hl; [| reflexivity].
    pose proof (handles_fresh _ Hc _ _ Hl). lia.
Qed.

(** A deviceAnnounce, a stop and an event without a device, nothing
    polling before. *)
Lemma polling_is_permanent_witness :
  consistent (run Converter.onEvent
                [(Named "deviceAnnounce", Some example_device);
                 (Named "stop", Some example_device);
                 (Named "stop", None)] no_timers).
Proof.
  exact (proj1 (polling_is_permanent
                  [(Named "deviceAnnounce", Some example_device);
                   (Named "stop", Some example_device);
                   (Named "stop", None)] no_timers consistent_no_timers)).
Defined.

Lemma events_without_identity_are_ignored_witness :
  Converter.onEvent (Named "deviceAnnounce") None no_timers = no_timers
  /\ Relay30a.onEvent (Named "deviceAnnounce") None no_timers = no_timers.
Proof.
  refine (events_without_identity_are_ignored "deviceAnnounce" None no_timers _).
  intros d Hd. discriminate Hd.
Defined.

Lemma earlier_polling_is_consistent_witness :
  consistent (run Relay30a.onEvent
                [(Named "start", Some example_device);
                 (Named "start", Some example_device);
                 (Named "stop", Some example_device)] no_timers).
Proof.
  exact (earlier_polling_is_consistent
           [(Named "start", Some example_device);
            (Named "start", Some example_device);
            (Named "stop", Some example_device)] no_timers consistent_no_timers).
Defined.

Lemma earlier_start_then_stop_witness :
  registry (run Relay30a.onEvent
              [(Named "start", Some example_device); (Named "stop", Some example_device)]
              no_timers) = ∅
  /\ live (run Relay30a.onEvent
             [(Named "start", Some example_device); (Named "stop", Some example_device)]
             no_timers) = ∅
  /\ next_handle (run Relay30a.onEvent
                    [(Named "start", Some example_device); (Named "stop", Some example_device)]
                    no_timers) = 1%N.
Proof.
  refine (earlier_start_then_stop "0xa4c138f06b2a11d5" example_device no_timers
            eq_refl _ consistent_no_timers eq_refl).
  discriminate.
Defined.

(** ** The earlier revision: refresh, and the scenarios of its lemmas *)

Section EarlierRefresh.
Context `{Runtime}.

(** X25: the refresh of the earlier revision never throws: where the
    converter throws the read-failure error, on a read that throws or that
    resolves to undefined, the earlier revision resolves to undefined. *)
Theorem earlier_refresh_never_throws (read : reader) (k : string) :
  (exists r, Relay30a.get_attribute_convertGet read k = Return r)
  /\ (forall e, (forall cl attrs, read cl attrs = Throw e) ->
                Relay30a.get_attribute_convertGet read k = Return None)
  /\ ((forall cl attrs, read cl attrs = Return None) ->
      Relay30a.get_attribute_convertGet read k = Return None).
Proof.
  split.
  { unfold Relay30a.get_attribute_convertGet.
    destruct (switch k _ _) as [r | e]; cbn [try_catch]; eauto. }
  unfold Relay30a.get_attribute_convertGet.
  match goal with
  | |- context [switch k ?cs _] => destruct (in_dec string_dec k (fst <$> cs)) as [Hin | Hnin]
  end.
  - cbn [fmap list_fmap fst In] in Hin.
    repeat (destruct Hin as [<- | Hin];
            [split; [intros e Hr | intros Hr];
             unfold switch; cbn [find String.eqb Ascii.eqb Bool.eqb andb fst snd];
             unfold Relay30a.get_scaled, Converter.get_label, Converter.get_threshold,
               Converter.get_number;
             rewrite Hr; reflexivity |]).
    contradiction.
  - rewrite switch_default by exact Hnin. split; reflexivity.
Qed.

End EarlierRefresh.

(** The refresh of the voltage on a device that does not answer. *)
Lemma earlier_refresh_never_throws_witness :
  Relay30a.get_attribute_convertGet (H := example_runtime)
    (fun _ _ => Throw (TransportError "no response")) "voltage"
  = Return None.
Proof.
  exact (proj1 (proj2 (earlier_refresh_never_throws (H := example_runtime)
                         (fun _ _ => Throw (TransportError "no response")) "voltage"))
           (TransportError "no response") (fun _ _ => eq_refl)).
Defined.

(** Two start events for the example device, nothing polling before. *)
Lemma Relay30a_second_start_is_noop_witness :
  Relay30a.onEvent (Named "start") (Some example_device)
    (Relay30a.onEvent (Named "start") (Some example_device) no_timers)
  = Relay30a.onEvent (Named "start") (Some example_device) no_timers
  /\ exactly_one_timer "0xa4c138f06b2a11d5"
       (Relay30a.onEvent (Named "start") (Some example_device)
          (Relay30a.onEvent (Named "start") (Some example_device) no_timers)).
Proof.
  destruct (Relay30a_second_start_is_noop "start" "0xa4c138f06b2a11d5" example_device no_timers)
    as (Hsame & Hone & _).
  - left. reflexivity.
  - reflexivity.
  - discriminate.
  - exact consistent_no_timers.
  - split; [exact Hsame | exact Hone].
Defined.

(** A stop event for the example device while it is polled. *)
Lemma Relay30a_stop_witness :
  no_timer "0xa4c138f06b2a11d5"
    (Relay30a.onEvent (Named "stop") (Some example_device)
       (register_timer "0xa4c138f06b2a11d5" example_device no_timers)).
Proof.
  refine (proj1 (Relay30a_stop "0xa4c138f06b2a11d5" example_device
                   (register_timer "0xa4c138f06b2a11d5" example_device no_timers)
                   eq_refl _ _)).
  - discriminate.
  - exact (register_timer_consistent "0xa4c138f06b2a11d5" example_device no_timers
             eq_refl consistent_no_timers).
Defined.

(** A report of raw 1 under the name waterSensor. *)
Lemma Relay30a_water_sensor_witness :
  field (convert (Relay30a.private_04e0_num (H := example_runtime))
           {| data := Some {[ "waterSensor" := int 1 ]} |}) "water_sensor"
  = Some (VBool true).
Proof.
  exact (Relay30a_water_sensor (H := example_runtime) {[ "waterSensor" := int 1 ]}
           "waterSensor" (int 1) eq_refl eq_refl).
Defined.

(** The device temperature at raw 235. *)
Lemma Relay30a_refresh_agrees_with_report_witness :
  Relay30a.get_attribute_convertGet (H := example_runtime)
    (answers (idx 0x0000) (int 235)) "device_temperature"
  = Return (convert (Relay30a.device_temp_num (H := example_runtime))
              {| data := Some {[ idx 0x0000 := int 235 ]} |}).
Proof.
  exact (Relay30a_refresh_agrees_with_report (H := example_runtime)
           (answers (idx 0x0000) (int 235)) {[ idx 0x0000 := int 235 ]} (idx 0x0000) (int 235)
           eq_refl eq_refl eq_refl eq_refl eq_refl).
Defined.

(** The setup of the example device on a radio stack where every request
    throws. *)
Lemma earlier_setup_survives_failures_witness :
  exists t,
    Relay30a.configure all_fail example_device None [] = (Return tt, [] ++ t)
    /\ requests t
       = binding_step 1 :: firstn 7 (reporting_steps 1) ++ firstn 4 (seed_reads 1)
           ++ [Read 1 (ClusterId 0x04E0) [0x0000; 0x0003]%N].
Proof.
  exact (earlier_setup_survives_failures all_fail example_device None example_endpoint
           eq_refl []).
Defined.
